(** * open_science_catalog_backend: the pull-request-backed revision
      workflow, the item endpoints and the processing proxy

    A shallow embedding of [pull_request.py], followed by the functions of
    [views.py] that call it and by [processing_proxy_views.py].

    [pull_request.py] talks to three
    things that are not part of it: the Python runtime (strings, the [json]
    module, [pathlib], [urllib.parse]), the [config] module and the GitHub
    API reached through PyGithub.  The runtime pieces the functions call are
    modelled below the way CPython behaves; the configuration values are
    section variables; the hosting platform is an arbitrary state machine
    answering every call, so that each statement holds whatever the platform
    answers (other clients acting between two calls included).

    Out of the model: floating point (a JSON float keeps its literal text),
    interpreter resource limits (recursion depth, integer digit limit), and
    the text of exception messages. *)

From Stdlib Require Import List ZArith NArith String Ascii Bool Lia.
From Stdlib Require Import DecimalString DecimalPos DecimalZ.
Import ListNotations.

Set Warnings "-register-all".


(** ** Python strings

    A [str] is a sequence of code points.  CPython allows every code point
    below 0x110000 in a [str], the surrogates 0xD800..0xDFFF included. *)

Module Py.

Definition str := list N.

Definition of_string (s : string) : str :=
  map N_of_ascii (list_ascii_of_string s).

Fixpoint eqb (a b : str) : bool :=
  match a, b with
  | [], [] => true
  | x :: a', y :: b' => N.eqb x y && eqb a' b'
  | _, _ => false
  end.

(** Every code point is below 0x110000, as in any [str]. *)
Definition valid (s : str) : bool := forallb (fun c => (c <? 0x110000)%N) s.

Definition is_high_surrogate (c : N) : bool := ((0xD800 <=? c) && (c <=? 0xDBFF))%N.
Definition is_low_surrogate (c : N) : bool := ((0xDC00 <=? c) && (c <=? 0xDFFF))%N.
Definition is_surrogate (c : N) : bool := ((0xD800 <=? c) && (c <=? 0xDFFF))%N.

(** No high surrogate is directly followed by a low surrogate. *)
Fixpoint no_surrogate_pair (s : str) : bool :=
  match s with
  | [] => true
  | c :: r =>
      match r with
      | [] => true
      | d :: _ => negb (is_high_surrogate c && is_low_surrogate d) && no_surrogate_pair r
      end
  end.

(** Unicode text: no surrogate code point at all. *)
Definition is_text (s : str) : bool :=
  forallb (fun c => (c <? 0x110000)%N && negb (is_surrogate c)) s.

(** [str(n)] for an [int]. *)
Definition str_of_int (z : Z) : str :=
  of_string (NilZero.string_of_int (Z.to_int z)).

(** [sep.join(parts)] *)
Fixpoint join (sep : str) (parts : list str) : str :=
  match parts with
  | [] => []
  | [p] => p
  | p :: rest => p ++ sep ++ join sep rest
  end.

(** [s.startswith(prefix)] and the text after the prefix. *)
Fixpoint strip_prefix (prefix s : str) : option str :=
  match prefix, s with
  | [], _ => Some s
  | p :: prefix', c :: s' => if N.eqb p c then strip_prefix prefix' s' else None
  | _ :: _, [] => None
  end.

End Py.

(** A [str] literal; used with ASCII text only. *)
Definition py : string -> Py.str := Py.of_string.

(** ** Exceptions and results *)

(** Exception classes of PyGithub: every one derives from [GithubException]
    and carries the HTTP status. *)
Inductive gh_class : Type :=
| GithubException
| BadCredentialsException
| UnknownObjectException
| RateLimitExceededException.

Inductive exn : Type :=
| JSONDecodeError
| TypeError
| UnicodeEncodeError
| RecursionError
| DeserializeError                      (* PullRequestBody.DeserializeError *)
| Github (c : gh_class) (status : Z)
| ConnectionError.                      (* transport failure below PyGithub *)

Inductive result (A : Type) : Type :=
| Ok (a : A)
| Raise (e : exn).
Arguments Ok {A} a.
Arguments Raise {A} e.

Definition rbind {A B} (r : result A) (k : A -> result B) : result B :=
  match r with
  | Ok a => k a
  | Raise e => Raise e
  end.

Definition rmap {A B} (f : A -> B) (r : result A) : result B :=
  rbind r (fun a => Ok (f a)).

Declare Scope result_scope.
Delimit Scope result_scope with result.
Notation "x <- c ;; k" := (rbind c (fun x => k))
  (at level 61, c at next level, right associativity) : result_scope.
Notation "' p <- c ;; k" := (rbind c (fun p => k))
  (at level 61, p pattern, c at next level, right associativity) : result_scope.

Definition gh_class_eqb (a b : gh_class) : bool :=
  match a, b with
  | GithubException, GithubException
  | BadCredentialsException, BadCredentialsException
  | UnknownObjectException, UnknownObjectException
  | RateLimitExceededException, RateLimitExceededException => true
  | _, _ => false
  end.

(** [isinstance(e, github.GithubException)] *)
Definition is_GithubException (e : exn) : bool :=
  match e with Github _ _ => true | _ => false end.

(** [isinstance(e, github.UnknownObjectException)] *)
Definition is_UnknownObjectException (e : exn) : bool :=
  match e with Github UnknownObjectException _ => true | _ => false end.

(** ** Enumerations *)

Inductive ChangeType : Type := add | update | delete.

Definition ChangeType_value (c : ChangeType) : Py.str :=
  match c with
  | add => py "Add"
  | update => py "Update"
  | delete => py "Delete"
  end.

Definition datetime := Z.

(** The attributes of a PyGithub pull request that the module reads. *)
Record PullRequest : Type := mkPullRequest {
  pr_body : option Py.str;
  pr_html_url : Py.str;
  pr_state : Py.str;
  pr_merged_at : option datetime;
  pr_created_at : datetime
}.

Module PullRequestState.

Inductive t : Type := pending | merged | rejected.

Definition value (s : t) : Py.str :=
  match s with
  | pending => py "Pending"
  | merged => py "Merged"
  | rejected => py "Rejected"
  end.

Definition from_pull_request (pr : PullRequest) : t :=
  if Py.eqb (pr_state pr) (py "open") then pending
  else match pr_merged_at pr with
       | Some _ => merged
       | None => rejected
       end.

End PullRequestState.

(** ** Python values

    The values that reach [json.dumps], [json.loads] and the fields of a
    [PullRequestBody].  A dataclass does not check the types of its fields,
    so a field holds any value.  Dictionaries keep insertion order and have
    [str] keys (JSON objects and [dataclasses.asdict] give no other). *)

Inductive pyval : Type :=
| PNone
| PBool (b : bool)
| PInt (z : Z)
| PFloat (literal : Py.str)
| PStr (s : Py.str)
| PList (l : list pyval)
| PDict (d : list (Py.str * pyval))
| PChangeType (c : ChangeType)
| PPullRequestState (s : PullRequestState.t)
| PDatetime (t : datetime).

(** [ChangeType] and [PullRequestState] mix in [str]: a member is a [str]
    instance whose text is its value. *)
Definition as_str (v : pyval) : option Py.str :=
  match v with
  | PStr s => Some s
  | PChangeType c => Some (ChangeType_value c)
  | PPullRequestState s => Some (PullRequestState.value s)
  | _ => None
  end.

(** [a == b] between two [str] instances (plain or enum members). *)
Definition str_eq (a b : pyval) : Prop :=
  exists s, as_str a = Some s /\ as_str b = Some s.

(** [d[k] = v] *)
Fixpoint dict_set (d : list (Py.str * pyval)) (k : Py.str) (v : pyval)
  : list (Py.str * pyval) :=
  match d with
  | [] => [(k, v)]
  | (k', v') :: d' =>
      if Py.eqb k' k then (k', v) :: d' else (k', v') :: dict_set d' k v
  end.

Fixpoint dict_get (d : list (Py.str * pyval)) (k : Py.str) : option pyval :=
  match d with
  | [] => None
  | (k', v') :: d' => if Py.eqb k' k then Some v' else dict_get d' k
  end.

Definition dict_keys (d : list (Py.str * pyval)) : list Py.str := map fst d.

(** [k in keys] *)
Definition str_in (k : Py.str) (keys : list Py.str) : bool :=
  existsb (Py.eqb k) keys.

(** ** The [json] module *)

Module json.

Open Scope N_scope.

Definition QUOTE : N := 34.
Definition BACKSLASH : N := 92.
Definition SLASH : N := Eval cbv in N_of_ascii "/".
Definition LBRACE : N := Eval cbv in N_of_ascii "{".
Definition RBRACE : N := Eval cbv in N_of_ascii "}".
Definition LBRACKET : N := Eval cbv in N_of_ascii "[".
Definition RBRACKET : N := Eval cbv in N_of_ascii "]".
Definition COMMA : N := Eval cbv in N_of_ascii ",".
Definition COLON : N := Eval cbv in N_of_ascii ":".
Definition MINUS : N := Eval cbv in N_of_ascii "-".
Definition PLUS : N := Eval cbv in N_of_ascii "+".
Definition DOT : N := Eval cbv in N_of_ascii ".".
Definition ZERO : N := Eval cbv in N_of_ascii "0".
Definition NINE : N := Eval cbv in N_of_ascii "9".
Definition LOWER_U : N := Eval cbv in N_of_ascii "u".

(** *** Encoder ([ensure_ascii=True], default separators) *)

(** [Py_hexdigits[n]] *)
Definition hexdigit (n : N) : N := if n <? 10 then 48 + n else 87 + n.

Definition u_escape (c : N) : Py.str :=
  [BACKSLASH; LOWER_U;
   hexdigit (N.land (N.shiftr c 12) 15); hexdigit (N.land (N.shiftr c 8) 15);
   hexdigit (N.land (N.shiftr c 4) 15); hexdigit (N.land c 15)].

(** [S_CHAR]: printable ASCII other than the quote and the backslash. *)
Definition S_CHAR (c : N) : bool :=
  (32 <=? c) && (c <=? 126) && negb (c =? BACKSLASH) && negb (c =? QUOTE).

(** [ascii_escape_unichar] *)
Definition ascii_escape_unichar (c : N) : Py.str :=
  if c =? BACKSLASH then [BACKSLASH; BACKSLASH]
  else if c =? QUOTE then [BACKSLASH; QUOTE]
  else if c =? 8 then BACKSLASH :: py "b"
  else if c =? 12 then BACKSLASH :: py "f"
  else if c =? 10 then BACKSLASH :: py "n"
  else if c =? 13 then BACKSLASH :: py "r"
  else if c =? 9 then BACKSLASH :: py "t"
  else if 0x10000 <=? c then
    let v := c - 0x10000 in
    u_escape (N.lor 0xD800 (N.land (N.shiftr v 10) 0x3FF))
      ++ u_escape (N.lor 0xDC00 (N.land v 0x3FF))
  else u_escape c.

Definition encode_char (c : N) : Py.str :=
  if S_CHAR c then [c] else ascii_escape_unichar c.

Definition escape (s : Py.str) : Py.str := flat_map encode_char s.

(** [py_encode_basestring_ascii] *)
Definition encode_basestring_ascii (s : Py.str) : Py.str :=
  QUOTE :: escape s ++ [QUOTE].

Close Scope N_scope.

Open Scope result_scope.

(** [json.dumps(v)].  A value that is none of [None], [bool], [int],
    [float], [str], list or dict raises [TypeError]. *)
Fixpoint dumps (v : pyval) : result Py.str :=
  match v with
  | PNone => Ok (py "null")
  | PBool true => Ok (py "true")
  | PBool false => Ok (py "false")
  | PInt z => Ok (Py.str_of_int z)
  | PFloat literal => Ok literal
  | PStr s => Ok (encode_basestring_ascii s)
  | PChangeType c => Ok (encode_basestring_ascii (ChangeType_value c))
  | PPullRequestState s => Ok (encode_basestring_ascii (PullRequestState.value s))
  | PList l =>
      parts <- (fix items (l : list pyval) : result (list Py.str) :=
                  match l with
                  | [] => Ok []
                  | x :: l' => s <- dumps x ;; ss <- items l' ;; Ok (s :: ss)
                  end) l ;;
      Ok (py "[" ++ Py.join (py ", ") parts ++ py "]")
  | PDict d =>
      parts <- (fix items (d : list (Py.str * pyval)) : result (list Py.str) :=
                  match d with
                  | [] => Ok []
                  | (k, x) :: d' =>
                      s <- dumps x ;; ss <- items d' ;;
                      Ok ((encode_basestring_ascii k ++ py ": " ++ s) :: ss)
                  end) d ;;
      Ok (py "{" ++ Py.join (py ", ") parts ++ py "}")
  | PDatetime _ => Raise TypeError
  end.

(** *** Decoder (the C scanner, [strict=True])

    The text still to be read is passed along instead of an index. *)

Open Scope N_scope.

(** [IS_WHITESPACE] *)
Definition is_ws (c : N) : bool :=
  (c =? 32) || (c =? 9) || (c =? 10) || (c =? 13).

Fixpoint skip_ws (s : Py.str) : Py.str :=
  match s with
  | [] => []
  | c :: r => if is_ws c then skip_ws r else s
  end.

Definition is_digit (c : N) : bool := (ZERO <=? c) && (c <=? NINE).

Definition hexval (c : N) : option N :=
  if (48 <=? c) && (c <=? 57) then Some (c - 48)
  else if (97 <=? c) && (c <=? 102) then Some (c - 87)
  else if (65 <=? c) && (c <=? 70) then Some (c - 55)
  else None.

(** Four hex digits, [c <<= 4; c |= digit] for each. *)
Definition hex4 (a b c d : N) : option N :=
  match hexval a, hexval b, hexval c, hexval d with
  | Some x, Some y, Some z, Some w =>
      Some (N.lor (N.shiftl (N.lor (N.shiftl (N.lor (N.shiftl x 4) y) 4) z) 4) w)
  | _, _, _, _ => None
  end.

(** [Py_UNICODE_JOIN_SURROGATES] *)
Definition join_surrogates (high low : N) : N :=
  0x10000 + N.lor (N.shiftl (N.land high 0x3FF) 10) (N.land low 0x3FF).

(** The character after a backslash, other than [u]. *)
Definition unescape (e : N) : option N :=
  if e =? QUOTE then Some QUOTE
  else if e =? BACKSLASH then Some BACKSLASH
  else if e =? SLASH then Some SLASH
  else if e =? 98 then Some 8          (* b *)
  else if e =? 102 then Some 12        (* f *)
  else if e =? 110 then Some 10        (* n *)
  else if e =? 114 then Some 13        (* r *)
  else if e =? 116 then Some 9         (* t *)
  else None.

(** [scanstring]: the text after an opening quote, up to and including the
    closing quote.  A [\uXXXX] escape of a high surrogate followed by a
    [\uXXXX] escape of a low surrogate gives one code point. *)
Fixpoint scanstring (s : Py.str) : result (Py.str * Py.str) :=
  match s with
  | [] => Raise JSONDecodeError
  | c :: rest =>
      if c =? QUOTE then Ok ([], rest)
      else if c =? BACKSLASH then
        match rest with
        | [] => Raise JSONDecodeError
        | e :: rest1 =>
            if e =? LOWER_U then
              match rest1 with
              | h1 :: h2 :: h3 :: h4 :: rest2 =>
                  match hex4 h1 h2 h3 h4 with
                  | None => Raise JSONDecodeError
                  | Some u =>
                      let single :=
                        '(t, r) <- scanstring rest2 ;; Ok (u :: t, r) in
                      if Py.is_high_surrogate u then
                        match rest2 with
                        | b :: u' :: g1 :: g2 :: g3 :: g4 :: rest3 =>
                            if (b =? BACKSLASH) && (u' =? LOWER_U) then
                              match hex4 g1 g2 g3 g4 with
                              | None => Raise JSONDecodeError
                              | Some u2 =>
                                  if Py.is_low_surrogate u2 then
                                    '(t, r) <- scanstring rest3 ;;
                                    Ok (join_surrogates u u2 :: t, r)
                                  else single
                              end
                            else single
                        | _ => single
                        end
                      else single
                  end
              | _ => Raise JSONDecodeError
              end
            else
              match unescape e with
              | None => Raise JSONDecodeError
              | Some ch => '(t, r) <- scanstring rest1 ;; Ok (ch :: t, r)
              end
        end
      else if c <=? 0x1F then Raise JSONDecodeError
      else '(t, r) <- scanstring rest ;; Ok (c :: t, r)
  end.

Fixpoint span_digits (s : Py.str) : Py.str * Py.str :=
  match s with
  | [] => ([], [])
  | c :: r =>
      if is_digit c then let (ds, r') := span_digits r in (c :: ds, r')
      else ([], s)
  end.

Definition digits_value (ds : Py.str) : Z :=
  fold_left (fun acc c => (acc * 10 + Z.of_N (c - 48))%Z) ds 0%Z.

(** [_match_number_unicode]: an optional minus sign, then 0 or a digit
    string not starting with 0, then an optional fraction (a dot and
    digits), then an optional exponent (e or E, an optional sign, digits).
    A fraction or exponent without digits is left unread. *)

(** The integer digits and the text after them. *)
Definition read_int (s : Py.str) : option (Py.str * Py.str) :=
  match s with
  | [] => None
  | c :: r =>
      if (49 <=? c) && (c <=? NINE) then
        let (ds, r') := span_digits r in Some (c :: ds, r')
      else if c =? ZERO then Some ([c], r)
      else None
  end.

(** The fraction, if a dot and a digit follow. *)
Definition read_frac (s : Py.str) : Py.str * Py.str :=
  match s with
  | d :: x :: r =>
      if (d =? DOT) && is_digit x then
        let (fs, r') := span_digits r in (d :: x :: fs, r')
      else ([], s)
  | _ => ([], s)
  end.

(** The exponent, if digits follow the letter and the optional sign; a
    sign that is the last character of the text is not read. *)
Definition read_exp (s : Py.str) : Py.str * Py.str :=
  match s with
  | e :: r =>
      if (e =? 101) || (e =? 69) then
        let (sign, r') :=
          match r with
          | sg :: x :: r0 =>
              if (sg =? MINUS) || (sg =? PLUS) then ([sg], x :: r0)
              else ([], r)
          | _ => ([], r)
          end in
        let (es, r'') := span_digits r' in
        match es with
        | [] => ([], s)
        | _ :: _ => (e :: sign ++ es, r'')
        end
      else ([], s)
  | [] => ([], s)
  end.

(** The number after the optional sign: an [int] when there is neither
    fraction nor exponent, a [float] otherwise. *)
Definition number_body (neg : bool) (s : Py.str) : option (pyval * Py.str) :=
  match read_int s with
  | None => None
  | Some (ds, r1) =>
      let (frac, r2) := read_frac r1 in
      let (ex, r3) := read_exp r2 in
      match frac, ex with
      | [], [] =>
          Some (PInt (if neg then - digits_value ds else digits_value ds), r3)
      | _, _ =>
          Some (PFloat ((if neg then [MINUS] else []) ++ ds ++ frac ++ ex), r3)
      end
  end.

Definition match_number (s : Py.str) : option (pyval * Py.str) :=
  match s with
  | c :: r => if c =? MINUS then number_body true r else number_body false s
  | [] => None
  end.

(** The named constants and, failing them, a number. *)
Definition scan_atom (s : Py.str) : result (pyval * Py.str) :=
  match Py.strip_prefix (py "null") s with
  | Some r => Ok (PNone, r)
  | None =>
  match Py.strip_prefix (py "true") s with
  | Some r => Ok (PBool true, r)
  | None =>
  match Py.strip_prefix (py "false") s with
  | Some r => Ok (PBool false, r)
  | None =>
  match Py.strip_prefix (py "NaN") s with
  | Some r => Ok (PFloat (py "NaN"), r)
  | None =>
  match Py.strip_prefix (py "Infinity") s with
  | Some r => Ok (PFloat (py "Infinity"), r)
  | None =>
  match Py.strip_prefix (py "-Infinity") s with
  | Some r => Ok (PFloat (py "-Infinity"), r)
  | None =>
  match match_number s with
  | Some vr => Ok vr
  | None => Raise JSONDecodeError            (* Expecting value *)
  end end end end end end end.

(** [scan_once] with the loops of [_parse_object] and [_parse_array].
    [fuel] bounds the nesting of calls; [decode] gives enough of it. *)
Fixpoint scan_once (fuel : nat) (s : Py.str) {struct fuel}
  : result (pyval * Py.str) :=
  match fuel with
  | O => Raise RecursionError
  | S fuel' =>
      match s with
      | [] => Raise JSONDecodeError         (* Expecting value *)
      | c :: rest =>
          if c =? QUOTE then
            '(t, r) <- scanstring rest ;; Ok (PStr t, r)
          else if c =? LBRACE then
            match skip_ws rest with
            | [] => Raise JSONDecodeError
            | c' :: r' =>
                if c' =? RBRACE then Ok (PDict [], r')
                else object_items fuel' [] (c' :: r')
            end
          else if c =? LBRACKET then
            match skip_ws rest with
            | [] => Raise JSONDecodeError
            | c' :: r' =>
                if c' =? RBRACKET then Ok (PList [], r')
                else array_items fuel' [] (c' :: r')
            end
          else scan_atom s
      end
  end

with object_items (fuel : nat) (acc : list (Py.str * pyval)) (s : Py.str)
  {struct fuel} : result (pyval * Py.str) :=
  match fuel with
  | O => Raise RecursionError
  | S fuel' =>
      match s with
      | [] => Raise JSONDecodeError
      | q :: r =>
          if q =? QUOTE then
            '(key, r1) <- scanstring r ;;
            match skip_ws r1 with
            | [] => Raise JSONDecodeError
            | colon :: r2 =>
                if colon =? COLON then
                  '(v, r3) <- scan_once fuel' (skip_ws r2) ;;
                  let acc' := dict_set acc key v in
                  match skip_ws r3 with
                  | [] => Raise JSONDecodeError
                  | d :: r4 =>
                      if d =? RBRACE then Ok (PDict acc', r4)
                      else if d =? COMMA then object_items fuel' acc' (skip_ws r4)
                      else Raise JSONDecodeError
                  end
                else Raise JSONDecodeError   (* Expecting ':' delimiter *)
            end
          else Raise JSONDecodeError         (* Expecting property name *)
      end
  end

with array_items (fuel : nat) (acc : list pyval) (s : Py.str)
  {struct fuel} : result (pyval * Py.str) :=
  match fuel with
  | O => Raise RecursionError
  | S fuel' =>
      '(v, r1) <- scan_once fuel' s ;;
      let acc' := acc ++ [v] in
      match skip_ws r1 with
      | [] => Raise JSONDecodeError
      | d :: r2 =>
          if d =? RBRACKET then Ok (PList acc', r2)
          else if d =? COMMA then array_items fuel' acc' (skip_ws r2)
          else Raise JSONDecodeError
      end
  end.

Definition fuel_for (s : Py.str) : nat := (2 * List.length s + 2)%nat.

(** [JSONDecoder.decode]: one value, white space around it, nothing else. *)
Definition decode (s : Py.str) : result pyval :=
  '(v, r) <- scan_once (fuel_for s) (skip_ws s) ;;
  match skip_ws r with
  | [] => Ok v
  | _ :: _ => Raise JSONDecodeError          (* Extra data *)
  end.

(** [json.loads(data)].  [None] is not a [str]: [TypeError]. *)
Definition loads (data : option Py.str) : result pyval :=
  match data with
  | None => Raise TypeError
  | Some s =>
      match s with
      | 0xFEFF :: _ => Raise JSONDecodeError   (* Unexpected UTF-8 BOM *)
      | _ => decode s
      end
  end.

Close Scope N_scope.
Close Scope result_scope.

End json.

(** ** [try] / [except] on results *)

Definition try_except {A} (body : result A) (handler : exn -> option (result A))
  : result A :=
  match body with
  | Ok a => Ok a
  | Raise e =>
      match handler e with
      | Some h => h
      | None => Raise e
      end
  end.

(** ** The change descriptor *)

Module PullRequestBody.

Open Scope result_scope.

(** The frozen dataclass.  Field types are annotations only. *)
Record t : Type := mk {
  filename : pyval;
  item_type : pyval;
  change_type : pyval;
  state : pyval;
  url : pyval;
  created_at : pyval;
  user : pyval;
  data_owner : pyval
}.

(** A descriptor whose fields have the annotated types. *)
Definition make (filename item_type : Py.str) (change_type : ChangeType)
  (state : PullRequestState.t) (url : option Py.str)
  (created_at : option datetime) (user : Py.str) (data_owner : bool) : t :=
  mk (PStr filename) (PStr item_type) (PChangeType change_type)
     (PPullRequestState state)
     (match url with Some u => PStr u | None => PNone end)
     (match created_at with Some d => PDatetime d | None => PNone end)
     (PStr user) (PBool data_owner).

(** [dataclasses.asdict(self)]: the fields in declaration order. *)
Definition asdict (self : t) : list (Py.str * pyval) :=
  [ (py "filename", filename self);
    (py "item_type", item_type self);
    (py "change_type", change_type self);
    (py "state", state self);
    (py "url", url self);
    (py "created_at", created_at self);
    (py "user", user self);
    (py "data_owner", data_owner self) ].

(** The dict comprehension of [serialize]. *)
Definition serialize_dict (self : t) : list (Py.str * pyval) :=
  filter (fun kv => negb (str_in (fst kv) [py "url"; py "created_at"; py "state"]))
         (asdict self).

Definition serialize (self : t) : result Py.str :=
  json.dumps (PDict (serialize_dict self)).

Definition field_names : list Py.str :=
  [ py "filename"; py "item_type"; py "change_type"; py "state"; py "url";
    py "created_at"; py "user"; py "data_owner" ].

(** The call [cls( **obj, url=url, state=state, created_at=created_at)].
    [obj] has to be a mapping; a key given twice, a key that is no field and
    a field left without a value are each a [TypeError]. *)
Definition construct (obj : pyval) (url_ : Py.str) (state_ : PullRequestState.t)
  (created_at_ : datetime) : result t :=
  match obj with
  | PDict d =>
      if existsb (fun k => str_in k [py "url"; py "state"; py "created_at"])
                 (dict_keys d)
      then Raise TypeError       (* got multiple values for keyword argument *)
      else
        let kwargs := d ++ [ (py "url", PStr url_);
                             (py "state", PPullRequestState state_);
                             (py "created_at", PDatetime created_at_) ] in
        if forallb (fun k => str_in k field_names) (dict_keys kwargs) then
          match dict_get kwargs (py "filename"), dict_get kwargs (py "item_type"),
                dict_get kwargs (py "change_type"), dict_get kwargs (py "state"),
                dict_get kwargs (py "url"), dict_get kwargs (py "created_at"),
                dict_get kwargs (py "user"), dict_get kwargs (py "data_owner") with
          | Some f, Some i, Some c, Some s, Some u, Some ca, Some us, Some o =>
              Ok (mk f i c s u ca us o)
          | _, _, _, _, _, _, _, _ =>
              Raise TypeError    (* missing required argument *)
          end
        else Raise TypeError     (* unexpected keyword argument *)
  | _ => Raise TypeError         (* argument after ** must be a mapping *)
  end.

Definition deserialize (data : option Py.str) (url_ : Py.str)
  (state_ : PullRequestState.t) (created_at_ : datetime) : result t :=
  try_except
    (obj <- json.loads data ;; construct obj url_ state_ created_at_)
    (fun e =>
       match e with
       | JSONDecodeError | TypeError => Some (Raise DeserializeError)
       | _ => None
       end).

Close Scope result_scope.

End PullRequestBody.

(** ** [pathlib.PurePath] (POSIX flavour) *)

Module PurePath.

Record t : Type := mk {
  root : Py.str;            (* empty, "/" or "//" *)
  parts : list Py.str       (* the segments after the root *)
}.

(** [s.split("/")] *)
Fixpoint split (s : Py.str) : list Py.str :=
  match s with
  | [] => [[]]
  | c :: r =>
      if N.eqb c json.SLASH then [] :: split r
      else match split r with
           | [] => [[c]]
           | seg :: segs => (c :: seg) :: segs
           end
  end.

(** Exactly two leading slashes are kept as a root of their own. *)
Definition splitroot (s : Py.str) : Py.str :=
  match s with
  | a :: r =>
      if N.eqb a json.SLASH then
        match r with
        | b :: r' =>
            if N.eqb b json.SLASH then
              match r' with
              | c :: _ => if N.eqb c json.SLASH then py "/" else py "//"
              | [] => py "//"
              end
            else py "/"
        | [] => py "/"
        end
      else []
  | [] => []
  end.

(** [PurePath(path)]: empty segments and "." segments are dropped. *)
Definition of_str (path : Py.str) : t :=
  mk (splitroot path)
     (filter (fun seg => negb (Py.eqb seg []) && negb (Py.eqb seg (py ".")))
             (split path)).

(** [str(p)] *)
Definition to_str (p : t) : Py.str :=
  match root p, parts p with
  | [], [] => py "."
  | r, ps => r ++ Py.join (py "/") ps
  end.

(** [p.name] *)
Definition name (p : t) : Py.str := last (parts p) [].

(** [p.parent] *)
Definition parent (p : t) : t := mk (root p) (removelast (parts p)).

End PurePath.

(** ** [urllib.parse] *)

Module urllib.

Open Scope N_scope.

(** [s.encode("utf-8")], strict: a surrogate cannot be encoded. *)
Definition utf8_char (c : N) : result (list N) :=
  if c <? 0x80 then Ok [c]
  else if c <? 0x800 then
    Ok [N.lor 0xC0 (N.shiftr c 6); N.lor 0x80 (N.land c 0x3F)]
  else if c <? 0x10000 then
    if Py.is_surrogate c then Raise UnicodeEncodeError
    else Ok [N.lor 0xE0 (N.shiftr c 12);
             N.lor 0x80 (N.land (N.shiftr c 6) 0x3F);
             N.lor 0x80 (N.land c 0x3F)]
  else
    Ok [N.lor 0xF0 (N.shiftr c 18);
        N.lor 0x80 (N.land (N.shiftr c 12) 0x3F);
        N.lor 0x80 (N.land (N.shiftr c 6) 0x3F);
        N.lor 0x80 (N.land c 0x3F)].

Fixpoint utf8 (s : Py.str) : result (list N) :=
  match s with
  | [] => Ok []
  | c :: r =>
      rbind (utf8_char c) (fun bs => rbind (utf8 r) (fun rest => Ok (bs ++ rest)))
  end.

(** Letters, digits and [_.-~] are never quoted. *)
Definition always_safe (b : N) : bool :=
  ((65 <=? b) && (b <=? 90)) || ((97 <=? b) && (b <=? 122))
  || ((48 <=? b) && (b <=? 57))
  || (b =? 95) || (b =? 46) || (b =? 45) || (b =? 126).

Definition upper_hexdigit (n : N) : N := if n <? 10 then 48 + n else 55 + n.

(** One byte under [quote_plus]: a space becomes a plus sign. *)
Definition quote_byte (b : N) : Py.str :=
  if always_safe b then [b]
  else if b =? 32 then [json.PLUS]
  else [37; upper_hexdigit (N.shiftr b 4); upper_hexdigit (N.land b 15)].

Definition quote_plus (s : Py.str) : result Py.str :=
  rbind (utf8 s) (fun bs => Ok (flat_map quote_byte bs)).

(** [urlencode({"": v})[1:]]: the lone pair reads ["=" + quote_plus(v)],
    and the slice drops the equals sign. *)
Definition urlencode_value (v : Py.str) : result Py.str := quote_plus v.

Close Scope N_scope.

End urllib.

(** ** The hosting platform

    What PyGithub returns and what the module sends.  The platform is a
    state machine on a state [W] of its own: every call gets an answer (a
    value or an exception) and a next state.  Nothing is assumed about the
    answers, so the next state may hold the work of other clients too. *)

Definition bytes := list Byte.byte.

Record Branch : Type := mkBranch { commit_sha : Py.str }.

Record GitTreeElement : Type := mkGitTreeElement {
  elem_path : Py.str;
  elem_sha : Py.str
}.

Record GitTree : Type := mkGitTree { tree : list GitTreeElement }.

Record Platform (W : Type) : Type := mkPlatform {
  (* github.Github(token).get_repo(repo_id) *)
  gh_get_repo : Py.str -> Py.str -> W -> result unit * W;
  (* repo.get_branch(name) *)
  gh_get_branch : Py.str -> W -> result Branch * W;
  (* repo.create_git_ref(ref, sha) *)
  gh_create_git_ref : Py.str -> Py.str -> W -> result unit * W;
  (* repo.get_git_tree(ref, recursive) *)
  gh_get_git_tree : Py.str -> bool -> W -> result GitTree * W;
  (* repo.update_file(path, message, content, sha, branch) *)
  gh_update_file : Py.str -> Py.str -> bytes -> Py.str -> Py.str -> W -> result unit * W;
  (* repo.delete_file(path, message, sha, branch) *)
  gh_delete_file : Py.str -> Py.str -> Py.str -> Py.str -> W -> result unit * W;
  (* repo.create_pull(title, body, head, base, maintainer_can_modify) *)
  gh_create_pull : Py.str -> Py.str -> Py.str -> Py.str -> bool -> W -> result PullRequest * W;
  (* pr.set_labels, with the labels as arguments *)
  gh_set_labels : PullRequest -> list Py.str -> W -> result unit * W;
  (* iterating repo.get_pulls(state): the pull requests fetched, and the
     exception that ended the iteration, if one did *)
  gh_get_pulls : Py.str -> W -> (list PullRequest * option exn) * W
}.

Arguments gh_get_repo {W}.
Arguments gh_get_branch {W}.
Arguments gh_create_git_ref {W}.
Arguments gh_get_git_tree {W}.
Arguments gh_update_file {W}.
Arguments gh_delete_file {W}.
Arguments gh_create_pull {W}.
Arguments gh_set_labels {W}.
Arguments gh_get_pulls {W}.

(** The calls sent to the platform, as the trace records them. *)
Inductive call : Type :=
| GetRepo (token repo_id : Py.str)
| GetBranch (name : Py.str)
| CreateGitRef (ref sha : Py.str)
| GetGitTree (ref : Py.str) (recursive : bool)
| UpdateFile (path message : Py.str) (content : bytes) (sha branch : Py.str)
| DeleteFile (path message sha branch : Py.str)
| CreatePull (title body head base : Py.str) (maintainer_can_modify : bool)
| SetLabels (pr : PullRequest) (labels : list Py.str)
| GetPulls (state : Py.str).

Inductive answer : Type :=
| Done                                  (* returned, value of no interest *)
| GotBranch (b : Branch)
| GotTree (t : GitTree)
| GotPull (pr : PullRequest)
| GotPulls (prs : list PullRequest) (stopped : option exn)
| Failed (e : exn).

Record event : Type := mkEvent { sent : call; got : answer }.

(** ** Configuration ([config.py], not part of the sources read here) *)

Record Config : Type := mkConfig {
  GITHUB_TOKEN : Py.str;
  GITHUB_REPO_ID : Py.str;
  GITHUB_MAIN_BRANCH : Py.str
}.

(** ** The functions that talk to the platform *)

Section Workflow.

Variable W : Type.
Variable gh : Platform W.
Variable config : Config.

(** The state threaded through a run: the platform, the calls made so far
    (oldest first) and the lines logged. *)
Record run_state : Type := mkState {
  world : W;
  calls : list event;
  logged : list Py.str
}.

Definition M (A : Type) : Type := run_state -> result A * run_state.

Definition ret {A} (a : A) : M A := fun s => (Ok a, s).

Definition raise {A} (e : exn) : M A := fun s => (Raise e, s).

Definition bind {A B} (m : M A) (k : A -> M B) : M B :=
  fun s =>
    match m s with
    | (Ok a, s') => k a s'
    | (Raise e, s') => (Raise e, s')
    end.

(** A value or exception computed without the platform. *)
Definition lift {A} (r : result A) : M A := fun s => (r, s).

(** [try: body  except <the classes handler accepts>: ...] *)
Definition try_catch {A} (body : M A) (handler : exn -> option (M A)) : M A :=
  fun s =>
    match body s with
    | (Ok a, s') => (Ok a, s')
    | (Raise e, s') =>
        match handler e with
        | Some h => h s'
        | None => (Raise e, s')
        end
    end.

(** [logger.info(msg)] *)
Definition logger_info (msg : Py.str) : M unit :=
  fun s => (Ok tt, mkState (world s) (calls s) (logged s ++ [msg])).

(** One call to the platform, recorded with its answer. *)
Definition perform {A} (c : call) (f : W -> result A * W) (describe : A -> answer)
  : M A :=
  fun s =>
    let (r, w') := f (world s) in
    let a := match r with Ok v => describe v | Raise e => Failed e end in
    (r, mkState w' (calls s ++ [mkEvent c a]) (logged s)).

Definition get_repo (token repo_id : Py.str) : M unit :=
  perform (GetRepo token repo_id) (gh_get_repo gh token repo_id) (fun _ => Done).

Definition get_branch (name : Py.str) : M Branch :=
  perform (GetBranch name) (gh_get_branch gh name) GotBranch.

Definition create_git_ref (ref sha : Py.str) : M unit :=
  perform (CreateGitRef ref sha) (gh_create_git_ref gh ref sha) (fun _ => Done).

Definition get_git_tree (ref : Py.str) (recursive : bool) : M GitTree :=
  perform (GetGitTree ref recursive) (gh_get_git_tree gh ref recursive) GotTree.

Definition update_file (path message : Py.str) (content : bytes)
  (sha branch : Py.str) : M unit :=
  perform (UpdateFile path message content sha branch)
          (gh_update_file gh path message content sha branch) (fun _ => Done).

Definition delete_file (path message sha branch : Py.str) : M unit :=
  perform (DeleteFile path message sha branch)
          (gh_delete_file gh path message sha branch) (fun _ => Done).

Definition create_pull (title body head base : Py.str)
  (maintainer_can_modify : bool) : M PullRequest :=
  perform (CreatePull title body head base maintainer_can_modify)
          (gh_create_pull gh title body head base maintainer_can_modify) GotPull.

Definition set_labels (pr : PullRequest) (labels : list Py.str) : M unit :=
  perform (SetLabels pr labels) (gh_set_labels gh pr labels) (fun _ => Done).

Declare Scope run_scope.
Delimit Scope run_scope with run.
Notation "x <- c ;; k" := (bind c (fun x => k))
  (at level 61, c at next level, right associativity) : run_scope.
Notation "c ;; k" := (bind c (fun _ => k))
  (at level 61, right associativity) : run_scope.
Open Scope run_scope.

(** [_repo()] *)
Definition _repo : M unit :=
  get_repo (GITHUB_TOKEN config) (GITHUB_REPO_ID config).

(** [pull_requests()], a generator: what it yields, in order, and the
    exception that ends it, if one does. *)
Fixpoint pull_requests_loop (prs : list PullRequest) (stopped : option exn)
  (s : run_state) : (list PullRequestBody.t * option exn) * run_state :=
  match prs with
  | [] => (([], stopped), s)
  | pr :: rest =>
      match PullRequestBody.deserialize (pr_body pr) (pr_html_url pr)
              (PullRequestState.from_pull_request pr) (pr_created_at pr) with
      | Ok b =>
          let '((ys, e), s') := pull_requests_loop rest stopped s in
          ((b :: ys, e), s')
      | Raise DeserializeError =>
          (* probably manually created PR *)
          let s1 := snd (logger_info (py "Found incompatible PR, ignoring..") s) in
          pull_requests_loop rest stopped s1
      | Raise e => (([], Some e), s)
      end
  end.

Definition pull_requests (s : run_state)
  : (list PullRequestBody.t * option exn) * run_state :=
  match _repo s with
  | (Raise e, s1) => (([], Some e), s1)
  | (Ok _, s1) =>
      let (r, w') := gh_get_pulls gh (py "all") (world s1) in
      let (prs, stopped) := r in
      let s2 := mkState w' (calls s1 ++ [mkEvent (GetPulls (py "all"))
                                                 (GotPulls prs stopped)])
                        (logged s1) in
      pull_requests_loop prs stopped s2
  end.

(** [files_in_directory(directory)].  [_repo()] is called inside the [try];
    the [else] branch runs outside it.  The call leaves [recursive] at its
    default, which asks for no recursion. *)
Definition files_in_directory (directory : Py.str) : M (list Py.str) :=
  logger_info (py "Fetching tree for " ++ directory) ;;
  found <-
    try_catch
      (_repo ;;
       git_tree <- get_git_tree (GITHUB_MAIN_BRANCH config ++ py ":" ++ directory)
                                false ;;
       ret (Some git_tree))
      (fun e =>
         if is_UnknownObjectException e
         then Some (logger_info (py "Didn't find a git tree for " ++ directory) ;;
                    ret None)
         else None) ;;
  match found with
  | Some git_tree =>
      ret (map (fun node => PurePath.name (PurePath.of_str (elem_path node)))
               (tree git_tree))
  | None => ret []
  end.

(** [_previous_version_sha(repo, path)] *)
Definition _previous_version_sha (path : Py.str) : M Py.str :=
  let pure_path := PurePath.of_str path in
  encoded_tree_ref <-
    lift (urllib.urlencode_value
            (GITHUB_MAIN_BRANCH config ++ py ":"
               ++ PurePath.to_str (PurePath.parent pure_path))) ;;
  try_catch
    (parent_tree <- get_git_tree encoded_tree_ref false ;;
     ret (match find (fun tree_elem =>
                        Py.eqb (elem_path tree_elem) (PurePath.name pure_path))
                     (tree parent_tree) with
          | Some tree_elem => elem_sha tree_elem
          | None => []     (* this submission is a new file, that's fine *)
          end))
    (fun e =>
       if is_UnknownObjectException e
       then Some (ret [])  (* parent doesn't exist, so this is a new file *)
       else None).

(** The name tried with a given [postfix]. *)
Definition branch_name_for (branch_base_name : Py.str) (postfix : Z) : Py.str :=
  branch_base_name
    ++ (if Z.eqb postfix 1 then [] else py "-" ++ Py.str_of_int postfix).

(** [_create_branch(repo, branch_base_name, postfix)].  The recursion stops
    at the latest when [postfix] exceeds 15; [fuel] counts the calls that
    remain possible. *)
Fixpoint _create_branch_rec (fuel : nat) (branch_base_name : Py.str)
  (postfix : Z) {struct fuel} : M Py.str :=
  match fuel with
  | O => raise RecursionError
  | S fuel' =>
      main_branch <- get_branch (GITHUB_MAIN_BRANCH config) ;;
      let branch_name := branch_name_for branch_base_name postfix in
      logger_info (py "Creating branch with " ++ branch_name) ;;
      try_catch
        (create_git_ref (py "refs/heads/" ++ branch_name) (commit_sha main_branch) ;;
         ret branch_name)
        (fun e =>
           match e with
           | Github _ status =>
               Some (if Z.eqb status 422 then
                       (* we assume that 422 unprocessable entity means
                          branch exists *)
                       if Z.gtb postfix 15 (* safety *) then raise e
                       else _create_branch_rec fuel' branch_base_name (postfix + 1)
                     else raise e)
           | _ => None
           end)
  end.

Definition _create_branch (branch_base_name : Py.str) (postfix : Z) : M Py.str :=
  _create_branch_rec (S (Z.to_nat (16 - postfix))) branch_base_name postfix.

(** Truth value of an [Optional[str]] and of a tuple. *)
Definition truthy_str (o : option Py.str) : bool :=
  match o with
  | Some (_ :: _) => true
  | _ => false
  end.

Definition truthy_tuple {A} (l : list A) : bool :=
  match l with
  | [] => false
  | _ :: _ => true
  end.

Definition str_of_optional (o : option Py.str) : Py.str :=
  match o with
  | Some s => s
  | None => py "None"
  end.

(** [create_pull_request(...)] *)
Definition create_pull_request (branch_base_name pr_title pr_body : Py.str)
  (file_to_create : option (Py.str * bytes)) (file_to_delete : option Py.str)
  (labels : list Py.str) : M unit :=
  logger_info (py "Creating pull request") ;;
  logger_info (py "File to create: " ++ str_of_optional (option_map fst file_to_create)) ;;
  logger_info (py "File to delete: " ++ str_of_optional file_to_delete) ;;
  _repo ;;
  branch_name <- _create_branch branch_base_name 1 ;;
  match file_to_create with
  | Some (path, content) =>
      sha <- _previous_version_sha path ;;
      update_file path (py "Add " ++ path ++ py " for pull request submission")
                  content sha branch_name
  | None => ret tt
  end ;;
  (if truthy_str file_to_delete then
     let path := str_of_optional file_to_delete in
     sha <- _previous_version_sha path ;;
     delete_file path (py "Delete " ++ path ++ py " for pull request submission")
                 sha branch_name
   else ret tt) ;;
  pr <- create_pull pr_title pr_body branch_name (GITHUB_MAIN_BRANCH config) true ;;
  (if truthy_tuple labels then set_labels pr labels else ret tt) ;;
  logger_info (py "Pull request successfully created").

Close Scope run_scope.

End Workflow.

Arguments mkPlatform {W}.
Arguments mkState {W}.
Arguments world {W}.
Arguments calls {W}.
Arguments logged {W}.
Arguments ret {W A}.
Arguments raise {W A}.
Arguments bind {W A B}.
Arguments lift {W A}.
Arguments try_catch {W A}.
Arguments logger_info {W}.
Arguments perform {W A}.
Arguments get_repo {W}.
Arguments get_branch {W}.
Arguments create_git_ref {W}.
Arguments get_git_tree {W}.
Arguments update_file {W}.
Arguments delete_file {W}.
Arguments create_pull {W}.
Arguments set_labels {W}.
Arguments _repo {W}.
Arguments pull_requests_loop {W}.
Arguments pull_requests {W}.
Arguments files_in_directory {W}.
Arguments _previous_version_sha {W}.
Arguments _create_branch_rec {W}.
Arguments _create_branch {W}.
Arguments create_pull_request {W}.

(** ** A small hosting platform to run the functions on

    Branches, directory listings of the main branch and pull requests, kept
    in lists.  [sim_main] holds the tip of the main branch now and the tips
    other clients will push: each attempt to create a ref lets one push
    through.  Writes, deletes and label changes are accepted as they come. *)

Module Sim.

Record t : Type := mk {
  sim_main : Py.str;
  sim_pushes : list Py.str;
  sim_refs : list (Py.str * Py.str);
  sim_trees : list (Py.str * list GitTreeElement);
  sim_pulls : list PullRequest
}.

Definition main_name : Py.str := py "main".

Definition config : Config := mkConfig (py "token") (py "EOEPCA/catalog") main_name.

Fixpoint lookup {A} (k : Py.str) (l : list (Py.str * A)) : option A :=
  match l with
  | [] => None
  | (k', a) :: l' => if Py.eqb k' k then Some a else lookup k l'
  end.

Definition advance (w : t) : t :=
  match sim_pushes w with
  | [] => w
  | tip :: later => mk tip later (sim_refs w) (sim_trees w) (sim_pulls w)
  end.

Definition get_branch (name : Py.str) (w : t) : result Branch * t :=
  if Py.eqb name main_name then (Ok (mkBranch (sim_main w)), w)
  else match lookup (py "refs/heads/" ++ name) (sim_refs w) with
       | Some sha => (Ok (mkBranch sha), w)
       | None => (Raise (Github UnknownObjectException 404), w)
       end.

Definition create_git_ref (ref sha : Py.str) (w : t) : result unit * t :=
  match lookup ref (sim_refs w) with
  | Some _ => (Raise (Github GithubException 422), advance w)
  | None =>
      (Ok tt, advance (mk (sim_main w) (sim_pushes w) (sim_refs w ++ [(ref, sha)])
                          (sim_trees w) (sim_pulls w)))
  end.

Definition get_git_tree (ref : Py.str) (recursive : bool) (w : t)
  : result GitTree * t :=
  match lookup ref (sim_trees w) with
  | Some entries => (Ok (mkGitTree entries), w)
  | None => (Raise (Github UnknownObjectException 404), w)
  end.

Definition create_pull (title body head base : Py.str) (mcm : bool) (w : t)
  : result PullRequest * t :=
  let pr := mkPullRequest (Some body) (py "https://example.org/pull/1")
                          (py "open") None 0%Z in
  (Ok pr, mk (sim_main w) (sim_pushes w) (sim_refs w) (sim_trees w)
             (sim_pulls w ++ [pr])).

Definition platform : Platform t :=
  mkPlatform
    (fun _ _ w => (Ok tt, w))
    get_branch
    create_git_ref
    get_git_tree
    (fun _ _ _ _ _ w => (Ok tt, w))
    (fun _ _ _ _ w => (Ok tt, w))
    create_pull
    (fun _ _ w => (Ok tt, w))
    (fun _ w => ((sim_pulls w, None), w)).

Definition start (w : t) : run_state t := mkState w [] [].

End Sim.

(** A platform on which every branch name is reported as taken. *)
Module AlwaysTaken.

Definition platform : Platform unit :=
  mkPlatform
    (fun _ _ w => (Ok tt, w))
    (fun _ w => (Ok (mkBranch (py "c0ffee")), w))
    (fun _ _ w => (Raise (Github GithubException 422), w))
    (fun _ _ w => (Raise (Github UnknownObjectException 404), w))
    (fun _ _ _ _ _ w => (Ok tt, w))
    (fun _ _ _ _ w => (Ok tt, w))
    (fun _ _ _ _ _ w => (Raise ConnectionError, w))
    (fun _ _ w => (Ok tt, w))
    (fun _ w => (([], None), w)).

End AlwaysTaken.

(** * open_science_catalog_backend.views: the item endpoints

    The functions of [views.py] that reach [pull_request.py].  The module
    also imports [pull_requests_for_user], a name [pull_request.py] does not
    define; what follows is the body of the functions as written. *)

Module views.



Section Views.

Variable W : Type.
Variable gh : Platform W.
Variable config : Config.

(** [slugify] of python-slugify, which is not part of these sources. *)
Variable slugify : Py.str -> Py.str.




End Views.

End views.

(** * open_science_catalog_backend.processing_proxy_views: the processing
      proxy

    The handlers of [processing_proxy_views.py] reach remote processing
    backends through [requests] and [httpx] and are called by FastAPI.
    What these libraries do is left to a state machine that answers every
    outgoing request, to the fields of the incoming request and to section
    variables; the handlers' own steps (the target address, the headers
    sent and passed back, the choice of the manifest link, the order of the
    calls, what is raised and when) are modelled as written.  Log lines
    are kept as the text logged, or as the value where Python would write
    its [repr]. *)

Module processing_proxy.

(** ** Strings and bytes *)

Definition is_ascii (s : Py.str) : bool := forallb (fun c => (c <? 128)%N) s.

(** [s.lower()] on ASCII text, where it moves A..Z to a..z.  Beyond ASCII
    CPython applies the Unicode case mapping, which is not modelled: the
    properties below that depend on [lower] are stated for ASCII text,
    which header names and request methods are. *)
Definition lower_char (c : N) : N :=
  if ((65 <=? c) && (c <=? 90))%N then (c + 32)%N else c.

Definition lower (s : Py.str) : Py.str := map lower_char s.

(** [b.decode()], that is UTF-8, strict: [None] stands for
    [UnicodeDecodeError].  Overlong forms, surrogates and code points
    above U+10FFFF are refused. *)
Definition is_continuation (b : N) : bool := ((0x80 <=? b) && (b <=? 0xBF))%N.

Fixpoint utf8_decode (bs : list N) : option Py.str :=
  match bs with
  | [] => Some []
  | b0 :: r =>
      if (b0 <? 0x80)%N then option_map (cons b0) (utf8_decode r)
      else if (b0 <? 0xC2)%N then None
      else if (b0 <? 0xE0)%N then
        match r with
        | b1 :: r1 =>
            if is_continuation b1 then
              option_map
                (cons (N.lor (N.shiftl (N.land b0 0x1F) 6) (N.land b1 0x3F)))
                (utf8_decode r1)
            else None
        | _ => None
        end
      else if (b0 <? 0xF0)%N then
        match r with
        | b1 :: b2 :: r2 =>
            if (is_continuation b1 && is_continuation b2
                && (negb (b0 =? 0xE0) || (0xA0 <=? b1))
                && (negb (b0 =? 0xED) || (b1 <? 0xA0)))%N%bool then
              option_map
                (cons (N.lor (N.shiftl (N.land b0 0x0F) 12)
                         (N.lor (N.shiftl (N.land b1 0x3F) 6) (N.land b2 0x3F))))
                (utf8_decode r2)
            else None
        | _ => None
        end
      else if (b0 <? 0xF5)%N then
        match r with
        | b1 :: b2 :: b3 :: r3 =>
            if (is_continuation b1 && is_continuation b2 && is_continuation b3
                && (negb (b0 =? 0xF0) || (0x90 <=? b1))
                && (negb (b0 =? 0xF4) || (b1 <? 0x90)))%N%bool then
              option_map
                (cons (N.lor (N.shiftl (N.land b0 0x07) 18)
                         (N.lor (N.shiftl (N.land b1 0x3F) 12)
                            (N.lor (N.shiftl (N.land b2 0x3F) 6)
                               (N.land b3 0x3F)))))
                (utf8_decode r3)
            else None
        | _ => None
        end
      else None
  end.

Definition decode (content : bytes) : option Py.str :=
  utf8_decode (map Byte.to_N content).

(** ** Exceptions and outcomes *)

Inductive error : Type :=
| HTTPException (status_code : Z) (detail : Py.str)   (* fastapi *)
| KeyError (key : Py.str)
| ValueError                  (* unpacking a list that has not one element *)
| TypeError                   (* subscripting or iterating what allows neither *)
| UnicodeDecodeError
| Library (name : Py.str).    (* raised inside requests, httpx, urllib, yaml or
                                 the web framework *)

Inductive outcome (A : Type) : Type :=
| Return (a : A)
| Throw (e : error).
Arguments Return {A} a.
Arguments Throw {A} e.

(** ** Dictionaries with [str] keys *)

Fixpoint assoc_set {V} (d : list (Py.str * V)) (k : Py.str) (v : V)
  : list (Py.str * V) :=
  match d with
  | [] => [(k, v)]
  | (k', v') :: d' =>
      if Py.eqb k' k then (k', v) :: d' else (k', v') :: assoc_set d' k v
  end.

Fixpoint assoc_get {V} (d : list (Py.str * V)) (k : Py.str) : option V :=
  match d with
  | [] => None
  | (k', v') :: d' => if Py.eqb k' k then Some v' else assoc_get d' k
  end.

(** ** Values read from JSON *)

(** [v[key]] for a [str] key: only a dictionary can be asked. *)
Definition getitem (v : pyval) (key : Py.str) : outcome pyval :=
  match v with
  | PDict d =>
      match dict_get d key with
      | Some x => Return x
      | None => Throw (KeyError key)
      end
  | _ => Throw TypeError
  end.

(** [for x in v]: a list gives its elements, a dictionary its keys, a
    [str] its characters. *)
Definition iterate (v : pyval) : outcome (list pyval) :=
  match v with
  | PList l => Return l
  | PDict d => Return (map PStr (dict_keys d))
  | PNone | PBool _ | PInt _ | PFloat _ | PDatetime _ => Throw TypeError
  | _ =>
      match as_str v with
      | Some s => Return (map (fun c => PStr [c]) s)
      | None => Throw TypeError
      end
  end.

(** [v == s] for a [str] [s]. *)
Definition equals_str (v : pyval) (s : Py.str) : bool :=
  match as_str v with
  | Some t => Py.eqb t s
  | None => false
  end.

(** ** What comes in and what goes out *)

(** The attributes of the incoming [Request] that the handlers read. *)
Record Request : Type := mkRequest {
  req_method : Py.str;                            (* request.method *)
  req_url : Py.str;                               (* str(request.url) *)
  req_headers : list (Py.str * Py.str);           (* dict(request.headers) *)
  req_header : Py.str -> option Py.str;           (* request.headers[key] *)
  req_query_params : list (Py.str * Py.str);      (* dict(request.query_params) *)
  req_body : outcome bytes                        (* await request.body() *)
}.

(** The keyword arguments handed to [requests].  A header value is a [str]
    or [None]. *)
Record ProxyKwargs : Type := mkProxyKwargs {
  kw_url : Py.str;
  kw_params : list (Py.str * Py.str);
  kw_headers : list (Py.str * option Py.str);
  kw_data : bytes;
  kw_allow_redirects : bool
}.

(** A [requests.Response], as far as it is read. *)
Record RequestsResponse : Type := mkRequestsResponse {
  raw_headers : list (Py.str * Py.str);           (* response.raw.headers.items() *)
  content : bytes;
  status_code : Z
}.

(** A [fastapi.Response] *)
Record Response : Type := mkResponse {
  out_content : bytes;
  out_status_code : Z;
  out_headers : list (Py.str * Py.str)
}.

(** An [httpx.Response], as far as it is read. *)
Record HttpxResponse : Type := mkHttpxResponse {
  x_raise_for_status : option error;     (* what raise_for_status() raises *)
  x_json : outcome pyval;                (* response.json() *)
  x_content : bytes;
  x_header : Py.str -> option Py.str     (* response.headers[key] *)
}.

(** The requests sent, as the trace records them. *)
Inductive sent : Type :=
| Requests (method : Py.str) (kwargs : ProxyKwargs)
    (* getattr(requests, method)( **kwargs ) *)
| HttpxGet (url : pyval) (params : option (list (Py.str * Py.str)))
    (* client.get(url), client.get(url, params=params) *)
| HttpxPost (url : Py.str) (headers : list (Py.str * Py.str)) (json : pyval).
    (* client.post(url, headers=headers, json=json) *)

Inductive reply : Type :=
| Replied (r : RequestsResponse)
| Answered (r : HttpxResponse)
| Refused (e : error).

Record exchange : Type := mkExchange { asked : sent; replied : reply }.

(** The network: every request gets a response or an exception, and the
    network moves on. *)
Record Net (W : Type) : Type := mkNet {
  requests_call : Py.str -> ProxyKwargs -> W -> outcome RequestsResponse * W;
  httpx_get : pyval -> option (list (Py.str * Py.str)) -> W
              -> outcome HttpxResponse * W;
  httpx_post : Py.str -> list (Py.str * Py.str) -> pyval -> W
               -> outcome HttpxResponse * W
}.
Arguments requests_call {W}.
Arguments httpx_get {W}.
Arguments httpx_post {W}.

Inductive log_entry : Type :=
| Line (text : Py.str)
| ReprOf (kwargs : ProxyKwargs)             (* str(proxy_kwargs) *)
| FetchingCwlFrom (link : pyval).           (* f"Fetching cwl from {cwl_link}" *)

(** The settings of [config.py] read here. *)
Record Settings : Type := mkSettings {
  REMOTE_PROCESSING_BACKEND_MAPPING : list (Py.str * Py.str);
  RESOURCE_CATALOG_METADATA_URL : Py.str
}.

Definition excluded_headers : list Py.str :=
  [ py "content-encoding"; py "content-length"; py "transfer-encoding";
    py "connection" ].

(** [requests_response_to_fastapi_response(response)] *)
Definition requests_response_to_fastapi_response (response : RequestsResponse)
  : Response :=
  let headers :=
    fold_left
      (fun acc nv =>
         if negb (str_in (lower (fst nv)) excluded_headers)
         then assoc_set acc (fst nv) (snd nv)
         else acc)
      (raw_headers response) [] in
  mkResponse (content response) (status_code response) headers.

Section Handlers.

Variable W : Type.
Variable net : Net W.
Variable config : Settings.

(** [urlparse(url).hostname], which may be [None] and may raise. *)
Variable urlparse_hostname : Py.str -> outcome (option Py.str).

(** [yaml.safe_load] and [JSONResponse], which may raise. *)
Variable yaml_safe_load : bytes -> outcome pyval.
Variable JSONResponse : pyval -> outcome Response.

Record run_state : Type := mkState {
  world : W;
  exchanges : list exchange;
  logged : list log_entry
}.

Definition P (A : Type) : Type := run_state -> outcome A * run_state.

Definition ret {A} (a : A) : P A := fun s => (Return a, s).

Definition bind {A B} (m : P A) (k : A -> P B) : P B :=
  fun s =>
    match m s with
    | (Return a, s') => k a s'
    | (Throw e, s') => (Throw e, s')
    end.

Definition lift {A} (r : outcome A) : P A := fun s => (r, s).

Definition logger_info (entry : log_entry) : P unit :=
  fun s => (Return tt, mkState (world s) (exchanges s) (logged s ++ [entry])).

Definition perform {A} (c : sent) (f : W -> outcome A * W) (describe : A -> reply)
  : P A :=
  fun s =>
    let (r, w') := f (world s) in
    let a := match r with Return v => describe v | Throw e => Refused e end in
    (r, mkState w' (exchanges s ++ [mkExchange c a]) (logged s)).

Declare Scope proxy_scope.
Delimit Scope proxy_scope with proxy.
Notation "x <- c ;; k" := (bind c (fun x => k))
  (at level 61, c at next level, right associativity) : proxy_scope.
Notation "c ;; k" := (bind c (fun _ => k))
  (at level 61, right associativity) : proxy_scope.
Open Scope proxy_scope.

(** [remote_backend_to_url(remote_backend)] *)
Definition remote_backend_to_url (remote_backend : Py.str) : outcome Py.str :=
  match assoc_get (REMOTE_PROCESSING_BACKEND_MAPPING config) remote_backend with
  | Some url => Return url
  | None =>
      Throw (HTTPException 400 (py "Invalid remote backend " ++ remote_backend))
  end.

(** [handle_proxy_request(request, remote_backend, service_prefix, proxy_path)] *)
Definition handle_proxy_request (request : Request)
  (remote_backend service_prefix proxy_path : Py.str) : P Response :=
  base <- lift (remote_backend_to_url remote_backend) ;;
  let url := base ++ py "/" ++ service_prefix
               ++ (match proxy_path with
                   | [] => []
                   | _ :: _ => py "/" ++ proxy_path
                   end) in
  remote_backend_host <- lift (urlparse_hostname url) ;;
  let headers :=
    assoc_set (map (fun nv => (fst nv, Some (snd nv))) (req_headers request))
              (py "Host") remote_backend_host in
  data <- lift (req_body request) ;;
  let proxy_kwargs :=
    mkProxyKwargs url (req_query_params request) headers data false in
  logger_info (Line (py "Requested " ++ req_url request)) ;;
  logger_info (ReprOf proxy_kwargs) ;;
  logger_info (Line (py "Proxying to " ++ kw_url proxy_kwargs)) ;;
  response <- perform (Requests (lower (req_method request)) proxy_kwargs)
                (requests_call net (lower (req_method request)) proxy_kwargs)
                Replied ;;
  logger_info (Line (py "Got status " ++ Py.str_of_int (status_code response)
                       ++ py " and size "
                       ++ Py.str_of_int (Z.of_nat (List.length (content response))))) ;;
  text <- lift (match decode (content response) with
                | Some t => Return t
                | None => Throw UnicodeDecodeError
                end) ;;
  logger_info (Line (firstn 500 text)) ;;
  (* NOTE: don't raise for status, but forward errors *)
  ret (requests_response_to_fastapi_response response).

(** The handler [generate_reverse_proxy(service_prefix)] registers. *)
Definition do_handle_proxy_request (service_prefix : Py.str) (request : Request)
  (remote_backend proxy_path : Py.str) : P Response :=
  handle_proxy_request request remote_backend service_prefix proxy_path.

(** [response.raise_for_status()] *)
Definition raise_for_status (response : HttpxResponse) : P unit :=
  lift (match x_raise_for_status response with
        | Some e => Throw e
        | None => Return tt
        end).

(** [_do_download(url, **kwargs)] *)
Definition _do_download (url : pyval) (params : option (list (Py.str * Py.str)))
  : P HttpxResponse :=
  response <- perform (HttpxGet url params) (httpx_get net url params) Answered ;;
  raise_for_status response ;;
  ret response.

(** The list comprehension of [_fetch_cwl_link_from_catalog]. *)
Fixpoint manifest_links (links : list pyval) : outcome (list pyval) :=
  match links with
  | [] => Return []
  | link :: rest =>
      match getitem link (py "rel") with
      | Throw e => Throw e
      | Return rel =>
          match manifest_links rest with
          | Throw e => Throw e
          | Return found =>
              Return (if equals_str rel (py "manifest") then link :: found
                      else found)
          end
      end
  end.

(** [(link,) = found] *)
Definition unpack_one (found : list pyval) : outcome pyval :=
  match found with
  | [link] => Return link
  | _ => Throw ValueError
  end.

(** [_fetch_cwl_link_from_catalog(process)] *)
Definition _fetch_cwl_link_from_catalog (process : Py.str) : P pyval :=
  logger_info (Line (py "Fetching catalog from "
                       ++ RESOURCE_CATALOG_METADATA_URL config)) ;;
  catalog_response <-
    _do_download (PStr (RESOURCE_CATALOG_METADATA_URL config ++ py "/" ++ process))
                 (Some [(py "f", py "json")]) ;;
  document <- lift (x_json catalog_response) ;;
  links <- lift (getitem document (py "links")) ;;
  items <- lift (iterate links) ;;
  found <- lift (manifest_links items) ;;
  link <- lift (unpack_one found) ;;
  lift (getitem link (py "href")).

(** [deploy_process(request, remote_backend, process)] *)
Definition deploy_process (request : Request) (remote_backend process : Py.str)
  : P Py.str :=
  cwl_link <- _fetch_cwl_link_from_catalog process ;;
  base <- lift (remote_backend_to_url remote_backend) ;;
  let url := base ++ py "/processes" in
  logger_info (Line (py "Deploying process at " ++ url)) ;;
  user_id <- lift (match req_header request (py "x-user-id") with
                   | Some v => Return v
                   | None => Throw (KeyError (py "x-user-id"))
                   end) ;;
  (* NOTE: only forward auth here *)
  deploy_response <-
    perform
      (HttpxPost url [(py "X-User-Id", user_id)]
         (PDict [(py "inputs",
                  PDict [(py "applicationPackage",
                          PDict [(py "href", cwl_link);
                                 (py "type", PStr (py "application/cwl"))])])]))
      (httpx_post net url [(py "X-User-Id", user_id)]
         (PDict [(py "inputs",
                  PDict [(py "applicationPackage",
                          PDict [(py "href", cwl_link);
                                 (py "type", PStr (py "application/cwl"))])])]))
      Answered ;;
  text <- lift (match decode (x_content deploy_response) with
                | Some t => Return t
                | None => Throw UnicodeDecodeError
                end) ;;
  logger_info (Line (py "Process deploy response: " ++ firstn 1000 text)) ;;
  raise_for_status deploy_response ;;
  lift (match x_header deploy_response (py "Location") with
        | Some v => Return v
        | None => Throw (KeyError (py "Location"))
        end).

(** [process_location.split("/")[-1]]: a split is never empty. *)
Definition last_segment (process_location : Py.str) : Py.str :=
  last (PurePath.split process_location) [].


(** [get_application(application)] *)
Definition get_application (application : Py.str) : P Response :=
  cwl_link <- _fetch_cwl_link_from_catalog application ;;
  logger_info (FetchingCwlFrom cwl_link) ;;
  cwl_response <- _do_download cwl_link None ;;
  document <- lift (yaml_safe_load (x_content cwl_response)) ;;
  lift (JSONResponse document).

Close Scope proxy_scope.

End Handlers.

Arguments mkState {W}.
Arguments world {W}.
Arguments exchanges {W}.
Arguments logged {W}.

End processing_proxy.

(** ** Definitions used to state the properties *)

(** A test on every number from [base] to [base + 2^k - 1]. *)
Fixpoint all_below (k : nat) (f : N -> bool) (base : N) : bool :=
  match k with
  | O => f base
  | S k' => all_below k' f base && all_below k' f (base + 2 ^ N.of_nat k')%N
  end.

(** What [json.loads(json.dumps(s))] gives for a [str]: a high surrogate
    directly followed by a low surrogate comes back as the one code point
    the two stand for in UTF-16. *)
Fixpoint normalize (s : Py.str) : Py.str :=
  match s with
  | [] => []
  | c :: r =>
      match r with
      | d :: r' =>
          if Py.is_high_surrogate c && Py.is_low_surrogate d
          then json.join_surrogates c d :: normalize r'
          else c :: normalize r
      | [] => [c]
      end
  end.

(** The text starts with a [\uXXXX] escape that [scanstring] would take as
    the second half of a surrogate pair (or fail on). *)
Definition follow_low (t : Py.str) : bool :=
  match t with
  | b :: u :: g1 :: g2 :: g3 :: g4 :: _ =>
      if (N.eqb b json.BACKSLASH && N.eqb u json.LOWER_U)%bool then
        match json.hex4 g1 g2 g3 g4 with
        | None => true
        | Some u2 => Py.is_low_surrogate u2
        end
      else false
  | _ => false
  end.

(** The keys [serialize] writes and [deserialize] wants. *)
Definition embedded_keys : list Py.str :=
  [ py "filename"; py "item_type"; py "change_type"; py "user"; py "data_owner" ].

(** A dictionary whose key set is the embedded keys, no more and no less. *)
Definition exact_keys (d : list (Py.str * pyval)) : Prop :=
  forall k, In k (dict_keys d) <-> In k embedded_keys.

(** A descriptor comes back from its serialized form, with any [url],
    [state] and [created_at] supplied from outside: the embedded fields of
    the result compare equal to those of the descriptor. *)
Definition round_trips (D : PullRequestBody.t) : Prop :=
  forall (url : Py.str) (state : PullRequestState.t) (created_at : datetime),
  exists s D',
    PullRequestBody.serialize D = Ok s
    /\ PullRequestBody.deserialize (Some s) url state created_at = Ok D'
    /\ str_eq (PullRequestBody.filename D') (PullRequestBody.filename D)
    /\ str_eq (PullRequestBody.item_type D') (PullRequestBody.item_type D)
    /\ str_eq (PullRequestBody.change_type D') (PullRequestBody.change_type D)
    /\ str_eq (PullRequestBody.user D') (PullRequestBody.user D)
    /\ PullRequestBody.data_owner D' = PullRequestBody.data_owner D.

(** JSON text written with an apostrophe where the text has a double
    quote. *)
Definition js (s : string) : Py.str :=
  map (fun c => if N.eqb c 39 then json.QUOTE else c) (py s).

(** *** Traces of the branch allocator *)

(** "Name already taken", as [_create_branch] reads it: a GitHub exception
    with status 422. *)
Definition is_name_taken (e : exn) : bool :=
  match e with
  | Github _ status => Z.eqb status 422
  | _ => false
  end.

(** The ref asked for at the attempt numbered [k]. *)
Definition attempt_ref (branch_base_name : Py.str) (k : Z) : Py.str :=
  py "refs/heads/" ++ branch_name_for branch_base_name k.

(** The traces [_create_branch] can leave when called with postfix [k],
    each with the outcome of the call. *)
Inductive allocation (main base : Py.str) : Z -> list event -> result Py.str -> Prop :=
| alloc_no_tip (k : Z) (e : exn) :
    allocation main base k [mkEvent (GetBranch main) (Failed e)] (Raise e)
| alloc_created (k : Z) (b : Branch) :
    allocation main base k
      [mkEvent (GetBranch main) (GotBranch b);
       mkEvent (CreateGitRef (attempt_ref base k) (commit_sha b)) Done]
      (Ok (branch_name_for base k))
| alloc_failed (k : Z) (b : Branch) (e : exn) :
    is_name_taken e = false ->
    allocation main base k
      [mkEvent (GetBranch main) (GotBranch b);
       mkEvent (CreateGitRef (attempt_ref base k) (commit_sha b)) (Failed e)]
      (Raise e)
| alloc_exhausted (k : Z) (b : Branch) (e : exn) :
    is_name_taken e = true -> (k > 15)%Z ->
    allocation main base k
      [mkEvent (GetBranch main) (GotBranch b);
       mkEvent (CreateGitRef (attempt_ref base k) (commit_sha b)) (Failed e)]
      (Raise e)
| alloc_retry (k : Z) (b : Branch) (e : exn) (tr : list event) (r : result Py.str) :
    is_name_taken e = true -> (k <= 15)%Z ->
    allocation main base (k + 1) tr r ->
    allocation main base k
      (mkEvent (GetBranch main) (GotBranch b)
         :: mkEvent (CreateGitRef (attempt_ref base k) (commit_sha b)) (Failed e)
         :: tr)
      r.

(** The attempts to create a ref in a trace: ref, commit and answer. *)
Fixpoint creation_attempts (tr : list event) : list (Py.str * Py.str * answer) :=
  match tr with
  | [] => []
  | mkEvent (CreateGitRef ref sha) a :: tr' => (ref, sha, a) :: creation_attempts tr'
  | _ :: tr' => creation_attempts tr'
  end.

(** [k; k+1; ...], [n] numbers. *)
Fixpoint zseq (k : Z) (n : nat) : list Z :=
  match n with
  | O => []
  | S n' => k :: zseq (k + 1) n'
  end.


(** *** Traces of the orchestrator *)

Definition count_events (p : event -> bool) (tr : list event) : nat :=
  List.length (filter p tr).

Definition is_created_ref (ev : event) : bool :=
  match ev with
  | mkEvent (CreateGitRef _ _) Done => true
  | _ => false
  end.

Definition is_update_file (ev : event) : bool :=
  match sent ev with UpdateFile _ _ _ _ _ => true | _ => false end.

Definition is_delete_file (ev : event) : bool :=
  match sent ev with DeleteFile _ _ _ _ => true | _ => false end.

Definition is_create_pull (ev : event) : bool :=
  match sent ev with CreatePull _ _ _ _ _ => true | _ => false end.

Definition is_set_labels (ev : event) : bool :=
  match sent ev with SetLabels _ _ => true | _ => false end.

(** The token [_previous_version_sha] makes of the platform's answer to its
    look at the parent directory. *)
Definition token_of_answer (name : Py.str) (a : answer) : Py.str :=
  match a with
  | GotTree t =>
      match find (fun el => Py.eqb (elem_path el) name) (tree t) with
      | Some el => elem_sha el
      | None => []
      end
  | _ => []
  end.

(** The two calls made for one file: the look at its parent directory and
    the write or delete that carries the token. *)
Definition tree_ref_of (config : Config) (path : Py.str) : result Py.str :=
  urllib.urlencode_value
    (GITHUB_MAIN_BRANCH config ++ py ":"
       ++ PurePath.to_str (PurePath.parent (PurePath.of_str path))).

(** *** The lister *)

(** The descriptors of the pull requests whose body decodes, in order. *)
Definition decoded (prs : list PullRequest) : list PullRequestBody.t :=
  flat_map (fun pr =>
              match PullRequestBody.deserialize (pr_body pr) (pr_html_url pr)
                      (PullRequestState.from_pull_request pr) (pr_created_at pr) with
              | Ok b => [b]
              | Raise _ => []
              end) prs.

Definition undecodable (prs : list PullRequest) : list PullRequest :=
  filter (fun pr =>
            match PullRequestBody.deserialize (pr_body pr) (pr_html_url pr)
                    (PullRequestState.from_pull_request pr) (pr_created_at pr) with
            | Ok _ => false
            | Raise _ => true
            end) prs.

(** *** Example worlds *)

(** A repository where the branches "add-item" and "add-item-2" exist, the
    main branch is at [sha0] and other clients push [sha1], [sha2], [sha3]
    while branches are being created; the directory "alice" of the main
    branch holds "foo.json". *)
Definition busy_world : Sim.t :=
  Sim.mk (py "sha0") [py "sha1"; py "sha2"; py "sha3"]
         [(py "refs/heads/add-item", py "old1");
          (py "refs/heads/add-item-2", py "old2")]
         [(py "main%3Aalice", [mkGitTreeElement (py "foo.json") (py "abc123")])]
         [].

(** A repository with the main branch only, and no directory in it. *)
Definition empty_world : Sim.t :=
  Sim.mk (py "sha0") [] [] [] [].

(** The events a run adds to the trace. *)
Definition extends {W} (s s' : run_state W) (tr : list event) : Prop :=
  calls s' = calls s ++ tr.

(** The two calls made for one file: the look at its parent directory on
    the main branch, and the write or delete carrying the token made of the
    answer. *)
Definition file_events (config : Config) (path : Py.str)
  (mutation : Py.str -> call) (evs : list event) : Prop :=
  exists ref a,
    tree_ref_of config path = Ok ref
    /\ evs = [ mkEvent (GetGitTree ref false) a;
               mkEvent (mutation (token_of_answer
                                    (PurePath.name (PurePath.of_str path)) a))
                       Done ].

Definition add_message (path : Py.str) : Py.str :=
  py "Add " ++ path ++ py " for pull request submission".

Definition delete_message (path : Py.str) : Py.str :=
  py "Delete " ++ path ++ py " for pull request submission".

(** *** Shapes used in the proofs about the [json] module *)

Section JsonShapes.

Import json.
Open Scope N_scope.
Open Scope result_scope.

(** [u_escape c] is a backslash, a [u] and four hex digits that read back
    as [c]. *)
Definition u_escape_ok (c : N) : bool :=
  match u_escape c with
  | [b; u; h1; h2; h3; h4] =>
      (b =? BACKSLASH) && (u =? LOWER_U)
      && match hex4 h1 h2 h3 h4 with
         | Some c' => c' =? c
         | None => false
         end
  | _ => false
  end.

(** The two halves an astral code point is written as. *)
Definition high_half (c : N) : N :=
  N.lor 0xD800 (N.land (N.shiftr (c - 0x10000) 10) 0x3FF).
Definition low_half (c : N) : N :=
  N.lor 0xDC00 (N.land (c - 0x10000) 0x3FF).

Definition half_ok (a : N) : bool :=
  Py.is_high_surrogate (N.lor 0xD800 a) && Py.is_low_surrogate (N.lor 0xDC00 a)
  && (N.land (N.lor 0xD800 a) 0x3FF =? a) && (N.land (N.lor 0xDC00 a) 0x3FF =? a).

(** The shape of [encode_char c]. *)
Inductive encoding (c : N) : Py.str -> Prop :=
| enc_plain : c <> QUOTE -> c <> BACKSLASH -> 0x1F < c -> encoding c [c]
| enc_short (e : N) : unescape e = Some c -> e <> LOWER_U ->
    encoding c [BACKSLASH; e]
| enc_u : c < 0x10000 -> encoding c (u_escape c)
| enc_pair : 0x10000 <= c -> encoding c (u_escape (high_half c) ++ u_escape (low_half c)).

(** A scanner result on the text [s]: either some of the text was read, or
    the failure is a [JSONDecodeError]. *)
Definition consumes {A} (s : Py.str) (res : result (A * Py.str)) : Prop :=
  match res with
  | Ok (_, r) => (List.length r < List.length s)%nat
  | Raise e => e = JSONDecodeError
  end.

(** The text [serialize] writes for a well-typed descriptor. *)
Definition dumped (f i cs u : Py.str) (o : bool) : Py.str :=
  py "{"
    ++ ((encode_basestring_ascii (py "filename") ++ py ": " ++ encode_basestring_ascii f)
        ++ py ", "
        ++ (encode_basestring_ascii (py "item_type") ++ py ": " ++ encode_basestring_ascii i)
        ++ py ", "
        ++ (encode_basestring_ascii (py "change_type") ++ py ": " ++ encode_basestring_ascii cs)
        ++ py ", "
        ++ (encode_basestring_ascii (py "user") ++ py ": " ++ encode_basestring_ascii u)
        ++ py ", "
        ++ (encode_basestring_ascii (py "data_owner") ++ py ": "
              ++ (if o then py "true" else py "false")))
    ++ py "}".

End JsonShapes.

(** ** Definitions used to state further properties *)

(** A path that is one plain segment: not empty, not ".", no slash. *)
Definition plain_name (p : Py.str) : bool :=
  negb (existsb (N.eqb json.SLASH) p) && negb (Py.eqb p [])
  && negb (Py.eqb p (py ".")).

(** The name [files_in_directory] returns for an entry of a listing. *)
Definition entry_name (node : GitTreeElement) : Py.str :=
  PurePath.name (PurePath.of_str (elem_path node)).

(** A repository whose main branch holds the directory "alice" with two
    files, found under the tree ref as [files_in_directory] writes it. *)
Definition listing_world : Sim.t :=
  Sim.mk (py "sha0") [] []
         [(py "main:alice", [mkGitTreeElement (py "foo.json") (py "abc123");
                             mkGitTreeElement (py "bar.json") (py "def456")])]
         [].

(** The calls that only read from the platform. *)
Definition is_read (c : call) : bool :=
  match c with
  | GetRepo _ _ | GetBranch _ | GetGitTree _ _ | GetPulls _ => true
  | _ => false
  end.

(** A pull request was opened: the call was answered with one. *)
Definition is_opened_pull (ev : event) : bool :=
  match ev with
  | mkEvent (CreatePull _ _ _ _ _) (GotPull _) => true
  | _ => false
  end.

(** Printable ASCII. *)
Definition printable (c : N) : bool := ((32 <=? c) && (c <=? 126))%N.

(** What [quote_plus] writes: the characters it never quotes, the percent
    sign of an escape and the plus sign that stands for a space. *)
Definition url_safe (c : N) : bool :=
  (urllib.always_safe c || N.eqb c 37 || N.eqb c json.PLUS)%bool.

(** The events of a trace that change something on the platform, or try
    to: everything but the reads. *)
Definition changes (tr : list event) : list event :=
  filter (fun ev => negb (is_read (sent ev))) tr.

(** An event that changed nothing: a read, or a call the platform
    refused. *)
Definition harmless (ev : event) : Prop :=
  is_read (sent ev) = true \/ exists e, got ev = Failed e.

(** The calls made before a branch exists, and the call made after the
    pull request is opened. *)
Definition before_branch (c : call) : bool :=
  match c with
  | GetRepo _ _ | GetBranch _ | CreateGitRef _ _ => true
  | _ => false
  end.

Definition after_pull (c : call) : bool :=
  match c with
  | SetLabels _ _ => true
  | _ => false
  end.

(** The calls made for one file. *)
Definition is_file_call (c : call) : bool :=
  match c with
  | GetGitTree _ _ | UpdateFile _ _ _ _ _ | DeleteFile _ _ _ _ => true
  | _ => false
  end.

(** The small platform with a token that may not set labels: everything
    else is answered as before, labels are refused. *)
Definition no_labels_platform : Platform Sim.t :=
  mkPlatform
    (gh_get_repo Sim.platform)
    (gh_get_branch Sim.platform)
    (gh_create_git_ref Sim.platform)
    (gh_get_git_tree Sim.platform)
    (gh_update_file Sim.platform)
    (gh_delete_file Sim.platform)
    (gh_create_pull Sim.platform)
    (fun _ _ w => (Raise (Github GithubException 403), w))
    (gh_get_pulls Sim.platform).

(** *** The processing proxy *)

(** A catalog record, a backend and a request to run the handlers on. *)
Module ProxyDemo.

Import processing_proxy.

Definition settings : Settings :=
  mkSettings [(py "eoepca", py "https://ades.example.org")]
             (py "https://catalog.example.org/items").

Definition manifest_link : pyval :=
  PDict [(py "rel", PStr (py "manifest"));
         (py "href", PStr (py "https://cwl.example.org/snuggs.cwl"))].

Definition catalog_record : pyval :=
  PDict [(py "id", PStr (py "snuggs"));
         (py "links",
          PList [PDict [(py "rel", PStr (py "self"));
                        (py "href", PStr (py "https://catalog.example.org/items/snuggs"))];
                 manifest_link])].

Definition upstream : RequestsResponse :=
  mkRequestsResponse
    [(py "Content-Type", py "application/json");
     (py "Content-Length", py "2");
     (py "Connection", py "keep-alive");
     (py "X-Request-Id", py "7")]
    [Byte.x7b; Byte.x7d] 201.

Definition location : Py.str :=
  py "https://ades.example.org/processes/snuggs-0_3_0".

Definition net : Net unit :=
  mkNet unit
    (fun _ _ w => (Return upstream, w))
    (fun _ _ w =>
       (Return (mkHttpxResponse None (Return catalog_record) [] (fun _ => None)), w))
    (fun _ _ _ w =>
       (Return (mkHttpxResponse None (Throw (Library (py "JSONDecodeError"))) []
                  (fun k => if Py.eqb k (py "Location") then Some location
                            else None)), w)).

(** The same network, the backend answering with a body that is no
    UTF-8 text. *)
Definition binary_net : Net unit :=
  mkNet unit
    (fun _ _ w => (Return (mkRequestsResponse [] [Byte.xff; Byte.xd8] 200), w))
    (httpx_get net)
    (httpx_post net).

Definition incoming : list (Py.str * Py.str) :=
  [(py "host", py "proxy.example.org"); (py "x-user-id", py "alice")].

Definition request : Request :=
  mkRequest (py "POST") (py "https://proxy.example.org/processing/eoepca/jobs")
            incoming (assoc_get incoming) [(py "limit", py "5")]
            (Return [Byte.x7b; Byte.x7d]).

Definition urlparse_hostname (url : Py.str) : outcome (option Py.str) :=
  Return (Some (py "ades.example.org")).

Definition start : run_state unit := mkState tt [] [].

End ProxyDemo.

(** A link of a catalog record. *)
Definition has_rel (link : list (Py.str * pyval)) : bool :=
  match dict_get link (py "rel") with
  | Some _ => true
  | None => false
  end.

Definition is_manifest (link : list (Py.str * pyval)) : bool :=
  match dict_get link (py "rel") with
  | Some rel => processing_proxy.equals_str rel (py "manifest")
  | None => false
  end.

(** The address [handle_proxy_request] builds. *)
Definition target_url (base service_prefix proxy_path : Py.str) : Py.str :=
  base ++ py "/" ++ service_prefix
    ++ (match proxy_path with
        | [] => []
        | _ :: _ => py "/" ++ proxy_path
        end).

(** The keyword arguments [handle_proxy_request] hands to [requests]. *)
Definition proxy_kwargs_of (request : processing_proxy.Request) (url : Py.str)
  (host : option Py.str) (data : bytes) : processing_proxy.ProxyKwargs :=
  processing_proxy.mkProxyKwargs url
    (processing_proxy.req_query_params request)
    (processing_proxy.assoc_set
       (map (fun nv => (fst nv, Some (snd nv)))
            (processing_proxy.req_headers request))
       (py "Host") host)
    data false.

(** The body [deploy_process] posts. *)
Definition deploy_body (cwl_link : pyval) : pyval :=
  PDict [(py "inputs",
          PDict [(py "applicationPackage",
                  PDict [(py "href", cwl_link);
                         (py "type", PStr (py "application/cwl"))])])].

(** * Properties *)

(** ** Strings *)

Lemma Py_eqb_eq (a b : Py.str) : Py.eqb a b = true <-> a = b.
Proof.
  revert b; induction a as [|x a IH]; intros [|y b]; simpl; try (split; congruence).
  rewrite andb_true_iff, N.eqb_eq, IH. split.
  - intros [-> ->]; reflexivity.
  - intros H; inversion H; auto.
Qed.

Lemma Py_eqb_refl (a : Py.str) : Py.eqb a a = true.
Proof. apply Py_eqb_eq; reflexivity. Qed.

Lemma Py_eqb_neq (a b : Py.str) : Py.eqb a b = false <-> a <> b.
Proof.
  rewrite <- Py_eqb_eq. destruct (Py.eqb a b); split; congruence.
Qed.

Lemma Py_eqb_sym (a b : Py.str) : Py.eqb a b = Py.eqb b a.
Proof.
  destruct (Py.eqb a b) eqn:E.
  - apply Py_eqb_eq in E; subst; symmetry; apply Py_eqb_refl.
  - destruct (Py.eqb b a) eqn:E'; auto.
    apply Py_eqb_eq in E'; subst. rewrite Py_eqb_refl in E; discriminate.
Qed.

(** ** Status resolver *)

(** C1.  [PullRequestState.from_pull_request] is a total function of the
    pull request: it gives [pending] exactly when the raw state is "open"
    (whatever [merged_at] holds), [merged] exactly when the state is not
    "open" and [merged_at] is not None, [rejected] exactly when the state is
    not "open" and [merged_at] is None.  Being a function, it gives one
    status and only one. *)
Theorem from_pull_request_total_mapping (pr : PullRequest) :
  (PullRequestState.from_pull_request pr = PullRequestState.pending
     <-> pr_state pr = py "open")
  /\ (PullRequestState.from_pull_request pr = PullRequestState.merged
     <-> pr_state pr <> py "open" /\ pr_merged_at pr <> None)
  /\ (PullRequestState.from_pull_request pr = PullRequestState.rejected
     <-> pr_state pr <> py "open" /\ pr_merged_at pr = None)
  /\ (exists! s, PullRequestState.from_pull_request pr = s).
Proof.
  unfold PullRequestState.from_pull_request.
  destruct (Py.eqb (pr_state pr) (py "open")) eqn:E.
  - apply Py_eqb_eq in E.
    repeat split; try congruence; try tauto; try (intros [? ?]; congruence).
    + exists PullRequestState.pending; split; congruence.
  - apply Py_eqb_neq in E.
    destruct (pr_merged_at pr) as [d|] eqn:M.
    + repeat split; try congruence; try tauto; try (intros [? ?]; congruence).
      exists PullRequestState.merged; split; congruence.
    + repeat split; try congruence; try tauto; try (intros [? ?]; congruence).
      exists PullRequestState.rejected; split; congruence.
Qed.

(** ** The [json] module: escapes *)

Lemma all_below_spec (k : nat) (f : N -> bool) :
  forall base, all_below k f base = true ->
  forall x, (base <= x < base + 2 ^ N.of_nat k)%N -> f x = true.
Proof.
  induction k as [|k IH]; intros base H x Hx.
  - simpl in *. assert (x = base) by lia. subst; exact H.
  - cbn [all_below] in H. apply andb_true_iff in H as [H1 H2].
    rewrite Nat2N.inj_succ, N.pow_succ_r' in Hx.
    destruct (N.lt_ge_cases x (base + 2 ^ N.of_nat k)) as [L|G].
    + apply (IH base H1); lia.
    + apply (IH _ H2); lia.
Qed.

Section Escapes.

Import json.
Open Scope N_scope.

Lemma u_escape_ok_all : all_below 16 u_escape_ok 0 = true.
Proof. vm_compute. reflexivity. Qed.

Lemma u_escape_shape (c : N) :
  c < 0x10000 ->
  exists h1 h2 h3 h4,
    u_escape c = [BACKSLASH; LOWER_U; h1; h2; h3; h4]
    /\ hex4 h1 h2 h3 h4 = Some c.
Proof.
  intros Hc.
  assert (H : u_escape_ok c = true).
  { apply (all_below_spec 16 u_escape_ok 0 u_escape_ok_all). simpl. lia. }
  unfold u_escape_ok in H. unfold u_escape in *.
  exists (hexdigit (N.land (N.shiftr c 12) 15)), (hexdigit (N.land (N.shiftr c 8) 15)),
         (hexdigit (N.land (N.shiftr c 4) 15)), (hexdigit (N.land c 15)).
  split; [reflexivity|].
  apply andb_true_iff in H as [_ H].
  destruct (hex4 _ _ _ _) as [c'|]; [|discriminate].
  apply N.eqb_eq in H. congruence.
Qed.

Lemma half_ok_all : all_below 10 half_ok 0 = true.
Proof. vm_compute. reflexivity. Qed.

Lemma half_spec (a : N) :
  a < 1024 ->
  Py.is_high_surrogate (N.lor 0xD800 a) = true
  /\ Py.is_low_surrogate (N.lor 0xDC00 a) = true
  /\ N.land (N.lor 0xD800 a) 0x3FF = a
  /\ N.land (N.lor 0xDC00 a) 0x3FF = a.
Proof.
  intros Ha.
  assert (H : half_ok a = true).
  { apply (all_below_spec 10 half_ok 0 half_ok_all). simpl. lia. }
  unfold half_ok in H.
  apply andb_true_iff in H as [H H4]. apply andb_true_iff in H as [H H3].
  apply andb_true_iff in H as [H1 H2].
  apply N.eqb_eq in H3, H4. auto.
Qed.

Lemma testbit_above (v n i : N) : v < 2 ^ n -> n <= i -> N.testbit v i = false.
Proof.
  intros Hv Hi. destruct (N.eq_dec v 0) as [->|Hz]; [apply N.bits_0|].
  apply N.bits_above_log2.
  assert (N.log2 v < n) by (apply N.log2_lt_pow2; lia). lia.
Qed.

Lemma recombine (v : N) :
  v < 2 ^ 20 ->
  N.lor (N.shiftl (N.land (N.shiftr v 10) 0x3FF) 10) (N.land v 0x3FF) = v.
Proof.
  intros Hv. apply N.bits_inj; intros i.
  change 0x3FF with (N.ones 10).
  rewrite N.lor_spec, N.land_spec.
  destruct (N.lt_ge_cases i 10) as [L|G].
  - rewrite N.shiftl_spec_low by exact L.
    rewrite N.ones_spec_low by exact L.
    simpl. apply andb_true_r.
  - rewrite N.shiftl_spec_high' by exact G.
    rewrite N.land_spec, N.shiftr_spec'.
    replace (i - 10 + 10) with i by lia.
    rewrite (N.ones_spec_high 10 i) by exact G.
    rewrite andb_false_r, orb_false_r.
    destruct (N.lt_ge_cases (i - 10) 10) as [L'|G'].
    + rewrite N.ones_spec_low by exact L'. apply andb_true_r.
    + rewrite N.ones_spec_high by exact G'. rewrite andb_false_r.
      symmetry. apply (testbit_above v 20); [exact Hv | lia].
Qed.

Lemma land_1023_lt (x : N) : N.land x 0x3FF < 1024.
Proof.
  change 0x3FF with (N.ones 10). rewrite N.land_ones.
  apply N.mod_lt. discriminate.
Qed.

Lemma halves_spec (c : N) :
  0x10000 <= c < 0x110000 ->
  Py.is_high_surrogate (high_half c) = true
  /\ Py.is_low_surrogate (low_half c) = true
  /\ join_surrogates (high_half c) (low_half c) = c.
Proof.
  intros Hc. unfold high_half, low_half, join_surrogates.
  set (v := c - 0x10000).
  destruct (half_spec _ (land_1023_lt (N.shiftr v 10))) as (Hh & _ & Eh & _).
  destruct (half_spec _ (land_1023_lt v)) as (_ & Hl & _ & El).
  split; [exact Hh|]. split; [exact Hl|].
  rewrite Eh, El, recombine.
  - subst v; lia.
  - subst v. change (2 ^ 20) with 1048576. lia.
Qed.

Lemma high_half_lt (c : N) : high_half c < 0x10000.
Proof.
  unfold high_half.
  destruct (half_spec _ (land_1023_lt (N.shiftr (c - 0x10000) 10))) as (H & _).
  unfold Py.is_high_surrogate in H. apply andb_true_iff in H as [_ H].
  apply N.leb_le in H. lia.
Qed.

Lemma low_half_lt (c : N) : low_half c < 0x10000.
Proof.
  unfold low_half.
  destruct (half_spec _ (land_1023_lt (c - 0x10000))) as (_ & H & _).
  unfold Py.is_low_surrogate in H. apply andb_true_iff in H as [_ H].
  apply N.leb_le in H. lia.
Qed.

End Escapes.

(** ** The [json] module: a dumped string read back *)

Ltac bools :=
  repeat match goal with
  | H : andb _ _ = true |- _ => apply andb_true_iff in H; destruct H
  | H : andb _ _ = false |- _ => apply andb_false_iff in H; destruct H
  | H : orb _ _ = true |- _ => apply orb_true_iff in H; destruct H
  | H : orb _ _ = false |- _ => apply orb_false_iff in H; destruct H
  | H : negb _ = true |- _ => apply negb_true_iff in H
  | H : negb _ = false |- _ => apply negb_false_iff in H
  | H : N.eqb _ _ = true |- _ => apply N.eqb_eq in H
  | H : N.eqb _ _ = false |- _ => apply N.eqb_neq in H
  | H : N.leb _ _ = true |- _ => apply N.leb_le in H
  | H : N.leb _ _ = false |- _ => apply N.leb_gt in H
  | H : N.ltb _ _ = true |- _ => apply N.ltb_lt in H
  | H : N.ltb _ _ = false |- _ => apply N.ltb_ge in H
  end.

Ltac chars :=
  unfold json.QUOTE, json.BACKSLASH, json.LOWER_U, json.SLASH, json.COMMA,
    json.COLON, json.LBRACE, json.RBRACE, json.LBRACKET, json.RBRACKET,
    Py.is_high_surrogate, Py.is_low_surrogate, Py.is_surrogate, json.S_CHAR in *.

Section ScanString.

Import json.
Open Scope N_scope.
Open Scope result_scope.

Lemma scanstring_quote (t : Py.str) : scanstring (QUOTE :: t) = Ok ([], t).
Proof. reflexivity. Qed.

Lemma scanstring_plain (c : N) (t : Py.str) :
  c <> QUOTE -> c <> BACKSLASH -> 0x1F < c ->
  scanstring (c :: t) = '(x, r) <- scanstring t ;; Ok (c :: x, r).
Proof.
  intros H1 H2 H3. cbn [scanstring].
  destruct (N.eqb_spec c QUOTE); [contradiction|].
  destruct (N.eqb_spec c BACKSLASH); [contradiction|].
  destruct (N.leb_spec c 0x1F); [lia|]. reflexivity.
Qed.

Lemma scanstring_u (h1 h2 h3 h4 u : N) (t : Py.str) :
  hex4 h1 h2 h3 h4 = Some u ->
  (Py.is_high_surrogate u = true -> follow_low t = false) ->
  scanstring (BACKSLASH :: LOWER_U :: h1 :: h2 :: h3 :: h4 :: t)
  = '(x, r) <- scanstring t ;; Ok (u :: x, r).
Proof.
  intros H F. cbn [scanstring].
  change (BACKSLASH =? QUOTE) with false.
  change (BACKSLASH =? BACKSLASH) with true.
  change (LOWER_U =? LOWER_U) with true. cbv iota.
  rewrite H.
  destruct (Py.is_high_surrogate u); [|reflexivity].
  specialize (F eq_refl).
  destruct t as [|b [|u' [|g1 [|g2 [|g3 [|g4 r3]]]]]]; try reflexivity.
  unfold follow_low in F.
  destruct ((b =? BACKSLASH) && (u' =? LOWER_U))%bool; [|reflexivity].
  destruct (hex4 g1 g2 g3 g4); [|discriminate].
  rewrite F. reflexivity.
Qed.

Lemma scanstring_pair (h1 h2 h3 h4 g1 g2 g3 g4 u u2 : N) (t : Py.str) :
  hex4 h1 h2 h3 h4 = Some u -> Py.is_high_surrogate u = true ->
  hex4 g1 g2 g3 g4 = Some u2 -> Py.is_low_surrogate u2 = true ->
  scanstring (BACKSLASH :: LOWER_U :: h1 :: h2 :: h3 :: h4
                :: BACKSLASH :: LOWER_U :: g1 :: g2 :: g3 :: g4 :: t)
  = '(x, r) <- scanstring t ;; Ok (join_surrogates u u2 :: x, r).
Proof.
  intros H Hu G Gu. cbn [scanstring].
  change (BACKSLASH =? QUOTE) with false.
  change (BACKSLASH =? BACKSLASH) with true.
  change (LOWER_U =? LOWER_U) with true. cbv iota.
  rewrite H, Hu. cbn [andb]. rewrite G, Gu. reflexivity.
Qed.

Lemma follow_low_head (b : N) (t : Py.str) :
  b <> BACKSLASH -> follow_low (b :: t) = false.
Proof.
  intros H. unfold follow_low.
  destruct t as [|u [|g1 [|g2 [|g3 [|g4 r]]]]]; try reflexivity.
  destruct (N.eqb_spec b BACKSLASH); [contradiction|]. reflexivity.
Qed.

Lemma follow_low_second (b u : N) (t : Py.str) :
  u <> LOWER_U -> follow_low (b :: u :: t) = false.
Proof.
  intros H. unfold follow_low.
  destruct t as [|g1 [|g2 [|g3 [|g4 r]]]]; try reflexivity.
  destruct (N.eqb_spec u LOWER_U); [contradiction|].
  rewrite andb_false_r. reflexivity.
Qed.

Lemma follow_low_u (h1 h2 h3 h4 u : N) (t : Py.str) :
  hex4 h1 h2 h3 h4 = Some u ->
  follow_low (BACKSLASH :: LOWER_U :: h1 :: h2 :: h3 :: h4 :: t)
  = Py.is_low_surrogate u.
Proof.
  intros H. unfold follow_low.
  change (BACKSLASH =? BACKSLASH) with true.
  change (LOWER_U =? LOWER_U) with true. cbn [andb]. rewrite H. reflexivity.
Qed.

Lemma encode_char_encoding (c : N) : encoding c (encode_char c).
Proof.
  unfold encode_char. destruct (S_CHAR c) eqn:S.
  - chars. bools. apply enc_plain; chars; lia.
  - unfold ascii_escape_unichar.
    destruct (N.eqb_spec c BACKSLASH) as [->|]; [apply (enc_short _ 92); [reflexivity|discriminate]|].
    destruct (N.eqb_spec c QUOTE) as [->|]; [apply (enc_short _ 34); [reflexivity|discriminate]|].
    destruct (N.eqb_spec c 8) as [->|]; [apply (enc_short _ 98); [reflexivity|discriminate]|].
    destruct (N.eqb_spec c 12) as [->|]; [apply (enc_short _ 102); [reflexivity|discriminate]|].
    destruct (N.eqb_spec c 10) as [->|]; [apply (enc_short _ 110); [reflexivity|discriminate]|].
    destruct (N.eqb_spec c 13) as [->|]; [apply (enc_short _ 114); [reflexivity|discriminate]|].
    destruct (N.eqb_spec c 9) as [->|]; [apply (enc_short _ 116); [reflexivity|discriminate]|].
    destruct (N.leb_spec 0x10000 c).
    + apply enc_pair; assumption.
    + apply enc_u; assumption.
Qed.

Lemma scanstring_encode_char (c : N) (t : Py.str) :
  c < 0x110000 ->
  (Py.is_high_surrogate c = true -> follow_low t = false) ->
  scanstring (encode_char c ++ t) = '(x, r) <- scanstring t ;; Ok (c :: x, r).
Proof.
  intros Hc F. destruct (encode_char_encoding c) as [H1 H2 H3|e He Hu|Hlt|Hge].
  - apply scanstring_plain; assumption.
  - cbn [app scanstring].
    change (BACKSLASH =? QUOTE) with false.
    change (BACKSLASH =? BACKSLASH) with true. cbv iota.
    destruct (N.eqb_spec e LOWER_U); [contradiction|].
    rewrite He. reflexivity.
  - destruct (u_escape_shape _ Hlt) as (h1 & h2 & h3 & h4 & E & Hx).
    rewrite E. cbn [app]. apply scanstring_u; assumption.
  - destruct (halves_spec c) as (Hh & Hl & J); [lia|].
    destruct (u_escape_shape _ (high_half_lt c)) as (h1 & h2 & h3 & h4 & E & Hx).
    destruct (u_escape_shape _ (low_half_lt c)) as (g1 & g2 & g3 & g4 & E' & Gx).
    rewrite E, E'. cbn [app].
    rewrite (scanstring_pair _ _ _ _ _ _ _ _ _ _ t Hx Hh Gx Hl), J. reflexivity.
Qed.

Lemma follow_low_encode_char (d : N) (t : Py.str) :
  Py.is_low_surrogate d = false -> follow_low (encode_char d ++ t) = false.
Proof.
  intros Hd. destruct (encode_char_encoding d) as [H1 H2 H3|e He Hu|Hlt|Hge].
  - apply follow_low_head; assumption.
  - apply follow_low_second; assumption.
  - destruct (u_escape_shape _ Hlt) as (h1 & h2 & h3 & h4 & E & Hx).
    rewrite E. cbn [app]. rewrite (follow_low_u _ _ _ _ _ _ Hx). exact Hd.
  - destruct (u_escape_shape _ (high_half_lt d)) as (h1 & h2 & h3 & h4 & E & Hx).
    rewrite E. cbn [app]. rewrite (follow_low_u _ _ _ _ _ _ Hx).
    destruct (half_spec _ (land_1023_lt (N.shiftr (d - 0x10000) 10))) as (Hh & _).
    fold (high_half d) in Hh. clear Hd. revert Hh. chars. intros Hh. bools.
    destruct (N.leb_spec 0xDC00 (high_half d)); [lia|reflexivity].
Qed.

Lemma encode_char_surrogate (c : N) :
  Py.is_surrogate c = true -> encode_char c = u_escape c.
Proof.
  intros H. chars. bools.
  unfold encode_char, S_CHAR, ascii_escape_unichar.
  destruct (N.leb_spec c 126); [lia|]. rewrite andb_false_r. cbn [andb].
  repeat match goal with
         | |- context [N.eqb c ?k] => destruct (N.eqb_spec c k); [chars; lia|]
         end.
  destruct (N.leb_spec 0x10000 c); [lia|]. reflexivity.
Qed.

Lemma valid_cons (c : N) (s : Py.str) :
  Py.valid (c :: s) = true -> c < 0x110000 /\ Py.valid s = true.
Proof.
  unfold Py.valid. cbn [forallb]. intros H.
  apply andb_true_iff in H as [H1 H2]. apply N.ltb_lt in H1. auto.
Qed.

(** A dumped string, read back, is the string with its surrogate pairs
    joined. *)
Lemma scanstring_escape_len (n : nat) :
  forall (s rest : Py.str),
    (List.length s <= n)%nat -> Py.valid s = true ->
    scanstring (escape s ++ QUOTE :: rest) = Ok (normalize s, rest).
Proof.
  induction n as [|n IH]; intros s rest Hn Hv.
  - destruct s; [reflexivity|simpl in Hn; lia].
  - destruct s as [|c [|d r]].
    + reflexivity.
    + apply valid_cons in Hv as [Hc _].
      unfold escape. cbn [flat_map normalize]. rewrite app_nil_r.
      rewrite scanstring_encode_char; [reflexivity|assumption|].
      intros _. apply follow_low_head. discriminate.
    + apply valid_cons in Hv as [Hc Hv']. pose proof Hv' as Hv''.
      apply valid_cons in Hv'' as [Hd Hv''].
      cbn [normalize].
      destruct (Py.is_high_surrogate c && Py.is_low_surrogate d)%bool eqn:P.
      * apply andb_true_iff in P as [Ph Pl].
        unfold escape. cbn [flat_map]. fold (escape r).
        rewrite (encode_char_surrogate c), (encode_char_surrogate d).
        2:{ revert Pl. chars. intros. bools. apply andb_true_iff; split; [apply N.leb_le|apply N.leb_le]; lia. }
        2:{ revert Ph. chars. intros. bools. apply andb_true_iff; split; [apply N.leb_le|apply N.leb_le]; lia. }
        assert (Hc' : c < 0x10000) by (revert Ph; chars; intros; bools; lia).
        assert (Hd' : d < 0x10000) by (revert Pl; chars; intros; bools; lia).
        destruct (u_escape_shape _ Hc') as (h1 & h2 & h3 & h4 & E & Hx).
        destruct (u_escape_shape _ Hd') as (g1 & g2 & g3 & g4 & E' & Gx).
        rewrite E, E'. cbn [app].
        rewrite (scanstring_pair _ _ _ _ _ _ _ _ _ _ _ Hx Ph Gx Pl).
        rewrite IH; [reflexivity| simpl in Hn; lia | assumption].
      * unfold escape. cbn [flat_map]. fold (escape r).
        rewrite <- app_assoc.
        rewrite scanstring_encode_char; [|assumption|].
        -- change (encode_char d ++ escape r) with (escape (d :: r)).
           rewrite IH; [reflexivity| simpl in *; lia | assumption].
        -- intros Ph. rewrite Ph in P. cbn [andb] in P.
           rewrite <- app_assoc. apply follow_low_encode_char. exact P.
Qed.

Lemma scanstring_escape (s rest : Py.str) :
  Py.valid s = true ->
  scanstring (escape s ++ QUOTE :: rest) = Ok (normalize s, rest).
Proof. intros; eapply scanstring_escape_len; eauto. Qed.

Lemma normalize_cons2 (c d : N) (r : Py.str) :
  normalize (c :: d :: r)
  = if (Py.is_high_surrogate c && Py.is_low_surrogate d)%bool
    then join_surrogates c d :: normalize r
    else c :: normalize (d :: r).
Proof. reflexivity. Qed.

Lemma normalize_no_pair (s : Py.str) :
  Py.no_surrogate_pair s = true -> normalize s = s.
Proof.
  induction s as [|c r IH]; intros H; [reflexivity|].
  destruct r as [|d r']; [reflexivity|].
  rewrite normalize_cons2. cbn [Py.no_surrogate_pair] in H.
  apply andb_true_iff in H as [H1 H2]. apply negb_true_iff in H1.
  rewrite H1, IH; auto.
Qed.

End ScanString.

(** ** The [json] module: the decoder ends, and fails with
       [JSONDecodeError] only *)

Section DecoderTotal.

Import json.
Open Scope result_scope.

Lemma consumes_weaken {A} (s t : Py.str) (res : result (A * Py.str)) :
  consumes t res -> List.length t <= List.length s -> consumes s res.
Proof. destruct res as [[a r]|e]; simpl; intros; [lia|assumption]. Qed.

Lemma consumes_map {A B} (g : A -> B) (s t : Py.str) (res : result (A * Py.str)) :
  consumes t res -> List.length t <= List.length s ->
  consumes s ('(x, r) <- res ;; Ok (g x, r)).
Proof. destruct res as [[a r]|e]; simpl; intros; [lia|assumption]. Qed.

Lemma skip_ws_length (s : Py.str) : List.length (skip_ws s) <= List.length s.
Proof.
  induction s as [|c r IH]; simpl; [lia|].
  destruct (is_ws c); simpl; lia.
Qed.

Lemma scanstring_consumes_len (n : nat) :
  forall s, List.length s <= n -> consumes s (scanstring s).
Proof.
  induction n as [|n IH]; intros s Hn.
  - destruct s; [reflexivity|simpl in Hn; lia].
  - destruct s as [|c rest]; [reflexivity|].
    cbn [scanstring].
    destruct (N.eqb c QUOTE); [simpl; lia|].
    destruct (N.eqb c BACKSLASH).
    + destruct rest as [|e rest1]; [reflexivity|].
      destruct (N.eqb e LOWER_U).
      * destruct rest1 as [|h1 [|h2 [|h3 [|h4 rest2]]]]; try reflexivity.
        destruct (hex4 h1 h2 h3 h4) as [u|]; [|reflexivity].
        assert (S1 : consumes (c :: e :: h1 :: h2 :: h3 :: h4 :: rest2)
                       ('(t, r) <- scanstring rest2 ;; Ok (u :: t, r))).
        { eapply consumes_map; [apply IH; simpl in *; lia|simpl; lia]. }
        destruct (Py.is_high_surrogate u); [|exact S1].
        destruct rest2 as [|b [|u' [|g1 [|g2 [|g3 [|g4 rest3]]]]]]; try exact S1.
        destruct (N.eqb b BACKSLASH && N.eqb u' LOWER_U)%bool; [|exact S1].
        destruct (hex4 g1 g2 g3 g4) as [u2|]; [|reflexivity].
        destruct (Py.is_low_surrogate u2); [|exact S1].
        eapply consumes_map; [apply IH; simpl in *; lia|simpl; lia].
      * destruct (unescape e); [|reflexivity].
        eapply consumes_map; [apply IH; simpl in *; lia|simpl; lia].
    + destruct (N.leb c 31); [reflexivity|].
      eapply consumes_map; [apply IH; simpl in *; lia|simpl; lia].
Qed.

Lemma scanstring_consumes (s : Py.str) : consumes s (scanstring s).
Proof. eapply scanstring_consumes_len; eauto. Qed.

Lemma strip_prefix_length (p s r : Py.str) :
  Py.strip_prefix p s = Some r -> List.length s = List.length p + List.length r.
Proof.
  revert s; induction p as [|a p IH]; intros s H; simpl in *.
  - inversion H; reflexivity.
  - destruct s as [|c s]; [discriminate|].
    destruct (N.eqb a c); [|discriminate].
    simpl. rewrite (IH _ H). reflexivity.
Qed.

Lemma span_digits_length (s : Py.str) :
  List.length (fst (span_digits s)) + List.length (snd (span_digits s))
  = List.length s.
Proof.
  induction s as [|c r IH]; [reflexivity|].
  cbn [span_digits]. destruct (is_digit c); [|reflexivity].
  destruct (span_digits r) as [ds r']. simpl in *. lia.
Qed.

Lemma span_digits_rest (s : Py.str) :
  List.length (snd (span_digits s)) <= List.length s.
Proof. pose proof (span_digits_length s). lia. Qed.

Lemma read_int_consumes (s ds r : Py.str) :
  read_int s = Some (ds, r) -> List.length r < List.length s.
Proof.
  unfold read_int. destruct s as [|c s']; [discriminate|].
  pose proof (span_digits_rest s') as L.
  destruct (span_digits s') as [ds' r']. cbn [snd] in L.
  destruct (_ && _)%bool.
  - intros E; inversion E; subst; simpl; lia.
  - destruct (N.eqb c ZERO); intros E; inversion E; subst; simpl; lia.
Qed.

Lemma read_frac_rest (s : Py.str) :
  List.length (snd (read_frac s)) <= List.length s.
Proof.
  unfold read_frac. destruct s as [|d [|x r]]; simpl; try lia.
  pose proof (span_digits_rest r) as L.
  destruct (span_digits r) as [fs r']. cbn [snd] in L.
  destruct (_ && _)%bool; simpl; lia.
Qed.

Lemma read_exp_rest (s : Py.str) :
  List.length (snd (read_exp s)) <= List.length s.
Proof.
  unfold read_exp. destruct s as [|e r]; [simpl; lia|].
  destruct (_ || _)%bool; [|simpl; lia].
  assert (H : forall r', List.length r' <= List.length r ->
            List.length (snd (let (es, r'') := span_digits r' in
                              match es with
                              | [] => (@nil N, e :: r)
                              | _ :: _ => (e :: [] ++ es, r'')
                              end)) <= List.length (e :: r)).
  { intros r' Hr. pose proof (span_digits_rest r') as L.
    destruct (span_digits r') as [es r'']. cbn [snd] in L.
    destruct es; simpl; lia. }
  destruct r as [|sg [|x r0]].
  - simpl. lia.
  - pose proof (span_digits_rest [sg]) as L.
    destruct (span_digits [sg]) as [es r'']. cbn [snd] in L.
    destruct es; simpl in *; lia.
  - destruct (_ || _)%bool.
    + pose proof (span_digits_rest (x :: r0)) as L.
      destruct (span_digits (x :: r0)) as [es r'']. cbn [snd] in L.
      destruct es; simpl in *; lia.
    + pose proof (span_digits_rest (sg :: x :: r0)) as L.
      destruct (span_digits (sg :: x :: r0)) as [es r'']. cbn [snd] in L.
      destruct es; simpl in *; lia.
Qed.

Lemma number_body_consumes (neg : bool) (s : Py.str) (v : pyval) (r : Py.str) :
  number_body neg s = Some (v, r) -> List.length r < List.length s.
Proof.
  unfold number_body.
  destruct (read_int s) as [[ds r1]|] eqn:I; [|discriminate].
  apply read_int_consumes in I.
  pose proof (read_frac_rest r1) as F.
  destruct (read_frac r1) as [frac r2]. cbn [snd] in F.
  pose proof (read_exp_rest r2) as X.
  destruct (read_exp r2) as [ex r3]. cbn [snd] in X.
  destruct frac, ex; intros E; inversion E; subst; lia.
Qed.

Lemma match_number_consumes (s : Py.str) (v : pyval) (r : Py.str) :
  match_number s = Some (v, r) -> List.length r < List.length s.
Proof.
  unfold match_number. destruct s as [|c s']; [discriminate|].
  destruct (N.eqb c MINUS); intros E; apply number_body_consumes in E;
    simpl in *; lia.
Qed.

Lemma scan_atom_consumes (s : Py.str) : consumes s (scan_atom s).
Proof.
  unfold scan_atom.
  repeat match goal with
  | |- context [Py.strip_prefix ?p s] =>
      let H := fresh "P" in
      destruct (Py.strip_prefix p s) eqn:H;
      [apply strip_prefix_length in H; simpl in *; lia|]
  end.
  destruct (match_number s) as [[v r]|] eqn:E; [|reflexivity].
  simpl. eapply match_number_consumes; eauto.
Qed.

Lemma skip_ws_cons_length (s r : Py.str) (c : N) :
  skip_ws s = c :: r -> S (List.length r) <= List.length s.
Proof.
  intros H. pose proof (skip_ws_length s) as L. rewrite H in L. exact L.
Qed.

(** With a budget of twice the length of the text and a little, the
    scanner never reaches the end of its budget. *)
Lemma scan_family_consumes (fuel : nat) :
  (forall s, 2 * List.length s + 1 <= fuel -> consumes s (scan_once fuel s))
  /\ (forall acc s, 2 * List.length s + 2 <= fuel ->
        consumes s (object_items fuel acc s))
  /\ (forall acc s, 2 * List.length s + 2 <= fuel ->
        consumes s (array_items fuel acc s)).
Proof.
  induction fuel as [|f (IHscan & IHobj & IHarr)].
  - repeat split; intros; lia.
  - repeat split.
    + intros s Hf. destruct s as [|c rest]; [reflexivity|].
      cbn [scan_once]. simpl List.length in Hf.
      destruct (N.eqb c QUOTE).
      { eapply consumes_map; [apply scanstring_consumes|simpl; lia]. }
      destruct (N.eqb c LBRACE).
      { destruct (skip_ws rest) as [|c' r'] eqn:E; [reflexivity|].
        apply skip_ws_cons_length in E.
        destruct (N.eqb c' RBRACE); [simpl; lia|].
        eapply consumes_weaken; [apply IHobj|]; simpl; lia. }
      destruct (N.eqb c LBRACKET).
      { destruct (skip_ws rest) as [|c' r'] eqn:E; [reflexivity|].
        apply skip_ws_cons_length in E.
        destruct (N.eqb c' RBRACKET); [simpl; lia|].
        eapply consumes_weaken; [apply IHarr|]; simpl; lia. }
      apply scan_atom_consumes.
    + intros acc s Hf. destruct s as [|q r]; [reflexivity|].
      cbn [object_items]. simpl List.length in Hf.
      destruct (N.eqb q QUOTE); [|reflexivity].
      pose proof (scanstring_consumes r) as K.
      destruct (scanstring r) as [[key r1]|e]; [|exact K].
      cbn [rbind]. simpl in K.
      destruct (skip_ws r1) as [|colon r2] eqn:E1; [reflexivity|].
      apply skip_ws_cons_length in E1.
      destruct (N.eqb colon COLON); [|reflexivity].
      pose proof (skip_ws_length r2) as L2.
      assert (V : consumes (skip_ws r2) (scan_once f (skip_ws r2)))
        by (apply IHscan; lia).
      destruct (scan_once f (skip_ws r2)) as [[v r3]|e]; [|exact V].
      cbn [rbind]. simpl in V.
      destruct (skip_ws r3) as [|d r4] eqn:E3; [reflexivity|].
      apply skip_ws_cons_length in E3.
      destruct (N.eqb d RBRACE); [simpl; lia|].
      destruct (N.eqb d COMMA); [|reflexivity].
      pose proof (skip_ws_length r4) as L4.
      eapply consumes_weaken; [apply IHobj|]; simpl; lia.
    + intros acc s Hf. cbn [array_items].
      assert (V : consumes s (scan_once f s)) by (apply IHscan; lia).
      destruct (scan_once f s) as [[v r1]|e]; [|exact V].
      cbn [rbind]. simpl in V.
      destruct (skip_ws r1) as [|d r2] eqn:E1; [reflexivity|].
      apply skip_ws_cons_length in E1.
      destruct (N.eqb d RBRACKET); [simpl; lia|].
      destruct (N.eqb d COMMA); [|reflexivity].
      pose proof (skip_ws_length r2) as L2.
      eapply consumes_weaken; [apply IHarr|]; simpl; lia.
Qed.

(** [json.loads] returns a value or raises [JSONDecodeError] or, when it is
    not given a [str], [TypeError]. *)
Lemma loads_raises (data : option Py.str) (e : exn) :
  loads data = Raise e -> e = JSONDecodeError \/ e = TypeError.
Proof.
  destruct data as [s|]; simpl; [|intros H; inversion H; auto].
  assert (D : forall e, decode s = Raise e -> e = JSONDecodeError).
  { intros e'. unfold decode.
    pose proof (skip_ws_length s) as L.
    destruct (scan_family_consumes (fuel_for s)) as (Hscan & _ & _).
    specialize (Hscan (skip_ws s)).
    assert (B : 2 * List.length (skip_ws s) + 1 <= fuel_for s)
      by (unfold fuel_for; lia).
    specialize (Hscan B).
    destruct (scan_once (fuel_for s) (skip_ws s)) as [[v r]|e0]; simpl in *.
    - destruct (skip_ws r); intros H; inversion H; reflexivity.
    - intros H; inversion H; subst; reflexivity. }
  destruct s as [|c r]; [intros H; left; eapply D; eauto|].
  destruct c as [|p]; [intros H; left; eapply D; eauto|].
  repeat (destruct p as [p|p|]; try (intros H; left; eapply D; eassumption));
    intros H; inversion H; auto.
Qed.

End DecoderTotal.

Section RoundTrip.

Import json.
Open Scope result_scope.

Lemma encode_basestring_ascii_app (s rest : Py.str) :
  encode_basestring_ascii s ++ rest = QUOTE :: escape s ++ QUOTE :: rest.
Proof.
  unfold encode_basestring_ascii. cbn [app]. rewrite <- app_assoc. reflexivity.
Qed.

Lemma scan_once_string (n : nat) (s rest : Py.str) :
  Py.valid s = true ->
  scan_once (S n) (QUOTE :: escape s ++ QUOTE :: rest) = Ok (PStr (normalize s), rest).
Proof.
  intros Hv. cbn [scan_once].
  change (N.eqb QUOTE QUOTE) with true. cbv iota.
  rewrite scanstring_escape by assumption. reflexivity.
Qed.

Lemma serialize_make (f i : Py.str) (c : ChangeType) (st : PullRequestState.t)
  (url : option Py.str) (ca : option datetime) (u : Py.str) (o : bool) :
  PullRequestBody.serialize (PullRequestBody.make f i c st url ca u o)
  = Ok (dumped f i (ChangeType_value c) u o).
Proof. destruct o; reflexivity. Qed.

Lemma items_str_more (n : nat) (acc : list (Py.str * pyval)) (k s rest : Py.str) :
  Py.valid k = true -> Py.valid s = true ->
  object_items (S (S n)) acc
    (QUOTE :: escape k ++ QUOTE :: COLON :: 32%N
       :: QUOTE :: escape s ++ QUOTE :: COMMA :: 32%N :: QUOTE :: rest)
  = object_items (S n) (dict_set acc (normalize k) (PStr (normalize s)))
      (QUOTE :: rest).
Proof.
  intros Hk Hs. cbn [object_items].
  change (N.eqb QUOTE QUOTE) with true. cbv iota.
  rewrite scanstring_escape by assumption. cbn [rbind].
  change (skip_ws (COLON :: ?x)) with (COLON :: x).
  change (N.eqb COLON COLON) with true. cbv iota.
  change (skip_ws (32%N :: QUOTE :: ?x)) with (QUOTE :: x).
  rewrite scan_once_string by assumption. reflexivity.
Qed.

Lemma items_bool_last (n : nat) (acc : list (Py.str * pyval)) (k : Py.str)
  (o : bool) :
  Py.valid k = true ->
  object_items (S (S n)) acc
    (QUOTE :: escape k ++ QUOTE :: COLON :: 32%N
       :: (if o then py "true" else py "false") ++ [RBRACE])
  = Ok (PDict (dict_set acc (normalize k) (PBool o)), []).
Proof.
  intros Hk. cbn [object_items].
  change (N.eqb QUOTE QUOTE) with true. cbv iota.
  rewrite scanstring_escape by assumption. cbn [rbind].
  change (skip_ws (COLON :: ?x)) with (COLON :: x).
  change (N.eqb COLON COLON) with true. cbv iota.
  destruct o; reflexivity.
Qed.

Lemma scan_once_object (n : nat) (rest : Py.str) :
  scan_once (S n) (LBRACE :: QUOTE :: rest) = object_items n [] (QUOTE :: rest).
Proof. reflexivity. Qed.

Lemma valid_ascii (s : string) : Py.valid (py s) = true.
Proof.
  unfold py, Py.of_string, Py.valid.
  induction (list_ascii_of_string s) as [|a l IH]; [reflexivity|].
  cbn [map forallb]. rewrite IH, andb_true_r. apply N.ltb_lt.
  pose proof (N_ascii_bounded a). lia.
Qed.

Lemma scan_dumped (n : nat) (f i cs u : Py.str) (o : bool) :
  Py.valid f = true -> Py.valid i = true -> Py.valid cs = true -> Py.valid u = true ->
  scan_once (7 + n) (dumped f i cs u o)
  = Ok (PDict [ (py "filename", PStr (normalize f));
                (py "item_type", PStr (normalize i));
                (py "change_type", PStr (normalize cs));
                (py "user", PStr (normalize u));
                (py "data_owner", PBool o) ], []).
Proof.
  intros Hf Hi Hc Hu. unfold dumped.
  unfold encode_basestring_ascii.
  change (py "{") with [LBRACE]. change (py "}") with [RBRACE].
  change (py ": ") with [COLON; 32%N]. change (py ", ") with [COMMA; 32%N].
  repeat first [rewrite <- app_assoc | progress cbn [app]].
  change (7 + n) with (S (S (S (S (S (S (S n))))))).
  rewrite scan_once_object.
  rewrite (items_str_more _ _ _ _ _ (valid_ascii "filename") Hf).
  rewrite (items_str_more _ _ _ _ _ (valid_ascii "item_type") Hi).
  rewrite (items_str_more _ _ _ _ _ (valid_ascii "change_type") Hc).
  rewrite (items_str_more _ _ _ _ _ (valid_ascii "user") Hu).
  rewrite (items_bool_last _ _ _ o (valid_ascii "data_owner")).
  reflexivity.
Qed.

(** The check for a byte order mark changes nothing in the outcome: the
    scanner rejects a text that starts with one. *)
Lemma loads_decode (c : N) (r : Py.str) :
  loads (Some (c :: r)) = decode (c :: r).
Proof.
  unfold loads.
  destruct c as [|p]; [reflexivity|].
  repeat (destruct p as [p|p|]; try reflexivity).
Qed.

Lemma loads_dumped (f i cs u : Py.str) (o : bool) :
  Py.valid f = true -> Py.valid i = true -> Py.valid cs = true -> Py.valid u = true ->
  loads (Some (dumped f i cs u o))
  = Ok (PDict [ (py "filename", PStr (normalize f));
                (py "item_type", PStr (normalize i));
                (py "change_type", PStr (normalize cs));
                (py "user", PStr (normalize u));
                (py "data_owner", PBool o) ]).
Proof.
  intros Hf Hi Hc Hu.
  pose proof (scan_dumped) as SD.
  assert (E : exists r, dumped f i cs u o = LBRACE :: QUOTE :: 102%N :: r).
  { unfold dumped, encode_basestring_ascii. eexists. reflexivity. }
  destruct E as [r E].
  assert (F : exists n, fuel_for (dumped f i cs u o) = 7 + n).
  { rewrite E. unfold fuel_for. simpl List.length.
    exists (2 * List.length r + 1). lia. }
  destruct F as [n F].
  specialize (SD n f i cs u o Hf Hi Hc Hu).
  rewrite E in *. rewrite loads_decode.
  unfold decode. change (skip_ws (LBRACE :: ?x)) with (LBRACE :: x).
  rewrite F, SD. reflexivity.
Qed.

End RoundTrip.

(** ** The change descriptor *)

Section Descriptor.

Import PullRequestBody.

Lemma str_in_In (k : Py.str) (l : list Py.str) : str_in k l = true <-> In k l.
Proof.
  unfold str_in. rewrite existsb_exists. split.
  - intros (x & Hx & E). apply Py_eqb_eq in E. subst; assumption.
  - intros H. exists k. split; [assumption|apply Py_eqb_refl].
Qed.

Lemma dict_get_In (d : list (Py.str * pyval)) (k : Py.str) (v : pyval) :
  dict_get d k = Some v -> In k (dict_keys d).
Proof.
  induction d as [|[k' v'] d IH]; simpl; [discriminate|].
  destruct (Py.eqb k' k) eqn:E.
  - apply Py_eqb_eq in E. auto.
  - intros H. right. apply IH. exact H.
Qed.


Lemma dict_get_app (d e : list (Py.str * pyval)) (k : Py.str) :
  dict_get (d ++ e) k
  = match dict_get d k with Some v => Some v | None => dict_get e k end.
Proof.
  induction d as [|[k' v'] d IH]; simpl; [reflexivity|].
  destruct (Py.eqb k' k); auto.
Qed.

Lemma dict_get_not_In (d : list (Py.str * pyval)) (k : Py.str) :
  ~ In k (dict_keys d) -> dict_get d k = None.
Proof.
  intros H. destruct (dict_get d k) eqn:E; [|reflexivity].
  exfalso. apply H. eapply dict_get_In; eauto.
Qed.

Lemma embedded_not_external (k : Py.str) :
  In k embedded_keys -> str_in k [py "url"; py "state"; py "created_at"] = false.
Proof.
  intros H. simpl in H.
  repeat (destruct H as [<-|H]; [reflexivity|]). contradiction.
Qed.

Lemma field_not_external (k : Py.str) :
  str_in k field_names = true ->
  str_in k [py "url"; py "state"; py "created_at"] = false ->
  In k embedded_keys.
Proof.
  intros H1 H2. apply str_in_In in H1. simpl in H1.
  repeat (destruct H1 as [<-|H1];
          [first [discriminate H2 | simpl; tauto]|]).
  contradiction.
Qed.

Lemma construct_ok_exact (d : list (Py.str * pyval)) (url_ : Py.str)
  (state_ : PullRequestState.t) (created_at_ : datetime) (b : t) :
  construct (PDict d) url_ state_ created_at_ = Ok b ->
  exact_keys d
  /\ dict_get d (py "filename") = Some (filename b)
  /\ dict_get d (py "item_type") = Some (item_type b)
  /\ dict_get d (py "change_type") = Some (change_type b)
  /\ dict_get d (py "user") = Some (user b)
  /\ dict_get d (py "data_owner") = Some (data_owner b)
  /\ state b = PPullRequestState state_
  /\ url b = PStr url_
  /\ created_at b = PDatetime created_at_.
Proof.
  unfold construct.
  destruct (existsb _ (dict_keys d)) eqn:A; [discriminate|].
  destruct (forallb _ _) eqn:B; [|discriminate].
  assert (Ext : forall k, In k (dict_keys d) ->
                  str_in k [py "url"; py "state"; py "created_at"] = false).
  { intros k Hk. destruct (str_in k _) eqn:E; [|reflexivity].
    assert (X : existsb (fun k => str_in k [py "url"; py "state"; py "created_at"])
                  (dict_keys d) = true)
      by (apply existsb_exists; eauto).
    congruence. }
  assert (Sub : forall k, In k (dict_keys d) -> In k embedded_keys).
  { intros k Hk. apply field_not_external; [|auto].
    rewrite forallb_forall in B. apply B.
    unfold dict_keys. rewrite map_app. apply in_or_app. left. exact Hk. }
  assert (G : forall k, In k embedded_keys ->
                dict_get (d ++ [ (py "url", PStr url_);
                                 (py "state", PPullRequestState state_);
                                 (py "created_at", PDatetime created_at_) ]) k
                = dict_get d k).
  { intros k Hk. rewrite dict_get_app. destruct (dict_get d k); [reflexivity|].
    simpl in Hk. repeat (destruct Hk as [<-|Hk]; [reflexivity|]). contradiction. }
  assert (N : forall k, str_in k [py "url"; py "state"; py "created_at"] = true ->
                dict_get d k = None).
  { intros k Hk. apply dict_get_not_In. intros I. apply Ext in I. congruence. }
  rewrite !G by (simpl; tauto).
  rewrite !dict_get_app.
  rewrite (N (py "state")), (N (py "url")), (N (py "created_at")) by reflexivity.
  change (dict_get [ (py "url", PStr url_); (py "state", PPullRequestState state_);
                     (py "created_at", PDatetime created_at_) ] (py "state"))
    with (Some (PPullRequestState state_)).
  change (dict_get [ (py "url", PStr url_); (py "state", PPullRequestState state_);
                     (py "created_at", PDatetime created_at_) ] (py "url"))
    with (Some (PStr url_)).
  change (dict_get [ (py "url", PStr url_); (py "state", PPullRequestState state_);
                     (py "created_at", PDatetime created_at_) ] (py "created_at"))
    with (Some (PDatetime created_at_)).
  destruct (dict_get d (py "filename")) as [f|] eqn:E1; [|discriminate].
  destruct (dict_get d (py "item_type")) as [i|] eqn:E2; [|discriminate].
  destruct (dict_get d (py "change_type")) as [c|] eqn:E3; [|discriminate].
  destruct (dict_get d (py "user")) as [u|] eqn:E4; [|discriminate].
  destruct (dict_get d (py "data_owner")) as [o|] eqn:E5; [|discriminate].
  intros H. inversion H; subst; clear H. cbn.
  repeat split; auto.
  intros Hk. simpl in Hk.
  destruct Hk as [<-|[<-|[<-|[<-|[<-|[]]]]]]; eapply dict_get_In; eauto.
Qed.


Lemma construct_raises (obj : pyval) (url_ : Py.str)
  (state_ : PullRequestState.t) (created_at_ : datetime) (e : exn) :
  construct obj url_ state_ created_at_ = Raise e -> e = TypeError.
Proof.
  unfold construct. destruct obj; try (intros H; inversion H; reflexivity).
  repeat match goal with
         | |- context [match ?x with _ => _ end] => destruct x
         end; intros H; inversion H; reflexivity.
Qed.

(** What [deserialize] does, by what [json.loads] gives. *)
Lemma deserialize_cases (data : option Py.str) (url_ : Py.str)
  (state_ : PullRequestState.t) (created_at_ : datetime) :
  deserialize data url_ state_ created_at_
  = match json.loads data with
    | Ok obj =>
        match construct obj url_ state_ created_at_ with
        | Ok b => Ok b
        | Raise _ => Raise DeserializeError
        end
    | Raise _ => Raise DeserializeError
    end.
Proof.
  unfold deserialize, try_except.
  destruct (json.loads data) as [obj|e] eqn:L; cbn [rbind].
  - destruct (construct obj url_ state_ created_at_) as [b|e] eqn:C; [reflexivity|].
    apply construct_raises in C. subst. reflexivity.
  - apply loads_raises in L. destruct L; subst; reflexivity.
Qed.

End Descriptor.

(** ** Claims on the change descriptor *)

Section DescriptorClaims.

Import PullRequestBody.

Lemma ChangeType_value_valid (c : ChangeType) :
  Py.valid (ChangeType_value c) = true.
Proof. destruct c; reflexivity. Qed.

Lemma ChangeType_value_normal (c : ChangeType) :
  normalize (ChangeType_value c) = ChangeType_value c.
Proof. destruct c; reflexivity. Qed.

(** What comes back from the serialized form of a well-typed descriptor:
    the embedded fields with their surrogate pairs joined, the change type
    as a plain [str]. *)
Lemma deserialize_serialize_make (f i : Py.str) (c : ChangeType)
  (st : PullRequestState.t) (url : option Py.str) (ca : option datetime)
  (u : Py.str) (o : bool) (url' : Py.str) (st' : PullRequestState.t)
  (ca' : datetime) :
  Py.valid f = true -> Py.valid i = true -> Py.valid u = true ->
  exists s,
    serialize (make f i c st url ca u o) = Ok s
    /\ json.loads (Some s)
       = Ok (PDict [ (py "filename", PStr (normalize f));
                     (py "item_type", PStr (normalize i));
                     (py "change_type", PStr (ChangeType_value c));
                     (py "user", PStr (normalize u));
                     (py "data_owner", PBool o) ])
    /\ deserialize (Some s) url' st' ca'
       = Ok (mk (PStr (normalize f)) (PStr (normalize i))
                (PStr (ChangeType_value c)) (PPullRequestState st')
                (PStr url') (PDatetime ca') (PStr (normalize u)) (PBool o)).
Proof.
  intros Hf Hi Hu. exists (dumped f i (ChangeType_value c) u o).
  split; [apply serialize_make|].
  assert (L := loads_dumped f i (ChangeType_value c) u o Hf Hi
                 (ChangeType_value_valid c) Hu).
  rewrite ChangeType_value_normal in L.
  split; [exact L|].
  rewrite deserialize_cases, L. reflexivity.
Qed.

(** C2, as amended.  For every well-typed descriptor whose [filename],
    [item_type] and [user] hold no high surrogate directly followed by a low
    surrogate (every Unicode text is such a string), deserializing what
    [serialize] produced, with any [url], [state] and [created_at], gives a
    descriptor equal to it on [filename], [item_type], [change_type], [user]
    and [data_owner].  The [change_type] comes back as the plain [str] that
    the enum member compares equal to. *)
Theorem serialize_deserialize_round_trip (f i : Py.str) (c : ChangeType)
  (st : PullRequestState.t) (url : option Py.str) (ca : option datetime)
  (u : Py.str) (o : bool) :
  Py.valid f = true -> Py.valid i = true -> Py.valid u = true ->
  Py.no_surrogate_pair f = true -> Py.no_surrogate_pair i = true ->
  Py.no_surrogate_pair u = true ->
  round_trips (make f i c st url ca u o).
Proof.
  intros Hf Hi Hu Nf Ni Nu url' st' ca'.
  destruct (deserialize_serialize_make f i c st url ca u o url' st' ca' Hf Hi Hu)
    as (s & Hs & _ & Hd).
  rewrite (normalize_no_pair f Nf), (normalize_no_pair i Ni),
    (normalize_no_pair u Nu) in Hd.
  exists s. eexists. split; [exact Hs|]. split; [exact Hd|].
  cbn. repeat split; try (eexists; split; reflexivity).
Qed.

Lemma serialize_deserialize_round_trip_witness :
  round_trips (make (py "bob/x.json") (py "products") add
                 PullRequestState.pending None None (py "bob") false).
Proof.
  apply serialize_deserialize_round_trip; reflexivity.
Defined.

(** C2 as stated fails: a [filename] made of the two code points U+D83D and
    U+DE00 is written as two [\u] escapes, which [json.loads] reads back as
    the single code point U+1F600. *)
Lemma round_trip_fails_on_surrogate_pair :
  ~ round_trips (make [0xD83D; 0xDE00]%N (py "products") add
                   PullRequestState.pending None None (py "bob") false).
Proof.
  intros H.
  destruct (H (py "https://example.org/pull/1") PullRequestState.pending 0%Z)
    as (s & D' & Hs & Hd & (x & A & B) & _).
  vm_compute in Hs. inversion Hs; subst s; clear Hs.
  vm_compute in Hd. inversion Hd; subst D'; clear Hd.
  cbn in A, B. congruence.
Qed.



(** C4.  The dictionary [serialize] hands to [json.dumps] has the keys
    [filename], [item_type], [change_type], [user], [data_owner] and no
    other, so none of [url], [created_at], [state]; two descriptors that
    differ only in [url], [created_at] or [state] serialize alike; and the
    text written for a well-typed descriptor is a JSON object with exactly
    those keys. *)
Theorem serialize_embeds_change_fields_only :
  (forall D, dict_keys (serialize_dict D) = embedded_keys)
  /\ (forall D k, str_in k [py "url"; py "created_at"; py "state"] = true ->
                  ~ In k (dict_keys (serialize_dict D)))
  /\ (forall D1 D2,
        filename D1 = filename D2 -> item_type D1 = item_type D2 ->
        change_type D1 = change_type D2 -> user D1 = user D2 ->
        data_owner D1 = data_owner D2 ->
        serialize D1 = serialize D2)
  /\ (forall f i c st url ca u o,
        Py.valid f = true -> Py.valid i = true -> Py.valid u = true ->
        exists s d,
          serialize (make f i c st url ca u o) = Ok s
          /\ json.loads (Some s) = Ok (PDict d)
          /\ dict_keys d = embedded_keys).
Proof.
  split; [intros D; reflexivity|].
  split.
  { intros D k Hk Hin. change (dict_keys (serialize_dict D)) with embedded_keys in Hin.
    apply embedded_not_external in Hin.
    unfold str_in in *. cbn [existsb] in *.
    destruct (Py.eqb k (py "url")), (Py.eqb k (py "created_at")),
      (Py.eqb k (py "state")); cbn in *; congruence. }
  split.
  { intros D1 D2 F I C U O. unfold serialize.
    assert (E : serialize_dict D1 = serialize_dict D2).
    { unfold serialize_dict, asdict. cbn. congruence. }
    rewrite E. reflexivity. }
  intros f i c st url ca u o Hf Hi Hu.
  destruct (deserialize_serialize_make f i c st url ca u o (py "u")
              PullRequestState.pending 0%Z Hf Hi Hu) as (s & Hs & L & _).
  exists s. eexists. split; [exact Hs|]. split; [exact L|]. reflexivity.
Qed.

End DescriptorClaims.

(** ** The branch allocator *)

Section Allocator.

Variable W : Type.
Variable gh : Platform W.
Variable config : Config.

Lemma _create_branch_rec_allocation (base : Py.str) :
  forall (fuel : nat) (k : Z) (s : run_state W),
    (Z.to_nat (16 - k) < fuel)%nat ->
    exists tr,
      extends s (snd (_create_branch_rec gh config fuel base k s)) tr
      /\ allocation (GITHUB_MAIN_BRANCH config) base k tr
           (fst (_create_branch_rec gh config fuel base k s)).
Proof.
  induction fuel as [|fuel IH]; intros k s Hf; [lia|].
  cbn [_create_branch_rec].
  unfold get_branch, create_git_ref.
  unfold bind, perform, logger_info, try_catch, ret, raise, extends.
  cbv zeta. cbn [world calls logged].
  destruct (gh_get_branch gh (GITHUB_MAIN_BRANCH config) (world s)) as [[b|e] w1].
  2:{ eexists. cbn. split; [reflexivity|]. constructor. }
  cbn [world calls logged].
  destruct (gh_create_git_ref gh (py "refs/heads/" ++ branch_name_for base k)
              (commit_sha b) w1) as [[[]|e] w2].
  { eexists. cbn. rewrite <- app_assoc. split; [reflexivity|].
    apply alloc_created. }
  cbn [world calls logged].
  destruct e as [ | | | | |c status| ];
    try (eexists; cbn; rewrite <- app_assoc; split; [reflexivity|];
         apply alloc_failed; reflexivity).
  destruct (Z.eqb status 422) eqn:E.
  - destruct (Z.gtb k 15) eqn:G.
    + eexists. cbn. rewrite <- app_assoc. split; [reflexivity|].
      apply alloc_exhausted; [exact E|]. apply Z.gtb_lt in G. lia.
    + assert (Hk : (k <= 15)%Z).
      { destruct (Z.gtb_spec k 15); [discriminate|lia]. }
      match goal with
      | |- context [_create_branch_rec gh config fuel base (k + 1) ?st] =>
          destruct (IH (k + 1)%Z st) as (tr & Ht & Ha); [lia|]
      end.
      unfold extends in Ht. cbn [calls] in Ht.
      eexists. split.
      * rewrite Ht. rewrite <- !app_assoc. cbn [app]. reflexivity.
      * apply alloc_retry; [exact E|exact Hk|exact Ha].
  - eexists. cbn. rewrite <- app_assoc. split; [reflexivity|].
    apply alloc_failed. exact E.
Qed.

Lemma _create_branch_allocation (base : Py.str) (k : Z) (s : run_state W) :
  exists tr,
    extends s (snd (_create_branch gh config base k s)) tr
    /\ allocation (GITHUB_MAIN_BRANCH config) base k tr (fst (_create_branch gh config base k s)).
Proof.
  unfold _create_branch. apply _create_branch_rec_allocation. lia.
Qed.

End Allocator.

Section AllocationFacts.

Variables main base : Py.str.

Lemma allocation_refs (k : Z) (tr : list event) (r : result Py.str) :
  allocation main base k tr r ->
  map (fun a => fst (fst a)) (creation_attempts tr)
  = map (attempt_ref base) (zseq k (List.length (creation_attempts tr))).
Proof.
  induction 1; cbn; try reflexivity.
  f_equal. exact IHallocation.
Qed.

Lemma allocation_bound (k : Z) (tr : list event) (r : result Py.str) :
  allocation main base k tr r ->
  (Z.of_nat (List.length (creation_attempts tr)) <= Z.max 1 (17 - k))%Z.
Proof.
  induction 1; cbn [creation_attempts List.length]; try lia.
Qed.


Lemma allocation_raised (k : Z) (tr : list event) (r : result Py.str) :
  allocation main base k tr r ->
  forall i ref sha e,
    nth_error (creation_attempts tr) i = Some (ref, sha, Failed e) ->
    is_name_taken e = false \/ (k + Z.of_nat i >= 16)%Z ->
    r = Raise e.
Proof.
  induction 1; intros i ref sha e0 Hn Hc; cbn in Hn.
  - destruct i; discriminate.
  - destruct i as [|[|i]]; discriminate.
  - destruct i as [|[|i]]; try discriminate. inversion Hn; subst. reflexivity.
  - destruct i as [|[|i]]; try discriminate. inversion Hn; subst. reflexivity.
  - destruct i as [|i].
    + inversion Hn; subst. destruct Hc as [Hc|Hc]; [congruence|lia].
    + apply (IHallocation i ref sha e0 Hn).
      destruct Hc as [Hc|Hc]; [left; exact Hc|right; lia].
Qed.


Lemma allocation_last_answer (k : Z) (tr : list event) (e : exn) :
  allocation main base k tr (Raise e) ->
  exists before c, tr = before ++ [mkEvent c (Failed e)].
Proof.
  remember (Raise e) as r eqn:R. induction 1; try discriminate.
  - inversion R; subst. exists [], (GetBranch main). reflexivity.
  - inversion R; subst. eexists [_], _. reflexivity.
  - inversion R; subst. eexists [_], _. reflexivity.
  - destruct (IHallocation R) as (before & c & Hb).
    eexists (_ :: _ :: before), c. rewrite Hb. reflexivity.
Qed.


Lemma allocation_counts (k : Z) (tr : list event) (r : result Py.str) :
  allocation main base k tr r ->
  count_events is_update_file tr = 0
  /\ count_events is_delete_file tr = 0
  /\ count_events is_create_pull tr = 0
  /\ count_events is_set_labels tr = 0
  /\ count_events is_created_ref tr = match r with Ok _ => 1 | Raise _ => 0 end.
Proof.
  unfold count_events.
  induction 1; cbn; auto.
Qed.

End AllocationFacts.

(** ** Claims on the branch allocator *)


(** C6, as amended.  [_create_branch] makes 16 attempts at most.  A failed
    attempt ends the allocation with the platform's own exception, raised
    again as it came, when the failure is not "name taken" (at any attempt)
    and when it is the 16th attempt; there is no exception class of the
    module's own for the exhausted case.  Whatever exception the call ends
    with is the platform's answer to the last call made. *)
Theorem branch_allocation_exhaustion (W : Type) (gh : Platform W)
  (config : Config) (base : Py.str) (s : run_state W) :
  exists tr,
    extends s (snd (_create_branch gh config base 1 s)) tr
    /\ List.length (creation_attempts tr) <= 16
    /\ (forall i ref sha e,
          nth_error (creation_attempts tr) i = Some (ref, sha, Failed e) ->
          is_name_taken e = false \/ i = 15 ->
          fst (_create_branch gh config base 1 s) = Raise e)
    /\ (forall e,
          fst (_create_branch gh config base 1 s) = Raise e ->
          exists before c, tr = before ++ [mkEvent c (Failed e)]).
Proof.
  destruct (_create_branch_allocation _ gh config base 1 s) as (tr & He & Ha).
  exists tr. split; [exact He|].
  split; [pose proof (allocation_bound _ _ _ _ _ Ha); lia|].
  split.
  - intros i ref sha e Hn Hc. eapply allocation_raised; eauto.
    destruct Hc as [Hc|Hc]; [left; exact Hc|right; lia].
  - intros e Hr. rewrite Hr in Ha. eapply allocation_last_answer; eauto.
Qed.

(** C6 as stated fails: when the platform reports every name as taken, the
    call ends after 16 attempts with the exception the platform raised at
    the 16th, a [GithubException] of status 422. *)
Lemma exhaustion_raises_the_platform_error :
  let run := _create_branch AlwaysTaken.platform Sim.config (py "add-item") 1
               (mkState tt [] []) in
  fst run = Raise (Github GithubException 422)
  /\ is_GithubException (Github GithubException 422) = true
  /\ List.length (creation_attempts (calls (snd run))) = 16
  /\ nth_error (creation_attempts (calls (snd run))) 15
     = Some (py "refs/heads/add-item-16", py "c0ffee",
             Failed (Github GithubException 422)).
Proof. vm_compute. repeat split; reflexivity. Qed.


(** ** Paths that are Unicode text can be written into a tree ref *)

Section TextPaths.

Lemma is_text_app (a b : Py.str) :
  Py.is_text (a ++ b) = (Py.is_text a && Py.is_text b)%bool.
Proof. unfold Py.is_text. apply forallb_app. Qed.

Lemma utf8_text (s : Py.str) :
  Py.is_text s = true -> exists bs, urllib.utf8 s = Ok bs.
Proof.
  induction s as [|c r IH]; intros H; [exists []; reflexivity|].
  unfold Py.is_text in H. cbn [forallb] in H.
  apply andb_true_iff in H as [Hc Hr]. apply andb_true_iff in Hc as [_ Hs].
  apply negb_true_iff in Hs.
  destruct (IH Hr) as (bs & E). cbn [urllib.utf8]. rewrite E.
  unfold urllib.utf8_char. rewrite Hs.
  destruct (N.ltb c 128); [eexists; reflexivity|].
  destruct (N.ltb c 2048); [eexists; reflexivity|].
  destruct (N.ltb c 65536); eexists; reflexivity.
Qed.

Lemma split_text (s : Py.str) :
  Py.is_text s = true ->
  Forall (fun seg => Py.is_text seg = true) (PurePath.split s).
Proof.
  induction s as [|c r IH]; intros H; [repeat constructor|].
  unfold Py.is_text in H. cbn [forallb] in H.
  apply andb_true_iff in H as [Hc Hr]. specialize (IH Hr).
  cbn [PurePath.split]. destruct (N.eqb c json.SLASH).
  - constructor; [reflexivity|exact IH].
  - destruct (PurePath.split r) as [|seg segs].
    + repeat constructor. unfold Py.is_text. cbn. rewrite Hc. reflexivity.
    + inversion IH; subst. constructor; [|assumption].
      unfold Py.is_text in *. cbn [forallb]. rewrite Hc. assumption.
Qed.

Lemma Forall_removelast {A} (P : A -> Prop) (l : list A) :
  Forall P l -> Forall P (removelast l).
Proof.
  induction 1 as [|x l Hx Hl IH]; [constructor|].
  cbn [removelast]. destruct l; [constructor|]. constructor; assumption.
Qed.

Lemma Forall_filter {A} (P : A -> Prop) (f : A -> bool) (l : list A) :
  Forall P l -> Forall P (filter f l).
Proof.
  induction 1 as [|x l Hx Hl IH]; [constructor|].
  cbn [filter]. destruct (f x); [constructor|]; assumption.
Qed.

Lemma join_text (sep : Py.str) (parts : list Py.str) :
  Py.is_text sep = true ->
  Forall (fun seg => Py.is_text seg = true) parts ->
  Py.is_text (Py.join sep parts) = true.
Proof.
  intros Hs. induction 1 as [|p l Hp Hl IH]; [reflexivity|].
  cbn [Py.join]. destruct l; [exact Hp|].
  rewrite !is_text_app, Hp, Hs, IH. reflexivity.
Qed.

Lemma splitroot_text (s : Py.str) : Py.is_text (PurePath.splitroot s) = true.
Proof.
  unfold PurePath.splitroot.
  repeat match goal with
         | |- context [match ?x with _ => _ end] => destruct x
         end; reflexivity.
Qed.

(** For a main branch name and a path without surrogate code points the
    tree ref of the parent directory can be written. *)
Lemma tree_ref_of_text (config : Config) (path : Py.str) :
  Py.is_text (GITHUB_MAIN_BRANCH config) = true ->
  Py.is_text path = true ->
  exists ref, tree_ref_of config path = Ok ref.
Proof.
  intros Hm Hp. unfold tree_ref_of, urllib.urlencode_value, urllib.quote_plus.
  destruct (utf8_text (GITHUB_MAIN_BRANCH config ++ py ":"
              ++ PurePath.to_str (PurePath.parent (PurePath.of_str path))))
    as (bs & E).
  - rewrite !is_text_app, Hm. cbn [andb].
    change (Py.is_text (py ":")) with true. cbn [andb].
    unfold PurePath.to_str, PurePath.parent, PurePath.of_str.
    cbn [PurePath.root PurePath.parts].
    assert (J : Py.is_text
                  (PurePath.splitroot path
                     ++ Py.join (py "/")
                          (removelast
                             (filter (fun seg => (negb (Py.eqb seg [])
                                                   && negb (Py.eqb seg (py ".")))%bool)
                                     (PurePath.split path)))) = true).
    { rewrite is_text_app, splitroot_text. cbn [andb].
      apply join_text; [reflexivity|].
      apply Forall_removelast, Forall_filter, split_text, Hp. }
    destruct (PurePath.splitroot path) as [|a r] eqn:R.
    + destruct (removelast _) as [|x l] eqn:L; [reflexivity|].
      exact J.
    + exact J.
  - rewrite E. eexists. reflexivity.
Qed.

End TextPaths.

(** ** The content locator *)

Section Locator.

Variable W : Type.
Variable gh : Platform W.
Variable config : Config.

(** [_previous_version_sha], by the platform's answer. *)
Lemma _previous_version_sha_run (path : Py.str) (s : run_state W) :
  _previous_version_sha gh config path s
  = match tree_ref_of config path with
    | Raise e => (Raise e, s)
    | Ok ref =>
        let (r, w') := gh_get_git_tree gh ref false (world s) in
        match r with
        | Ok t =>
            (Ok (token_of_answer (PurePath.name (PurePath.of_str path)) (GotTree t)),
             mkState w' (calls s ++ [mkEvent (GetGitTree ref false) (GotTree t)])
                     (logged s))
        | Raise e =>
            (if is_UnknownObjectException e then Ok [] else Raise e,
             mkState w' (calls s ++ [mkEvent (GetGitTree ref false) (Failed e)])
                     (logged s))
        end
    end.
Proof.
  unfold _previous_version_sha, tree_ref_of, get_git_tree.
  unfold bind, lift, try_catch, perform, ret. cbv zeta.
  destruct (urllib.urlencode_value _) as [ref|e]; [|reflexivity].
  destruct (gh_get_git_tree gh ref false (world s)) as [[t|e] w'].
  - reflexivity.
  - destruct (is_UnknownObjectException e); reflexivity.
Qed.

End Locator.



(** ** The lister *)

Section Lister.

Variable W : Type.
Variable gh : Platform W.
Variable config : Config.

Lemma pull_requests_loop_spec (stopped : option exn) :
  forall (prs : list PullRequest) (s : run_state W),
    pull_requests_loop prs stopped s
    = ((decoded prs, stopped),
       mkState (world s) (calls s)
               (logged s
                  ++ repeat (py "Found incompatible PR, ignoring..")
                            (List.length (undecodable prs)))).
Proof.
  induction prs as [|pr prs IH]; intros s.
  - cbn. rewrite app_nil_r. destruct s; reflexivity.
  - cbn [pull_requests_loop decoded undecodable flat_map filter].
    rewrite deserialize_cases.
    destruct (json.loads (pr_body pr)) as [obj|e].
    + destruct (PullRequestBody.construct obj _ _ _) as [b|e].
      * rewrite IH. reflexivity.
      * rewrite IH. cbn. rewrite <- app_assoc. reflexivity.
    + rewrite IH. cbn. rewrite <- app_assoc. reflexivity.
Qed.

End Lister.


(** A body that is valid JSON but lacks [user], and a pull request without
    body, are left out; the one that decodes is yielded, with the status
    resolved from the pull request. *)
Example pull_requests_example :
  let good := mkPullRequest
                (Some (js "{'filename': 'bob/x.json', 'item_type': 'products', 'change_type': 'Add', 'user': 'bob', 'data_owner': false}"))
                (py "https://example.org/pull/2") (py "closed") (Some 5%Z) 3%Z in
  let no_user := mkPullRequest
                (Some (js "{'filename': 'bob/x.json', 'item_type': 'products', 'change_type': 'Add', 'data_owner': false}"))
                (py "https://example.org/pull/3") (py "open") None 4%Z in
  let no_body := mkPullRequest None (py "https://example.org/pull/4")
                (py "open") None 6%Z in
  let w := Sim.mk (py "sha0") [] [] [] [no_body; good; no_user] in
  fst (pull_requests Sim.platform Sim.config (Sim.start w))
  = ([PullRequestBody.mk (PStr (py "bob/x.json")) (PStr (py "products"))
        (PStr (py "Add")) (PPullRequestState PullRequestState.merged)
        (PStr (py "https://example.org/pull/2")) (PDatetime 3%Z)
        (PStr (py "bob")) (PBool false)], None)
  /\ List.length (logged (snd (pull_requests Sim.platform Sim.config (Sim.start w)))) = 2.
Proof. vm_compute. split; reflexivity. Qed.

(** ** The orchestrator *)

Section Orchestrator.

Variable W : Type.
Variable gh : Platform W.
Variable config : Config.

Lemma count_events_app (p : event -> bool) (a b : list event) :
  count_events p (a ++ b) = count_events p a + count_events p b.
Proof. unfold count_events. rewrite filter_app, length_app. reflexivity. Qed.

Lemma bind_ok_inv {A B} (m : M W A) (k : A -> M W B) (s : run_state W) (b : B) :
  fst (bind m k s) = Ok b ->
  exists a s1, m s = (Ok a, s1) /\ bind m k s = k a s1.
Proof.
  unfold bind. destruct (m s) as [[a|e] s1]; [eauto|discriminate].
Qed.

Lemma logger_info_ok (msg : Py.str) (s s1 : run_state W) (u : unit) :
  logger_info msg s = (Ok u, s1) -> calls s1 = calls s.
Proof. unfold logger_info. intros H; inversion H; reflexivity. Qed.

Lemma perform_ok {A} (c : call) (f : W -> result A * W) (d : A -> answer)
  (s s1 : run_state W) (a : A) :
  perform c f d s = (Ok a, s1) -> calls s1 = calls s ++ [mkEvent c (d a)].
Proof.
  unfold perform. destruct (f (world s)) as [[a'|e] w']; intros H; inversion H.
  reflexivity.
Qed.

Lemma _create_branch_ok (base : Py.str) (s s1 : run_state W) (branch : Py.str) :
  _create_branch gh config base 1 s = (Ok branch, s1) ->
  exists tr, calls s1 = calls s ++ tr
             /\ allocation (GITHUB_MAIN_BRANCH config) base 1 tr (Ok branch).
Proof.
  intros H.
  destruct (_create_branch_allocation _ gh config base 1 s) as (tr & He & Ha).
  rewrite H in He, Ha. exists tr. auto.
Qed.

Lemma _previous_version_sha_ok (path : Py.str) (s s1 : run_state W)
  (token : Py.str) :
  _previous_version_sha gh config path s = (Ok token, s1) ->
  exists ref a,
    tree_ref_of config path = Ok ref
    /\ calls s1 = calls s ++ [mkEvent (GetGitTree ref false) a]
    /\ token = token_of_answer (PurePath.name (PurePath.of_str path)) a.
Proof.
  rewrite _previous_version_sha_run.
  destruct (tree_ref_of config path) as [ref|e]; [|discriminate].
  destruct (gh_get_git_tree gh ref false (world s)) as [[t|e] w'].
  - intros H; inversion H. exists ref, (GotTree t). auto.
  - destruct (is_UnknownObjectException e); [|discriminate].
    intros H; inversion H. exists ref, (Failed e). auto.
Qed.

Ltac step H :=
  match type of H with
  | fst (bind ?m ?k ?s) = Ok _ =>
      let a := fresh "a" in
      let s1 := fresh "s" in
      let E := fresh "E" in
      let R := fresh "R" in
      destruct (bind_ok_inv m k s _ H) as (a & s1 & E & R);
      rewrite R in H |- *; clear R
  end.

(** The calls of a successful [create_pull_request], in order. *)
Lemma create_pull_request_trace (base title body : Py.str)
  (file_to_create : option (Py.str * bytes)) (file_to_delete : option Py.str)
  (labels : list Py.str) (s : run_state W) :
  fst (create_pull_request gh config base title body file_to_create
         file_to_delete labels s) = Ok tt ->
  exists tr_alloc branch wr dl pr lb,
    extends s (snd (create_pull_request gh config base title body
                      file_to_create file_to_delete labels s))
      (mkEvent (GetRepo (GITHUB_TOKEN config) (GITHUB_REPO_ID config)) Done
         :: tr_alloc ++ wr ++ dl
         ++ mkEvent (CreatePull title body branch (GITHUB_MAIN_BRANCH config) true)
                    (GotPull pr) :: lb)
    /\ allocation (GITHUB_MAIN_BRANCH config) base 1 tr_alloc (Ok branch)
    /\ match file_to_create with
       | Some (path, content) =>
           file_events config path
             (fun token => UpdateFile path (add_message path) content token branch) wr
       | None => wr = []
       end
    /\ (if truthy_str file_to_delete then
          file_events config (str_of_optional file_to_delete)
            (fun token => DeleteFile (str_of_optional file_to_delete)
                            (delete_message (str_of_optional file_to_delete))
                            token branch) dl
        else dl = [])
    /\ lb = if truthy_tuple labels then [mkEvent (SetLabels pr labels) Done] else [].
Proof.
  intros H. unfold create_pull_request in *. unfold extends.
  step H. apply logger_info_ok in E.
  step H. apply logger_info_ok in E0.
  step H. apply logger_info_ok in E1.
  step H. apply perform_ok in E2.
  step H. apply _create_branch_ok in E3 as (tra & E3 & Hal).
  step H.
  assert (Wr : exists wr, calls s5 = calls s4 ++ wr
                 /\ match file_to_create with
                    | Some (path, content) =>
                        file_events config path
                          (fun token => UpdateFile path (add_message path) content
                                          token a3) wr
                    | None => wr = []
                    end).
  { destruct file_to_create as [[path content]|].
    - assert (F : fst (bind (_previous_version_sha gh config path)
                         (fun sha => update_file gh path
                            (py "Add " ++ path ++ py " for pull request submission")
                            content sha a3) s4) = Ok a4)
        by (rewrite E4; reflexivity).
      destruct (bind_ok_inv _ _ _ _ F) as (tok & s' & P & R).
      rewrite R in E4. apply _previous_version_sha_ok in P as (ref & ans & T & C & K).
      apply perform_ok in E4.
      eexists. split; [rewrite E4, C, <- app_assoc; reflexivity|].
      exists ref, ans. split; [exact T|]. subst tok. reflexivity.
    - inversion E4. exists []. rewrite app_nil_r. auto. }
  destruct Wr as (wr & Cw & Hw).
  step H.
  assert (Dl : exists dl, calls s6 = calls s5 ++ dl
                 /\ (if truthy_str file_to_delete then
                       file_events config (str_of_optional file_to_delete)
                         (fun token => DeleteFile (str_of_optional file_to_delete)
                            (delete_message (str_of_optional file_to_delete))
                            token a3) dl
                     else dl = [])).
  { destruct (truthy_str file_to_delete).
    - cbv zeta in E5.
      assert (F : fst (bind (_previous_version_sha gh config
                               (str_of_optional file_to_delete))
                         (fun sha => delete_file gh (str_of_optional file_to_delete)
                            (py "Delete " ++ str_of_optional file_to_delete
                               ++ py " for pull request submission")
                            sha a3) s5) = Ok a5)
        by (rewrite E5; reflexivity).
      destruct (bind_ok_inv _ _ _ _ F) as (tok & s' & P & R).
      rewrite R in E5. apply _previous_version_sha_ok in P as (ref & ans & T & C & K).
      apply perform_ok in E5.
      eexists. split; [rewrite E5, C, <- app_assoc; reflexivity|].
      exists ref, ans. split; [exact T|]. subst tok. reflexivity.
    - inversion E5. exists []. rewrite app_nil_r. auto. }
  destruct Dl as (dl & Cd & Hd).
  step H. apply perform_ok in E6.
  step H.
  assert (Lb : calls s8 = calls s7
                 ++ (if truthy_tuple labels then [mkEvent (SetLabels a6 labels) Done]
                     else [])).
  { destruct (truthy_tuple labels).
    - apply perform_ok in E7. exact E7.
    - inversion E7. rewrite app_nil_r. reflexivity. }
  exists tra, a3, wr, dl, a6, (if truthy_tuple labels
                               then [mkEvent (SetLabels a6 labels) Done] else []).
  split.
  - cbn [logger_info snd calls].
    rewrite Lb, E6, Cd, Cw, E3, E2, E1, E0, E.
    rewrite <- !app_assoc. reflexivity.
  - auto.
Qed.

End Orchestrator.

Lemma count_events_cons (p : event -> bool) (a : event) (l : list event) :
  count_events p (a :: l) = (if p a then 1 else 0) + count_events p l.
Proof. unfold count_events. cbn. destruct (p a); reflexivity. Qed.

(** C8, as amended.  A call of [create_pull_request] that returns has
    created one branch (the attempts before the accepted one created none),
    has written one file when [file_to_create] is given and none otherwise,
    has deleted one file when [file_to_delete] is a non-empty path and none
    otherwise (the code tests its truth value, so the empty string counts
    as not given, like None), has opened one pull request,
    and has set labels once, right after that, when [labels] is not empty
    and not at all otherwise.  The write and the delete each come right
    after the look at the file's parent directory and carry the token made
    of its answer, which is empty for a new file.  The call goes through
    with both files, either or neither given. *)
Theorem create_pull_request_side_effects :
  (forall (W : Type) (gh : Platform W) (config : Config)
          (base title body : Py.str) (file_to_create : option (Py.str * bytes))
          (file_to_delete : option Py.str) (labels : list Py.str)
          (s : run_state W),
      fst (create_pull_request gh config base title body file_to_create
             file_to_delete labels s) = Ok tt ->
      exists tr branch pr,
        extends s (snd (create_pull_request gh config base title body
                          file_to_create file_to_delete labels s)) tr
        /\ count_events is_created_ref tr = 1
        /\ count_events is_update_file tr
           = (match file_to_create with Some _ => 1 | None => 0 end)
        /\ count_events is_delete_file tr
           = (if truthy_str file_to_delete then 1 else 0)
        /\ count_events is_create_pull tr = 1
        /\ count_events is_set_labels tr
           = (if truthy_tuple labels then 1 else 0)
        /\ (forall path content,
              file_to_create = Some (path, content) ->
              exists before ref a after,
                tree_ref_of config path = Ok ref
                /\ tr = before
                        ++ [ mkEvent (GetGitTree ref false) a;
                             mkEvent (UpdateFile path (add_message path) content
                                        (token_of_answer
                                           (PurePath.name (PurePath.of_str path)) a)
                                        branch) Done ]
                        ++ after)
        /\ (forall path,
              file_to_delete = Some path -> path <> [] ->
              exists before ref a after,
                tree_ref_of config path = Ok ref
                /\ tr = before
                        ++ [ mkEvent (GetGitTree ref false) a;
                             mkEvent (DeleteFile path (delete_message path)
                                        (token_of_answer
                                           (PurePath.name (PurePath.of_str path)) a)
                                        branch) Done ]
                        ++ after)
        /\ (exists before,
              tr = before
                   ++ mkEvent (CreatePull title body branch
                                 (GITHUB_MAIN_BRANCH config) true) (GotPull pr)
                   :: (if truthy_tuple labels
                       then [mkEvent (SetLabels pr labels) Done] else [])))
  /\ (let run fc fd :=
        create_pull_request Sim.platform Sim.config (py "add-item")
          (py "Add bob/x.json") (py "{}") fc fd [] (Sim.start empty_world) in
      let file := (py "bob/x.json", [Byte.x7b; Byte.x7d]) in
      fst (run (Some file) (Some (py "bob/y.json"))) = Ok tt
      /\ fst (run (Some file) None) = Ok tt
      /\ fst (run None (Some (py "bob/y.json"))) = Ok tt
      /\ fst (run None None) = Ok tt
      /\ map sent (calls (snd (run None None)))
         = [ GetRepo (py "token") (py "EOEPCA/catalog");
             GetBranch (py "main");
             CreateGitRef (py "refs/heads/add-item") (py "sha0");
             CreatePull (py "Add bob/x.json") (py "{}") (py "add-item")
                        (py "main") true ]).
Proof.
  split; [|cbv zeta; repeat split; vm_compute; reflexivity].
  intros W gh config base title body fc fd labels s H.
  destruct (create_pull_request_trace _ gh config base title body fc fd labels s H)
    as (tra & branch & wr & dl & pr & lb & He & Hal & Hw & Hd & Hl).
  eexists. exists branch, pr. split; [exact He|].
  destruct (allocation_counts _ _ _ _ _ Hal) as (A1 & A2 & A3 & A4 & A5).
  assert (Cw : wr = [] \/ exists path content, fc = Some (path, content)
                /\ file_events config path
                     (fun token => UpdateFile path (add_message path) content
                                     token branch) wr).
  { destruct fc as [[path content]|]; eauto. }
  assert (Cd : dl = [] /\ truthy_str fd = false
               \/ truthy_str fd = true
                  /\ file_events config (str_of_optional fd)
                       (fun token => DeleteFile (str_of_optional fd)
                          (delete_message (str_of_optional fd)) token branch) dl).
  { destruct (truthy_str fd); auto. }
  repeat rewrite ?count_events_cons, ?count_events_app.
  rewrite A1, A2, A3, A4, A5.
  split; [|split; [|split; [|split; [|split]]]].
  - destruct Cw as [->|(p & c & -> & (ref & a & _ & ->))];
      destruct Cd as [[-> _]|[_ (ref' & a' & _ & ->)]]; subst lb;
      destruct (truthy_tuple labels); reflexivity.
  - destruct Cw as [->|(p & c & -> & (ref & a & _ & ->))];
      [destruct fc as [[? ?]|]; [destruct Hw as (? & ? & _ & E); discriminate|]|];
      destruct Cd as [[-> _]|[_ (ref' & a' & _ & ->)]]; subst lb;
      destruct (truthy_tuple labels); reflexivity.
  - destruct Cw as [->|(p & c & -> & (ref & a & _ & ->))];
      destruct Cd as [[-> Hf]|[Hf (ref' & a' & _ & ->)]]; rewrite Hf; subst lb;
      destruct (truthy_tuple labels); reflexivity.
  - destruct Cw as [->|(p & c & -> & (ref & a & _ & ->))];
      destruct Cd as [[-> _]|[_ (ref' & a' & _ & ->)]]; subst lb;
      destruct (truthy_tuple labels); reflexivity.
  - destruct Cw as [->|(p & c & -> & (ref & a & _ & ->))];
      destruct Cd as [[-> _]|[_ (ref' & a' & _ & ->)]]; subst lb;
      destruct (truthy_tuple labels); reflexivity.
  - split; [|split].
    + intros path content E. subst fc.
      destruct Hw as (ref & a & T & ->).
      eexists (_ :: tra), ref, a, _. split; [exact T|].
      cbn [app]. rewrite <- ?app_assoc. reflexivity.
    + intros path E Hne. subst fd.
      assert (T : truthy_str (Some path) = true) by (destruct path; [contradiction|reflexivity]).
      rewrite T in Hd. cbn [str_of_optional] in Hd.
      destruct Hd as (ref & a & Tr & ->).
      eexists (_ :: tra ++ wr), ref, a, _. split; [exact Tr|].
      cbn [app]. rewrite <- ?app_assoc. cbn [app]. reflexivity.
    + subst lb. eexists (_ :: tra ++ wr ++ dl).
      cbn [app]. rewrite <- ?app_assoc. reflexivity.
Qed.

Lemma create_pull_request_side_effects_witness :
  fst (create_pull_request Sim.platform Sim.config (py "add-item")
         (py "Add bob/x.json") (py "{}")
         (Some (py "bob/x.json", [Byte.x7b; Byte.x7d])) None []
         (Sim.start empty_world)) = Ok tt
  /\ exists tr,
       extends (Sim.start empty_world)
         (snd (create_pull_request Sim.platform Sim.config (py "add-item")
                 (py "Add bob/x.json") (py "{}")
                 (Some (py "bob/x.json", [Byte.x7b; Byte.x7d])) None []
                 (Sim.start empty_world))) tr
       /\ count_events is_created_ref tr = 1
       /\ count_events is_update_file tr = 1
       /\ count_events is_delete_file tr = 0
       /\ count_events is_create_pull tr = 1
       /\ count_events is_set_labels tr = 0.
Proof.
  split; [vm_compute; reflexivity|].
  destruct (proj1 create_pull_request_side_effects Sim.t Sim.platform Sim.config
              (py "add-item") (py "Add bob/x.json") (py "{}")
              (Some (py "bob/x.json", [Byte.x7b; Byte.x7d])) None []
              (Sim.start empty_world))
    as (tr & branch & pr & He & C1 & C2 & C3 & C4 & C5 & _).
  - vm_compute. reflexivity.
  - exists tr. repeat split; assumption.
Defined.

(** C8 as stated fails at one input: [file_to_delete] set to the empty
    string is set, and no file is deleted; the call goes through and opens
    the pull request. *)
Lemma empty_file_to_delete_deletes_nothing :
  let run := create_pull_request Sim.platform Sim.config (py "add-item")
               (py "Delete nothing") (py "{}") None (Some []) []
               (Sim.start empty_world) in
  Some (@nil N) <> None
  /\ fst run = Ok tt
  /\ count_events is_delete_file (calls (snd run)) = 0
  /\ count_events is_create_pull (calls (snd run)) = 1.
Proof. cbv zeta. split; [discriminate|]. vm_compute. repeat split; reflexivity. Qed.

(** * Further properties of the revision workflow *)

(** ** The directory lister *)

Section PathNames.

Lemma split_no_slash (s : Py.str) :
  Forall (fun seg => ~ In json.SLASH seg) (PurePath.split s).
Proof.
  induction s as [|c r IH]; [repeat constructor; auto|].
  cbn [PurePath.split]. destruct (N.eqb c json.SLASH) eqn:E.
  - constructor; [intros []|exact IH].
  - destruct (PurePath.split r) as [|seg segs].
    + repeat constructor. intros [H|[]]. subst c. discriminate.
    + inversion IH; subst. constructor; [|assumption].
      intros [H|H]; [subst c; discriminate|contradiction].
Qed.

Lemma last_Forall {A} (P : A -> Prop) (l : list A) (d : A) :
  P d -> Forall P l -> P (last l d).
Proof.
  intros Hd. induction 1 as [|x l Hx Hl IH]; [exact Hd|].
  cbn [last]. destruct l; [exact Hx|exact IH].
Qed.

Lemma name_no_slash (p : Py.str) :
  ~ In json.SLASH (PurePath.name (PurePath.of_str p)).
Proof.
  unfold PurePath.name, PurePath.of_str. cbn [PurePath.parts].
  apply (last_Forall (fun seg => ~ In json.SLASH seg)); [intros []|].
  apply Forall_filter, split_no_slash.
Qed.

Lemma split_plain (s : Py.str) :
  existsb (N.eqb json.SLASH) s = false -> PurePath.split s = [s].
Proof.
  induction s as [|c r IH]; intros H; [reflexivity|].
  cbn [existsb] in H. apply orb_false_iff in H as [Hc Hr].
  cbn [PurePath.split]. rewrite N.eqb_sym, Hc, (IH Hr). reflexivity.
Qed.

Lemma name_plain (p : Py.str) :
  plain_name p = true -> PurePath.name (PurePath.of_str p) = p.
Proof.
  unfold plain_name. intros H.
  apply andb_true_iff in H as [H H3]. apply andb_true_iff in H as [H1 H2].
  apply negb_true_iff in H1.
  unfold PurePath.name, PurePath.of_str. cbn [PurePath.parts].
  rewrite (split_plain p H1). cbn [filter]. rewrite H2, H3. reflexivity.
Qed.

End PathNames.

Section DirectoryLister.

Variable W : Type.
Variable gh : Platform W.
Variable config : Config.

(** [files_in_directory], by the platform's answers. *)
Lemma files_in_directory_run (directory : Py.str) (s : run_state W) :
  let ref := GITHUB_MAIN_BRANCH config ++ py ":" ++ directory in
  let repo := mkEvent (GetRepo (GITHUB_TOKEN config) (GITHUB_REPO_ID config)) in
  let look := mkEvent (GetGitTree ref false) in
  let fetching := py "Fetching tree for " ++ directory in
  let missing := py "Didn't find a git tree for " ++ directory in
  let gave_up e w tr :=
    (if is_UnknownObjectException e then Ok [] else Raise e,
     mkState w (calls s ++ tr)
             (logged s ++ fetching
                :: (if is_UnknownObjectException e then [missing] else []))) in
  files_in_directory gh config directory s
  = match gh_get_repo gh (GITHUB_TOKEN config) (GITHUB_REPO_ID config) (world s) with
    | (Raise e, w1) => gave_up e w1 [repo (Failed e)]
    | (Ok _, w1) =>
        match gh_get_git_tree gh ref false w1 with
        | (Raise e, w2) => gave_up e w2 [repo Done; look (Failed e)]
        | (Ok t, w2) =>
            (Ok (map entry_name (tree t)),
             mkState w2 (calls s ++ [repo Done; look (GotTree t)])
                     (logged s ++ [fetching]))
        end
    end.
Proof.
  cbv zeta.
  unfold files_in_directory, _repo, get_repo, get_git_tree.
  unfold bind, try_catch, perform, logger_info, ret. cbn [world calls logged].
  destruct (gh_get_repo gh _ _ (world s)) as [[[]|e] w1]; cbn [world calls logged].
  - destruct (gh_get_git_tree gh _ false w1) as [[t|e] w2]; cbn [world calls logged].
    + rewrite <- app_assoc. reflexivity.
    + destruct (is_UnknownObjectException e); cbn [world calls logged];
        rewrite <- !app_assoc; reflexivity.
  - destruct (is_UnknownObjectException e); cbn [world calls logged];
      rewrite <- ?app_assoc; reflexivity.
Qed.

End DirectoryLister.

(** X1.  [files_in_directory] asks for the repository and then for the tree
    [<main branch>:<directory>], the directory written as given.  When both
    calls are answered it returns one name per entry of the listing, in
    order.  When either call raises [UnknownObjectException] (an unknown
    repository as well as an unknown directory) it logs that no tree was
    found and returns the empty list; any other exception of either call
    is passed on unchanged.  It makes no other call. *)
Theorem files_in_directory_outcome (W : Type) (gh : Platform W)
  (config : Config) (directory : Py.str) (s : run_state W) :
  let out := files_in_directory gh config directory s in
  let repo := mkEvent (GetRepo (GITHUB_TOKEN config) (GITHUB_REPO_ID config)) in
  let look := mkEvent (GetGitTree (GITHUB_MAIN_BRANCH config ++ py ":" ++ directory)
                                  false) in
  let fetching := py "Fetching tree for " ++ directory in
  let missing := py "Didn't find a git tree for " ++ directory in
  (exists t,
      calls (snd out) = calls s ++ [repo Done; look (GotTree t)]
      /\ fst out = Ok (map entry_name (tree t))
      /\ logged (snd out) = logged s ++ [fetching])
  \/ (exists e,
        (calls (snd out) = calls s ++ [repo (Failed e)]
         \/ calls (snd out) = calls s ++ [repo Done; look (Failed e)])
        /\ (is_UnknownObjectException e = true ->
            fst out = Ok []
            /\ logged (snd out) = logged s ++ [fetching; missing])
        /\ (is_UnknownObjectException e = false ->
            fst out = Raise e
            /\ logged (snd out) = logged s ++ [fetching])).
Proof.
  cbv zeta. rewrite files_in_directory_run. cbv zeta.
  destruct (gh_get_repo gh _ _ (world s)) as [[[]|e] w1].
  - destruct (gh_get_git_tree gh _ false w1) as [[t|e] w2].
    + left. exists t. cbn. auto.
    + right. exists e. cbn [fst snd calls logged].
      split; [right; reflexivity|].
      split; intros ->; auto.
  - right. exists e. cbn [fst snd calls logged].
    split; [left; reflexivity|].
    split; intros ->; auto.
Qed.

(** X2.  Every name [files_in_directory] returns is a last path segment:
    it holds no slash.  A listing was obtained whenever a name is returned,
    the names are as many as its entries, and when the entries are plain
    names (no slash, not empty, not "."), as those of a tree that is not
    listed recursively are, the names are the entries' paths unchanged. *)
Theorem files_in_directory_names (W : Type) (gh : Platform W)
  (config : Config) (directory : Py.str) (s : run_state W)
  (names : list Py.str) :
  fst (files_in_directory gh config directory s) = Ok names ->
  Forall (fun n => ~ In json.SLASH n) names
  /\ (names = []
      \/ exists before t,
           calls (snd (files_in_directory gh config directory s))
           = before ++ [mkEvent (GetGitTree (GITHUB_MAIN_BRANCH config ++ py ":"
                                               ++ directory) false) (GotTree t)]
           /\ List.length names = List.length (tree t)
           /\ (Forall (fun node => plain_name (elem_path node) = true) (tree t) ->
               names = map elem_path (tree t))).
Proof.
  rewrite files_in_directory_run. cbv zeta.
  destruct (gh_get_repo gh _ _ (world s)) as [[[]|e] w1].
  - destruct (gh_get_git_tree gh _ false w1) as [[t|e] w2].
    + cbn [fst snd calls]. intros H. inversion H; subst names. split.
      * apply Forall_forall. intros n Hn. apply in_map_iff in Hn as (node & <- & _).
        apply name_no_slash.
      * right. eexists (calls s ++ [_]), t. rewrite <- app_assoc. cbn [app].
        split; [reflexivity|]. split; [apply length_map|].
        intros Hp. apply map_ext_Forall.
        revert Hp. apply Forall_impl. intros node Hn. apply name_plain. exact Hn.
    + cbn [fst]. destruct (is_UnknownObjectException e); [|discriminate].
      intros H. inversion H. split; [constructor|left; reflexivity].
  - cbn [fst]. destruct (is_UnknownObjectException e); [|discriminate].
    intros H. inversion H. split; [constructor|left; reflexivity].
Qed.

Lemma files_in_directory_names_witness :
  fst (files_in_directory Sim.platform Sim.config (py "alice")
         (Sim.start listing_world)) = Ok [py "foo.json"; py "bar.json"]
  /\ Forall (fun n => ~ In json.SLASH n) [py "foo.json"; py "bar.json"].
Proof.
  split; [vm_compute; reflexivity|].
  apply (files_in_directory_names Sim.t Sim.platform Sim.config (py "alice")
           (Sim.start listing_world) [py "foo.json"; py "bar.json"]).
  vm_compute. reflexivity.
Defined.

(** ** The lister: what it asks for and what its descriptors carry *)

Section ListerFacts.

Lemma deserialize_ok_fields (data : option Py.str) (url_ : Py.str)
  (state_ : PullRequestState.t) (created_at_ : datetime)
  (D : PullRequestBody.t) :
  PullRequestBody.deserialize data url_ state_ created_at_ = Ok D ->
  exists d,
    json.loads data = Ok (PDict d)
    /\ exact_keys d
    /\ dict_get d (py "filename") = Some (PullRequestBody.filename D)
    /\ dict_get d (py "item_type") = Some (PullRequestBody.item_type D)
    /\ dict_get d (py "change_type") = Some (PullRequestBody.change_type D)
    /\ dict_get d (py "user") = Some (PullRequestBody.user D)
    /\ dict_get d (py "data_owner") = Some (PullRequestBody.data_owner D)
    /\ PullRequestBody.state D = PPullRequestState state_
    /\ PullRequestBody.url D = PStr url_
    /\ PullRequestBody.created_at D = PDatetime created_at_.
Proof.
  rewrite deserialize_cases.
  destruct (json.loads data) as [obj|e]; [|discriminate].
  destruct (PullRequestBody.construct obj url_ state_ created_at_) as [b|e] eqn:C;
    [|discriminate].
  intros H. inversion H; subst b.
  destruct obj; try (cbn in C; discriminate).
  eexists. split; [reflexivity|]. eapply construct_ok_exact. exact C.
Qed.

Lemma decoded_In (prs : list PullRequest) (D : PullRequestBody.t) :
  In D (decoded prs) ->
  exists pr,
    In pr prs
    /\ PullRequestBody.deserialize (pr_body pr) (pr_html_url pr)
         (PullRequestState.from_pull_request pr) (pr_created_at pr) = Ok D.
Proof.
  unfold decoded. intros H. apply in_flat_map in H as (pr & Hin & HD).
  exists pr. split; [exact Hin|].
  destruct (PullRequestBody.deserialize _ _ _ _) as [b|e]; [|contradiction].
  destruct HD as [->|[]]. reflexivity.
Qed.

Variable W : Type.
Variable gh : Platform W.
Variable config : Config.

(** [pull_requests], by the platform's answers. *)
Lemma pull_requests_run (s : run_state W) :
  let repo := mkEvent (GetRepo (GITHUB_TOKEN config) (GITHUB_REPO_ID config)) in
  pull_requests gh config s
  = match gh_get_repo gh (GITHUB_TOKEN config) (GITHUB_REPO_ID config) (world s) with
    | (Raise e, w1) =>
        (([], Some e), mkState w1 (calls s ++ [repo (Failed e)]) (logged s))
    | (Ok _, w1) =>
        let (r, w2) := gh_get_pulls gh (py "all") w1 in
        ((decoded (fst r), snd r),
         mkState w2
           (calls s ++ [repo Done;
                        mkEvent (GetPulls (py "all")) (GotPulls (fst r) (snd r))])
           (logged s ++ repeat (py "Found incompatible PR, ignoring..")
                               (List.length (undecodable (fst r)))))
    end.
Proof.
  cbv zeta. unfold pull_requests, _repo, get_repo, perform.
  destruct (gh_get_repo gh _ _ (world s)) as [[[]|e] w1]; cbn [world calls logged].
  - destruct (gh_get_pulls gh (py "all") w1) as [[prs stopped] w2].
    rewrite pull_requests_loop_spec. cbn [world calls logged fst snd].
    rewrite <- app_assoc. reflexivity.
  - reflexivity.
Qed.

End ListerFacts.


(** X4.  Every descriptor [pull_requests] yields belongs to a pull request
    of the listing and carries that pull request's address, its creation
    time and the status resolved from its state and merge time as listed:
    none of the three is read from the body, where only the five embedded
    fields come from. *)
Theorem pull_requests_live_state (W : Type) (gh : Platform W)
  (config : Config) (s : run_state W) :
  let out := pull_requests gh config s in
  fst (fst out) = []
  \/ exists before prs stopped,
       calls (snd out)
       = before ++ [mkEvent (GetPulls (py "all")) (GotPulls prs stopped)]
       /\ Forall (fun D =>
                    exists pr d,
                      In pr prs
                      /\ PullRequestBody.url D = PStr (pr_html_url pr)
                      /\ PullRequestBody.created_at D = PDatetime (pr_created_at pr)
                      /\ PullRequestBody.state D
                         = PPullRequestState (PullRequestState.from_pull_request pr)
                      /\ json.loads (pr_body pr) = Ok (PDict d)
                      /\ ~ In (py "state") (dict_keys d)
                      /\ ~ In (py "url") (dict_keys d)
                      /\ ~ In (py "created_at") (dict_keys d))
                 (fst (fst out)).
Proof.
  cbv zeta. rewrite pull_requests_run. cbv zeta.
  destruct (gh_get_repo gh _ _ (world s)) as [[[]|e] w1]; [|left; reflexivity].
  destruct (gh_get_pulls gh (py "all") w1) as [[prs stopped] w2].
  cbn [fst snd calls]. right. eexists (calls s ++ [_]), prs, stopped.
  rewrite <- app_assoc. split; [reflexivity|].
  apply Forall_forall. intros D HD.
  apply decoded_In in HD as (pr & Hin & HD).
  apply deserialize_ok_fields in HD
    as (d & L & X & _ & _ & _ & _ & _ & S & U & C).
  exists pr, d. repeat (split; [assumption|]).
  assert (K : forall k, In k (dict_keys d) -> In k embedded_keys)
    by (intros k; apply X).
  repeat split; intros H; apply K in H; cbn in H;
    repeat (destruct H as [H|H]; [discriminate H|]); exact H.
Qed.

(** ** The text [serialize] writes *)

Section SerializedText.

Import json.
Open Scope N_scope.

Lemma land_15_lt (x : N) : N.land x 15 < 16.
Proof.
  change 15 with (N.ones 4). rewrite N.land_ones.
  apply N.mod_lt. discriminate.
Qed.

Lemma hexdigit_printable (x : N) : printable (hexdigit (N.land x 15)) = true.
Proof.
  apply (all_below_spec 4 (fun n => printable (hexdigit n)) 0).
  - vm_compute. reflexivity.
  - pose proof (land_15_lt x). simpl. lia.
Qed.

Lemma u_escape_printable (c : N) : forallb printable (u_escape c) = true.
Proof.
  unfold u_escape. cbn [forallb]. rewrite !hexdigit_printable. reflexivity.
Qed.

Lemma encode_char_printable (c : N) : forallb printable (encode_char c) = true.
Proof.
  unfold encode_char. destruct (S_CHAR c) eqn:S.
  - unfold S_CHAR in S. cbn [forallb]. unfold printable.
    apply andb_true_iff in S as [S _]. apply andb_true_iff in S as [S _].
    rewrite S. reflexivity.
  - unfold ascii_escape_unichar.
    repeat match goal with
           | |- context [if ?b then _ else _] => destruct b
           end;
      rewrite ?forallb_app, ?u_escape_printable; reflexivity.
Qed.

Lemma escape_printable (s : Py.str) : forallb printable (escape s) = true.
Proof.
  unfold escape. induction s as [|c r IH]; [reflexivity|].
  cbn [flat_map]. rewrite forallb_app, encode_char_printable, IH. reflexivity.
Qed.

Lemma encode_basestring_ascii_printable (s : Py.str) :
  forallb printable (encode_basestring_ascii s) = true.
Proof.
  unfold encode_basestring_ascii. cbn [forallb].
  rewrite forallb_app, escape_printable. reflexivity.
Qed.

Lemma dumped_printable (f i cs u : Py.str) (o : bool) :
  forallb printable (dumped f i cs u o) = true.
Proof.
  unfold dumped.
  rewrite !forallb_app, !encode_basestring_ascii_printable.
  destruct o; reflexivity.
Qed.

Lemma ChangeType_value_inj (c1 c2 : ChangeType) :
  ChangeType_value c1 = ChangeType_value c2 -> c1 = c2.
Proof. destruct c1, c2; intros H; try reflexivity; discriminate H. Qed.

End SerializedText.

(** X5.  [serialize] never fails on a descriptor whose fields have the
    annotated types, whatever code points its strings hold, and the text it
    writes is printable ASCII throughout: no line break, no control
    character and no character above U+007E reaches the pull request
    body. *)
Theorem serialize_writes_printable_ascii (f i : Py.str) (c : ChangeType)
  (st : PullRequestState.t) (url : option Py.str) (ca : option datetime)
  (u : Py.str) (o : bool) :
  exists text,
    PullRequestBody.serialize (PullRequestBody.make f i c st url ca u o) = Ok text
    /\ forallb printable text = true
    /\ ~ In 10%N text.
Proof.
  exists (dumped f i (ChangeType_value c) u o).
  split; [apply serialize_make|].
  pose proof (dumped_printable f i (ChangeType_value c) u o) as P.
  split; [exact P|].
  intros H. rewrite forallb_forall in P. specialize (P _ H). discriminate P.
Qed.

(** X6.  Two descriptors with the annotated field types whose strings hold
    no high surrogate directly followed by a low surrogate, and that
    serialize to the same text, have the same [filename], [item_type],
    [change_type], [user] and [data_owner]: different changes never share a
    pull request body. *)
Theorem serialize_injective (f1 i1 u1 f2 i2 u2 : Py.str) (c1 c2 : ChangeType)
  (st1 st2 : PullRequestState.t) (url1 url2 : option Py.str)
  (ca1 ca2 : option datetime) (o1 o2 : bool) :
  Py.valid f1 = true -> Py.valid i1 = true -> Py.valid u1 = true ->
  Py.valid f2 = true -> Py.valid i2 = true -> Py.valid u2 = true ->
  Py.no_surrogate_pair f1 = true -> Py.no_surrogate_pair i1 = true ->
  Py.no_surrogate_pair u1 = true ->
  Py.no_surrogate_pair f2 = true -> Py.no_surrogate_pair i2 = true ->
  Py.no_surrogate_pair u2 = true ->
  PullRequestBody.serialize (PullRequestBody.make f1 i1 c1 st1 url1 ca1 u1 o1)
  = PullRequestBody.serialize (PullRequestBody.make f2 i2 c2 st2 url2 ca2 u2 o2) ->
  f1 = f2 /\ i1 = i2 /\ c1 = c2 /\ u1 = u2 /\ o1 = o2.
Proof.
  intros Vf1 Vi1 Vu1 Vf2 Vi2 Vu2 Nf1 Ni1 Nu1 Nf2 Ni2 Nu2 E.
  rewrite !serialize_make in E.
  assert (E' : dumped f1 i1 (ChangeType_value c1) u1 o1
               = dumped f2 i2 (ChangeType_value c2) u2 o2).
  { exact (f_equal (fun r => match r with Ok t => t | Raise _ => [] end) E). }
  pose proof (loads_dumped f1 i1 (ChangeType_value c1) u1 o1 Vf1 Vi1
                (ChangeType_value_valid c1) Vu1) as L1.
  pose proof (loads_dumped f2 i2 (ChangeType_value c2) u2 o2 Vf2 Vi2
                (ChangeType_value_valid c2) Vu2) as L2.
  rewrite E' in L1. rewrite L1 in L2.
  rewrite !ChangeType_value_normal in L2.
  rewrite !normalize_no_pair in L2 by assumption.
  inversion L2; subst.
  repeat split; try reflexivity.
  apply ChangeType_value_inj. assumption.
Qed.

Lemma serialize_injective_witness :
  PullRequestBody.serialize
    (PullRequestBody.make (py "bob/x.json") (py "products") add
       PullRequestState.pending None None (py "bob") false)
  = PullRequestBody.serialize
      (PullRequestBody.make (py "bob/x.json") (py "products") add
         PullRequestState.merged (Some (py "https://example.org/pull/2"))
         (Some 3%Z) (py "bob") false)
  /\ add = add.
Proof.
  split; [vm_compute; reflexivity|].
  apply (serialize_injective (py "bob/x.json") (py "products") (py "bob")
           (py "bob/x.json") (py "products") (py "bob") add add
           PullRequestState.pending PullRequestState.merged
           None (Some (py "https://example.org/pull/2")) None (Some 3%Z)
           false false); reflexivity.
Defined.

(** ** The orchestrator: order of the changes, and failures *)

Section AllocationSplit.

Variables main base : Py.str.

Lemma allocation_created_split (k : Z) (tr : list event) (name : Py.str) :
  allocation main base k tr (Ok name) ->
  exists before b,
    tr = before
         ++ [mkEvent (GetBranch main) (GotBranch b);
             mkEvent (CreateGitRef (py "refs/heads/" ++ name) (commit_sha b)) Done]
    /\ Forall harmless before.
Proof.
  remember (Ok name) as r eqn:R. induction 1; try discriminate.
  - inversion R; subst. exists [], b. split; [reflexivity|constructor].
  - destruct (IHallocation R) as (before & b' & Hb & Hf).
    eexists (_ :: _ :: before), b'. rewrite Hb. split; [reflexivity|].
    constructor; [left; reflexivity|].
    constructor; [right; exists e; reflexivity|exact Hf].
Qed.

Lemma allocation_raised_last (k : Z) (tr : list event) (e : exn) :
  allocation main base k tr (Raise e) ->
  exists before c,
    tr = before ++ [mkEvent c (Failed e)]
    /\ match c with GetBranch _ | CreateGitRef _ _ => True | _ => False end.
Proof.
  remember (Raise e) as r eqn:R. induction 1; try discriminate.
  - inversion R; subst. exists [], (GetBranch main). split; [reflexivity|exact I].
  - inversion R; subst. eexists [_], _. split; [reflexivity|exact I].
  - inversion R; subst. eexists [_], _. split; [reflexivity|exact I].
  - destruct (IHallocation R) as (before & c & Hb & Hc).
    eexists (_ :: _ :: before), c. rewrite Hb. split; [reflexivity|exact Hc].
Qed.

Lemma allocation_opened (k : Z) (tr : list event) (r : result Py.str) :
  allocation main base k tr r -> count_events is_opened_pull tr = 0.
Proof. unfold count_events. induction 1; cbn; auto. Qed.

End AllocationSplit.

(** X7.  In a call of [create_pull_request] that returns, nothing is
    changed before the branch exists: up to the accepted creation of
    [refs/heads/<branch>] at the tip of the main branch just read, there
    are only reads and refused creations.  The changes made after it are,
    in this order, the write (if a file to create is given), the delete (if
    a non-empty path to delete is given), the opening of the pull request
    from that very branch into the main branch with the given title and
    body, and the labels (if any): write and delete go to the branch the
    call created and to no other. *)
Theorem create_pull_request_changes_in_order (W : Type) (gh : Platform W)
  (config : Config) (base title body : Py.str)
  (file_to_create : option (Py.str * bytes)) (file_to_delete : option Py.str)
  (labels : list Py.str) (s : run_state W) :
  fst (create_pull_request gh config base title body file_to_create
         file_to_delete labels s) = Ok tt ->
  exists before b branch later written deleted pr,
    extends s (snd (create_pull_request gh config base title body
                      file_to_create file_to_delete labels s))
      (before
         ++ [mkEvent (GetBranch (GITHUB_MAIN_BRANCH config)) (GotBranch b);
             mkEvent (CreateGitRef (py "refs/heads/" ++ branch) (commit_sha b)) Done]
         ++ later)
    /\ Forall harmless before
    /\ changes later
       = (match file_to_create with
          | Some (path, content) =>
              [mkEvent (UpdateFile path (add_message path) content written branch)
                       Done]
          | None => []
          end)
         ++ (if truthy_str file_to_delete then
               [mkEvent (DeleteFile (str_of_optional file_to_delete)
                           (delete_message (str_of_optional file_to_delete))
                           deleted branch) Done]
             else [])
         ++ mkEvent (CreatePull title body branch (GITHUB_MAIN_BRANCH config) true)
                    (GotPull pr)
         :: (if truthy_tuple labels then [mkEvent (SetLabels pr labels) Done]
             else []).
Proof.
  intros H.
  destruct (create_pull_request_trace _ gh config base title body file_to_create
              file_to_delete labels s H)
    as (tra & branch & wr & dl & pr & lb & He & Hal & Hw & Hd & Hl).
  destruct (allocation_created_split _ _ _ _ _ Hal) as (before & b & Ht & Hb).
  assert (Ew : exists written,
             changes wr
             = match file_to_create with
               | Some (path, content) =>
                   [mkEvent (UpdateFile path (add_message path) content written
                               branch) Done]
               | None => []
               end).
  { destruct file_to_create as [[path content]|].
    - destruct Hw as (ref & a & _ & ->). eexists. reflexivity.
    - subst wr. exists []. reflexivity. }
  destruct Ew as (written & Ew).
  assert (Ed : exists deleted,
             changes dl
             = if truthy_str file_to_delete then
                 [mkEvent (DeleteFile (str_of_optional file_to_delete)
                             (delete_message (str_of_optional file_to_delete))
                             deleted branch) Done]
               else []).
  { destruct (truthy_str file_to_delete).
    - destruct Hd as (ref & a & _ & ->). eexists. reflexivity.
    - subst dl. exists []. reflexivity. }
  destruct Ed as (deleted & Ed).
  exists (mkEvent (GetRepo (GITHUB_TOKEN config) (GITHUB_REPO_ID config)) Done
            :: before), b, branch,
    (wr ++ dl ++ mkEvent (CreatePull title body branch (GITHUB_MAIN_BRANCH config)
                            true) (GotPull pr) :: lb),
    written, deleted, pr.
  split; [|split].
  - unfold extends in *. rewrite He, Ht. cbn [app]. rewrite <- !app_assoc.
    reflexivity.
  - constructor; [left; reflexivity|exact Hb].
  - unfold changes in *. rewrite !filter_app, Ew, Ed. cbn [filter sent is_read negb].
    subst lb. destruct (truthy_tuple labels); reflexivity.
Qed.

Lemma create_pull_request_changes_in_order_witness :
  let run :=
    create_pull_request Sim.platform Sim.config (py "add-item")
      (py "Add alice/foo.json") (py "{}")
      (Some (py "alice/foo.json", [Byte.x7b; Byte.x7d]))
      (Some (py "alice/old.json")) [py "review"] (Sim.start busy_world) in
  fst run = Ok tt
  /\ map sent (changes (calls (snd run)))
     = [ CreateGitRef (py "refs/heads/add-item") (py "sha0");
         CreateGitRef (py "refs/heads/add-item-2") (py "sha1");
         CreateGitRef (py "refs/heads/add-item-3") (py "sha2");
         UpdateFile (py "alice/foo.json")
                    (py "Add alice/foo.json for pull request submission")
                    [Byte.x7b; Byte.x7d] (py "abc123") (py "add-item-3");
         DeleteFile (py "alice/old.json")
                    (py "Delete alice/old.json for pull request submission")
                    [] (py "add-item-3");
         CreatePull (py "Add alice/foo.json") (py "{}") (py "add-item-3")
                    (py "main") true;
         SetLabels (mkPullRequest (Some (py "{}")) (py "https://example.org/pull/1")
                                  (py "open") None 0%Z)
                   [py "review"] ]
  /\ exists before b branch later,
       extends (Sim.start busy_world) (snd run)
         (before
            ++ [mkEvent (GetBranch (py "main")) (GotBranch b);
                mkEvent (CreateGitRef (py "refs/heads/" ++ branch) (commit_sha b))
                        Done]
            ++ later)
       /\ Forall harmless before.
Proof.
  cbv zeta. split; [vm_compute; reflexivity|]. split; [vm_compute; reflexivity|].
  destruct (create_pull_request_changes_in_order Sim.t Sim.platform Sim.config
              (py "add-item") (py "Add alice/foo.json") (py "{}")
              (Some (py "alice/foo.json", [Byte.x7b; Byte.x7d]))
              (Some (py "alice/old.json")) [py "review"] (Sim.start busy_world))
    as (before & b & branch & later & written & deleted & pr & He & Hb & _).
  - vm_compute. reflexivity.
  - exists before, b, branch, later. split; [exact He|exact Hb].
Defined.

Section OrchestratorFailure.

Variable W : Type.
Variable gh : Platform W.
Variable config : Config.

Lemma bind_run {A B} (m : M W A) (k : A -> M W B) (s : run_state W) :
  bind m k s
  = match m s with
    | (Ok a, s1) => k a s1
    | (Raise e, s1) => (Raise e, s1)
    end.
Proof. reflexivity. Qed.

Lemma perform_run {A} (c : call) (f : W -> result A * W) (d : A -> answer)
  (s : run_state W) :
  exists a,
    calls (snd (perform c f d s)) = calls s ++ [mkEvent c a]
    /\ match fst (perform c f d s) with
       | Ok v => a = d v
       | Raise e => a = Failed e
       end.
Proof.
  unfold perform. destruct (f (world s)) as [[v|e] w]; cbn; eauto.
Qed.

Lemma utf8_raises (s : Py.str) (e : exn) :
  urllib.utf8 s = Raise e -> e = UnicodeEncodeError.
Proof.
  induction s as [|c r IH]; [discriminate|].
  cbn [urllib.utf8]. unfold urllib.utf8_char.
  repeat match goal with
         | |- context [if ?b then _ else _] => destruct b
         end; cbn [rbind];
    try (destruct (urllib.utf8 r); cbn [rbind]; [discriminate|];
         intros H; inversion H; subst; apply IH; reflexivity);
    intros H; inversion H; reflexivity.
Qed.

Lemma tree_ref_of_raises (path : Py.str) (e : exn) :
  tree_ref_of config path = Raise e -> e = UnicodeEncodeError.
Proof.
  unfold tree_ref_of, urllib.urlencode_value, urllib.quote_plus.
  destruct (urllib.utf8 _) as [bs|e'] eqn:U; cbn [rbind]; [discriminate|].
  intros H; inversion H; subst. eapply utf8_raises; eauto.
Qed.

(** The look at a file's parent directory followed by the write or the
    delete: the events added, and where an exception comes from. *)
Lemma file_stage (path : Py.str) (mk : Py.str -> call)
  (f : Py.str -> W -> result unit * W) (s : run_state W) :
  (forall sha, is_file_call (mk sha) = true) ->
  let out := bind (_previous_version_sha gh config path)
               (fun sha => perform (mk sha) (f sha) (fun _ => Done)) s in
  exists evs,
    calls (snd out) = calls s ++ evs
    /\ count_events is_created_ref evs = 0
    /\ count_events is_opened_pull evs = 0
    /\ match fst out with
       | Ok _ => True
       | Raise e =>
           (e = UnicodeEncodeError /\ evs = [])
           \/ exists before c,
                evs = before ++ [mkEvent c (Failed e)] /\ is_file_call c = true
       end.
Proof.
  intros Hmk. cbv zeta. rewrite bind_run, _previous_version_sha_run.
  destruct (tree_ref_of config path) as [ref|e] eqn:T.
  2:{ exists []. cbn. rewrite app_nil_r. repeat split.
      left. split; [|reflexivity]. eapply tree_ref_of_raises; eauto. }
  assert (K : forall sha a (s1 : run_state W),
             calls s1 = calls s ++ [mkEvent (GetGitTree ref false) a] ->
             exists evs,
               calls (snd (perform (mk sha) (f sha) (fun _ => Done) s1))
               = calls s ++ evs
               /\ count_events is_created_ref evs = 0
               /\ count_events is_opened_pull evs = 0
               /\ match fst (perform (mk sha) (f sha) (fun _ => Done) s1) with
                  | Ok _ => True
                  | Raise e =>
                      (e = UnicodeEncodeError /\ evs = [])
                      \/ exists before c,
                           evs = before ++ [mkEvent c (Failed e)]
                           /\ is_file_call c = true
                  end).
  { intros sha a s1 C.
    destruct (perform_run (mk sha) (f sha) (fun _ => Done) s1) as (a' & Ca & Ha).
    exists [mkEvent (GetGitTree ref false) a; mkEvent (mk sha) a'].
    rewrite Ca, C, <- app_assoc. split; [reflexivity|].
    specialize (Hmk sha).
    assert (N : is_created_ref (mkEvent (mk sha) a') = false
                /\ is_opened_pull (mkEvent (mk sha) a') = false).
    { destruct (mk sha); try discriminate Hmk; split; reflexivity. }
    destruct N as [N1 N2].
    unfold count_events. cbn [filter]. rewrite N1, N2.
    split; [destruct a; reflexivity|]. split; [destruct a; reflexivity|].
    destruct (fst (perform (mk sha) (f sha) (fun _ => Done) s1)); [exact I|].
    right. subst a'. eexists [_], (mk sha). split; [reflexivity|exact Hmk]. }
  destruct (gh_get_git_tree gh ref false (world s)) as [[t|e] w'].
  - apply K with (a := GotTree t). reflexivity.
  - destruct (is_UnknownObjectException e).
    + apply K with (a := Failed e). reflexivity.
    + exists [mkEvent (GetGitTree ref false) (Failed e)]. cbn [fst snd calls].
      repeat split. right. exists [], (GetGitTree ref false). split; reflexivity.
Qed.

Lemma logger_run {B} (msg : Py.str) (k : unit -> M W B) (s : run_state W) :
  bind (logger_info msg) k s
  = k tt (mkState (world s) (calls s) (logged s ++ [msg])).
Proof. reflexivity. Qed.

(** The write, when a file to create is given. *)
Lemma write_stage (file_to_create : option (Py.str * bytes)) (branch : Py.str)
  (s : run_state W) :
  let out :=
    match file_to_create with
    | Some (path, content) =>
        bind (_previous_version_sha gh config path)
          (fun sha =>
             update_file gh path
               (py "Add " ++ path ++ py " for pull request submission")
               content sha branch)
    | None => ret tt
    end s in
  exists evs,
    calls (snd out) = calls s ++ evs
    /\ count_events is_created_ref evs = 0
    /\ count_events is_opened_pull evs = 0
    /\ match fst out with
       | Ok _ => True
       | Raise e =>
           (e = UnicodeEncodeError /\ evs = [])
           \/ exists before c,
                evs = before ++ [mkEvent c (Failed e)] /\ is_file_call c = true
       end.
Proof.
  destruct file_to_create as [[path content]|].
  - apply (file_stage path
             (fun sha => UpdateFile path
                           (py "Add " ++ path ++ py " for pull request submission")
                           content sha branch)
             (fun sha => gh_update_file gh path
                           (py "Add " ++ path ++ py " for pull request submission")
                           content sha branch)).
    reflexivity.
  - exists []. cbn. rewrite app_nil_r. auto.
Qed.

(** The delete, when the path to delete is true. *)
Lemma delete_stage (file_to_delete : option Py.str) (branch : Py.str)
  (s : run_state W) :
  let out :=
    (if truthy_str file_to_delete then
       bind (_previous_version_sha gh config (str_of_optional file_to_delete))
         (fun sha =>
            delete_file gh (str_of_optional file_to_delete)
              (py "Delete " ++ str_of_optional file_to_delete
                 ++ py " for pull request submission")
              sha branch)
     else ret tt) s in
  exists evs,
    calls (snd out) = calls s ++ evs
    /\ count_events is_created_ref evs = 0
    /\ count_events is_opened_pull evs = 0
    /\ match fst out with
       | Ok _ => True
       | Raise e =>
           (e = UnicodeEncodeError /\ evs = [])
           \/ exists before c,
                evs = before ++ [mkEvent c (Failed e)] /\ is_file_call c = true
       end.
Proof.
  destruct (truthy_str file_to_delete).
  - apply (file_stage (str_of_optional file_to_delete)
             (fun sha => DeleteFile (str_of_optional file_to_delete)
                           (py "Delete " ++ str_of_optional file_to_delete
                              ++ py " for pull request submission")
                           sha branch)
             (fun sha => gh_delete_file gh (str_of_optional file_to_delete)
                           (py "Delete " ++ str_of_optional file_to_delete
                              ++ py " for pull request submission")
                           sha branch)).
    reflexivity.
  - exists []. cbn. rewrite app_nil_r. auto.
Qed.

(** The opening of the pull request and what follows it. *)
Lemma pull_stage (title body branch : Py.str) (labels : list Py.str)
  (s : run_state W) :
  let out :=
    bind (create_pull gh title body branch (GITHUB_MAIN_BRANCH config) true)
      (fun pr =>
         bind (if truthy_tuple labels then set_labels gh pr labels else ret tt)
           (fun _ => logger_info (py "Pull request successfully created"))) s in
  exists evs,
    calls (snd out) = calls s ++ evs
    /\ count_events is_created_ref evs = 0
    /\ match fst out with
       | Ok _ => True
       | Raise e =>
           exists before c,
             evs = before ++ [mkEvent c (Failed e)]
             /\ before_branch c = false
             /\ count_events is_opened_pull evs = (if after_pull c then 1 else 0)
       end.
Proof.
  cbv zeta. rewrite bind_run. unfold create_pull.
  destruct (perform_run
              (CreatePull title body branch (GITHUB_MAIN_BRANCH config) true)
              (gh_create_pull gh title body branch (GITHUB_MAIN_BRANCH config) true)
              GotPull s) as (a & Ca & Ha).
  destruct (perform _ _ GotPull s) as [[pr|e] s1]; cbn [fst snd] in Ca, Ha.
  2:{ exists [mkEvent (CreatePull title body branch (GITHUB_MAIN_BRANCH config) true)
                      a].
      cbn [fst snd]. split; [exact Ca|]. subst a. split; [reflexivity|].
      eexists [], _. split; [reflexivity|]. split; reflexivity. }
  subst a. rewrite bind_run.
  destruct (truthy_tuple labels).
  - unfold set_labels.
    destruct (perform_run (SetLabels pr labels) (gh_set_labels gh pr labels)
                (fun _ => Done) s1) as (a & Cb & Hb).
    destruct (perform _ _ (fun _ => Done) s1) as [[[]|e] s2];
      cbn [fst snd] in Cb, Hb.
    + eexists. cbn [logger_info fst snd calls]. rewrite Cb, Ca, <- app_assoc.
      split; [reflexivity|]. subst a. split; [reflexivity|exact I].
    + eexists. cbn [fst snd]. rewrite Cb, Ca, <- app_assoc.
      split; [reflexivity|]. subst a. split; [reflexivity|].
      eexists [_], _. split; [reflexivity|]. split; reflexivity.
  - eexists. cbn [ret logger_info fst snd calls]. split; [exact Ca|].
    split; [reflexivity|exact I].
Qed.

End OrchestratorFailure.

(** X8.  A call of [create_pull_request] that raises stops at the failure
    and undoes nothing.  The exception is the one the platform gave to the
    last call made ([UnicodeEncodeError], raised when a path cannot be
    written into a tree ref, is the one exception of the code's own).
    When the failing call is the look at the repository or belongs to the
    branch allocation no branch has been created.  When it comes later the
    branch has been created and is left behind; and when it is the setting
    of the labels the pull request has been opened as well, although the
    caller sees an exception. *)
Theorem create_pull_request_failure_leaves_work (W : Type) (gh : Platform W)
  (config : Config) (base title body : Py.str)
  (file_to_create : option (Py.str * bytes)) (file_to_delete : option Py.str)
  (labels : list Py.str) (s : run_state W) (e : exn) :
  fst (create_pull_request gh config base title body file_to_create
         file_to_delete labels s) = Raise e ->
  exists tr,
    extends s (snd (create_pull_request gh config base title body
                      file_to_create file_to_delete labels s)) tr
    /\ ((e = UnicodeEncodeError
         /\ count_events is_created_ref tr = 1
         /\ count_events is_opened_pull tr = 0)
        \/ exists before c,
             tr = before ++ [mkEvent c (Failed e)]
             /\ count_events is_created_ref tr = (if before_branch c then 0 else 1)
             /\ count_events is_opened_pull tr = (if after_pull c then 1 else 0)).
Proof.
  unfold create_pull_request, extends.
  rewrite !logger_run.
  match goal with
  | |- fst (bind _ _ ?st) = _ -> _ => remember st as s0 eqn:S0
  end.
  assert (C0 : calls s0 = calls s) by (subst s0; reflexivity).
  clear S0.
  rewrite bind_run. unfold _repo, get_repo.
  destruct (perform_run _ (GetRepo (GITHUB_TOKEN config) (GITHUB_REPO_ID config))
              (gh_get_repo gh (GITHUB_TOKEN config) (GITHUB_REPO_ID config))
              (fun _ => Done) s0) as (a1 & C1 & H1).
  destruct (perform _ _ (fun _ => Done) s0) as [[[]|e1] s1]; cbn [fst snd] in C1, H1.
  2:{ cbn [fst snd]. intros E; inversion E; subst.
      eexists. rewrite C1, C0. split; [reflexivity|].
      right. eexists [], _. split; [reflexivity|]. split; reflexivity. }
  subst a1. rewrite bind_run.
  destruct (_create_branch_allocation _ gh config base 1 s1) as (tra & C2 & A2).
  unfold extends in C2.
  destruct (_create_branch gh config base 1 s1) as [[branch|e2] s2];
    cbn [fst snd] in C2, A2.
  2:{ cbn [fst snd]. intros E; inversion E; subst.
      destruct (allocation_raised_last _ _ _ _ _ A2) as (before & c & Ht & Hc).
      destruct (allocation_counts _ _ _ _ _ A2) as (_ & _ & _ & _ & K).
      pose proof (allocation_opened _ _ _ _ _ A2) as O.
      exists (mkEvent (GetRepo (GITHUB_TOKEN config) (GITHUB_REPO_ID config)) Done
                :: tra).
      rewrite C2, C1, C0, <- app_assoc. split; [reflexivity|].
      right. exists (mkEvent (GetRepo (GITHUB_TOKEN config) (GITHUB_REPO_ID config))
                             Done :: before), c.
      split; [rewrite Ht; reflexivity|].
      rewrite !count_events_cons, K, O.
      destruct c; try contradiction; split; reflexivity. }
  destruct (allocation_counts _ _ _ _ _ A2) as (_ & _ & _ & _ & K2).
  pose proof (allocation_opened _ _ _ _ _ A2) as O2.
  rewrite bind_run.
  destruct (write_stage _ gh config file_to_create branch s2) as (wr & C3 & K3 & O3 & F3).
  cbv zeta in C3, F3.
  match type of C3 with
  | calls (snd (?m s2)) = _ => destruct (m s2) as [[[]|e3] s3]
  end; cbn [fst snd] in C3, F3.
  2:{ cbn [fst snd]. intros E; inversion E; subst.
      exists (mkEvent (GetRepo (GITHUB_TOKEN config) (GITHUB_REPO_ID config)) Done
                :: tra ++ wr).
      rewrite C3, C2, C1, C0, <- !app_assoc. split; [reflexivity|].
      assert (Kc : count_events is_created_ref
                     (mkEvent (GetRepo (GITHUB_TOKEN config) (GITHUB_REPO_ID config))
                              Done :: tra ++ wr) = 1)
        by (rewrite !count_events_cons, !count_events_app, K2, K3; reflexivity).
      assert (Ko : count_events is_opened_pull
                     (mkEvent (GetRepo (GITHUB_TOKEN config) (GITHUB_REPO_ID config))
                              Done :: tra ++ wr) = 0)
        by (rewrite !count_events_cons, !count_events_app, O2, O3; reflexivity).
      destruct F3 as [[-> ->]|(before & c & -> & Hc)].
      - left. auto.
      - right. exists (mkEvent (GetRepo (GITHUB_TOKEN config) (GITHUB_REPO_ID config))
                               Done :: tra ++ before), c.
        split; [cbn [app]; rewrite <- app_assoc; reflexivity|].
        rewrite Kc, Ko.
        destruct c; try discriminate Hc; split; reflexivity. }
  rewrite bind_run.
  destruct (delete_stage _ gh config file_to_delete branch s3) as (dl & C4 & K4 & O4 & F4).
  cbv zeta in C4, F4.
  match type of C4 with
  | calls (snd (?m s3)) = _ => destruct (m s3) as [[[]|e4] s4]
  end; cbn [fst snd] in C4, F4.
  2:{ cbn [fst snd]. intros E; inversion E; subst.
      exists (mkEvent (GetRepo (GITHUB_TOKEN config) (GITHUB_REPO_ID config)) Done
                :: tra ++ wr ++ dl).
      rewrite C4, C3, C2, C1, C0, <- !app_assoc. split; [reflexivity|].
      assert (Kc : count_events is_created_ref
                     (mkEvent (GetRepo (GITHUB_TOKEN config) (GITHUB_REPO_ID config))
                              Done :: tra ++ wr ++ dl) = 1)
        by (rewrite !count_events_cons, !count_events_app, K2, K3, K4; reflexivity).
      assert (Ko : count_events is_opened_pull
                     (mkEvent (GetRepo (GITHUB_TOKEN config) (GITHUB_REPO_ID config))
                              Done :: tra ++ wr ++ dl) = 0)
        by (rewrite !count_events_cons, !count_events_app, O2, O3, O4; reflexivity).
      destruct F4 as [[-> ->]|(before & c & -> & Hc)].
      - left. auto.
      - right. exists (mkEvent (GetRepo (GITHUB_TOKEN config) (GITHUB_REPO_ID config))
                               Done :: tra ++ wr ++ before), c.
        split; [cbn [app]; rewrite <- !app_assoc; reflexivity|].
        rewrite Kc, Ko.
        destruct c; try discriminate Hc; split; reflexivity. }
  destruct (pull_stage _ gh config title body branch labels s4) as (pl & C5 & K5 & F5).
  cbv zeta in C5, F5.
  match type of C5 with
  | calls (snd ?o) = _ => destruct o as [[[]|e5] s5]
  end; cbn [fst snd] in C5, F5; cbn [fst snd]; [discriminate|].
  intros E; inversion E; subst.
  assert (Kc : count_events is_created_ref
                 (mkEvent (GetRepo (GITHUB_TOKEN config) (GITHUB_REPO_ID config))
                          Done :: tra ++ wr ++ dl ++ pl) = 1)
    by (rewrite !count_events_cons, !count_events_app, K2, K3, K4, K5; reflexivity).
  assert (Ko : count_events is_opened_pull
                 (mkEvent (GetRepo (GITHUB_TOKEN config) (GITHUB_REPO_ID config))
                          Done :: tra ++ wr ++ dl ++ pl)
               = count_events is_opened_pull pl)
    by (rewrite !count_events_cons, !count_events_app, O2, O3, O4; reflexivity).
  destruct F5 as (before & c & -> & Hb & Ho).
  exists (mkEvent (GetRepo (GITHUB_TOKEN config) (GITHUB_REPO_ID config)) Done
            :: tra ++ wr ++ dl ++ before ++ [mkEvent c (Failed e)]).
  rewrite C5, C4, C3, C2, C1, C0, <- !app_assoc. split; [reflexivity|].
  right. exists (mkEvent (GetRepo (GITHUB_TOKEN config) (GITHUB_REPO_ID config))
                         Done :: tra ++ wr ++ dl ++ before), c.
  split; [cbn [app]; rewrite <- !app_assoc; reflexivity|].
  rewrite Kc, Ko, Ho, Hb.
  split; reflexivity.
Qed.

Lemma create_pull_request_failure_leaves_work_witness :
  let run :=
    create_pull_request no_labels_platform Sim.config (py "add-item")
      (py "Add bob/x.json") (py "{}")
      (Some (py "bob/x.json", [Byte.x7b; Byte.x7d])) None [py "review"]
      (Sim.start empty_world) in
  fst run = Raise (Github GithubException 403)
  /\ count_events is_created_ref (calls (snd run)) = 1
  /\ count_events is_update_file (calls (snd run)) = 1
  /\ count_events is_opened_pull (calls (snd run)) = 1
  /\ exists tr,
       extends (Sim.start empty_world) (snd run) tr
       /\ ((Github GithubException 403 = UnicodeEncodeError
            /\ count_events is_created_ref tr = 1
            /\ count_events is_opened_pull tr = 0)
           \/ exists before c,
                tr = before ++ [mkEvent c (Failed (Github GithubException 403))]
                /\ count_events is_created_ref tr
                   = (if before_branch c then 0 else 1)
                /\ count_events is_opened_pull tr
                   = (if after_pull c then 1 else 0)).
Proof.
  cbv zeta. repeat (split; [vm_compute; reflexivity|]).
  apply (create_pull_request_failure_leaves_work Sim.t no_labels_platform
           Sim.config (py "add-item") (py "Add bob/x.json") (py "{}")
           (Some (py "bob/x.json", [Byte.x7b; Byte.x7d])) None [py "review"]
           (Sim.start empty_world) (Github GithubException 403)).
  vm_compute. reflexivity.
Defined.

(** ** The tree ref of the content locator *)

Section TreeRef.

Open Scope N_scope.

Lemma lor_lt_pow2 (a b n : N) : a < 2 ^ n -> b < 2 ^ n -> N.lor a b < 2 ^ n.
Proof.
  intros Ha Hb.
  destruct (N.eq_dec a 0) as [->|Na]; [rewrite N.lor_0_l; exact Hb|].
  destruct (N.eq_dec b 0) as [->|Nb]; [rewrite N.lor_0_r; exact Ha|].
  assert (Nl : N.lor a b <> 0).
  { intros E. apply N.lor_eq_0_iff in E. destruct E; contradiction. }
  apply N.log2_lt_pow2; [lia|].
  rewrite N.log2_lor.
  apply N.log2_lt_pow2 in Ha; [|lia]. apply N.log2_lt_pow2 in Hb; [|lia]. lia.
Qed.

Lemma shiftr_lt (c k n : N) : c < 2 ^ (n + k) -> N.shiftr c k < 2 ^ n.
Proof.
  intros H. rewrite N.shiftr_div_pow2.
  apply N.Div0.div_lt_upper_bound. rewrite <- N.pow_add_r, N.add_comm. exact H.
Qed.

Lemma land_63_lt (x : N) : N.land x 0x3F < 64.
Proof.
  change 0x3F with (N.ones 6). rewrite N.land_ones.
  apply N.mod_lt. discriminate.
Qed.

Lemma continuation_lt (x : N) : N.lor 0x80 (N.land x 0x3F) < 256.
Proof.
  apply (lor_lt_pow2 _ _ 8); [reflexivity|].
  pose proof (land_63_lt x). simpl. lia.
Qed.

Lemma utf8_char_bytes (c : N) :
  c < 0x110000 ->
  match urllib.utf8_char c with
  | Ok bs => Forall (fun b => b < 256) bs
  | Raise _ => True
  end.
Proof.
  intros Hc. unfold urllib.utf8_char.
  destruct (c <? 0x80) eqn:E1.
  { apply N.ltb_lt in E1. apply Forall_cons; [lia|apply Forall_nil]. }
  destruct (c <? 0x800) eqn:E2.
  { apply N.ltb_lt in E2.
    apply Forall_cons; [|apply Forall_cons; [apply continuation_lt|apply Forall_nil]].
    apply (lor_lt_pow2 _ _ 8); [reflexivity|].
    apply (N.lt_trans _ (2 ^ 5)); [|reflexivity].
    apply shiftr_lt. exact E2. }
  destruct (c <? 0x10000) eqn:E3.
  { destruct (Py.is_surrogate c); [exact I|].
    apply N.ltb_lt in E3.
    apply Forall_cons;
      [|apply Forall_cons;
        [apply continuation_lt
        |apply Forall_cons; [apply continuation_lt|apply Forall_nil]]].
    apply (lor_lt_pow2 _ _ 8); [reflexivity|].
    apply (N.lt_trans _ (2 ^ 4)); [|reflexivity].
    apply shiftr_lt. exact E3. }
  apply Forall_cons;
    [|apply Forall_cons;
      [apply continuation_lt
      |apply Forall_cons;
        [apply continuation_lt
        |apply Forall_cons; [apply continuation_lt|apply Forall_nil]]]].
  apply (lor_lt_pow2 _ _ 8); [reflexivity|].
  apply (N.lt_trans _ (2 ^ 3)); [|reflexivity].
  apply shiftr_lt. apply (N.lt_trans _ _ _ Hc). reflexivity.
Qed.

Lemma utf8_bytes (s : Py.str) (bs : list N) :
  Py.valid s = true -> urllib.utf8 s = Ok bs -> Forall (fun b => b < 256) bs.
Proof.
  revert bs. induction s as [|c r IH]; intros bs Hv H.
  - inversion H. constructor.
  - unfold Py.valid in Hv. cbn [forallb] in Hv.
    apply andb_true_iff in Hv as [Hc Hr]. apply N.ltb_lt in Hc.
    cbn [urllib.utf8] in H.
    pose proof (utf8_char_bytes c Hc) as B1.
    destruct (urllib.utf8_char c) as [b1|e]; [|discriminate].
    destruct (urllib.utf8 r) as [b2|e] eqn:E2; [|discriminate].
    cbn [rbind] in H.
    assert (E : bs = b1 ++ b2) by congruence. subst bs.
    apply Forall_app. split; [exact B1|]. apply IH; auto.
Qed.

Lemma quote_byte_safe (b : N) :
  b < 256 -> forallb url_safe (urllib.quote_byte b) = true.
Proof.
  intros H.
  apply (all_below_spec 8 (fun b => forallb url_safe (urllib.quote_byte b)) 0).
  - vm_compute. reflexivity.
  - simpl. lia.
Qed.

Lemma quote_plus_safe (s q : Py.str) :
  Py.valid s = true -> urllib.quote_plus s = Ok q -> forallb url_safe q = true.
Proof.
  intros Hv. unfold urllib.quote_plus.
  destruct (urllib.utf8 s) as [bs|e] eqn:U; [|discriminate].
  cbn [rbind]. intros H; inversion H.
  pose proof (utf8_bytes s bs Hv U) as B.
  clear - B. induction B as [|b l Hb Hl IH]; [reflexivity|].
  cbn [flat_map]. rewrite forallb_app, quote_byte_safe, IH by assumption.
  reflexivity.
Qed.

Lemma utf8_app (a b : Py.str) (x y : list N) :
  urllib.utf8 a = Ok x -> urllib.utf8 b = Ok y -> urllib.utf8 (a ++ b) = Ok (x ++ y).
Proof.
  revert x. induction a as [|c r IH]; intros x Ha Hb.
  - inversion Ha. exact Hb.
  - cbn [urllib.utf8 app] in *.
    destruct (urllib.utf8_char c) as [b1|e]; [|discriminate].
    destruct (urllib.utf8 r) as [b2|e]; [|discriminate].
    cbn [rbind] in *. inversion Ha.
    rewrite (IH b2 eq_refl Hb). cbn [rbind]. rewrite app_assoc. reflexivity.
Qed.

Lemma quote_plus_app (a b qa qb : Py.str) :
  urllib.quote_plus a = Ok qa -> urllib.quote_plus b = Ok qb ->
  urllib.quote_plus (a ++ b) = Ok (qa ++ qb).
Proof.
  unfold urllib.quote_plus.
  destruct (urllib.utf8 a) as [x|e] eqn:A; [|discriminate].
  destruct (urllib.utf8 b) as [y|e] eqn:B; [|discriminate].
  cbn [rbind]. intros Ha Hb. inversion Ha. inversion Hb.
  rewrite (utf8_app a b x y A B). cbn [rbind]. rewrite flat_map_app. reflexivity.
Qed.

Lemma quote_plus_text (s : Py.str) :
  Py.is_text s = true -> exists q, urllib.quote_plus s = Ok q.
Proof.
  intros H. destruct (utf8_text s H) as (bs & E).
  unfold urllib.quote_plus. rewrite E. eexists. reflexivity.
Qed.

Lemma is_text_valid (s : Py.str) : Py.is_text s = true -> Py.valid s = true.
Proof.
  unfold Py.is_text, Py.valid. induction s as [|c r IH]; [reflexivity|].
  cbn [forallb]. intros H. apply andb_true_iff in H as [Hc Hr].
  apply andb_true_iff in Hc as [Hc _]. rewrite Hc, IH; auto.
Qed.

Lemma parent_text (path : Py.str) :
  Py.is_text path = true ->
  Py.is_text (PurePath.to_str (PurePath.parent (PurePath.of_str path))) = true.
Proof.
  intros Hp.
  unfold PurePath.to_str, PurePath.parent, PurePath.of_str.
  cbn [PurePath.root PurePath.parts].
  assert (J : Py.is_text
                (PurePath.splitroot path
                   ++ Py.join (py "/")
                        (removelast
                           (filter (fun seg => (negb (Py.eqb seg [])
                                                 && negb (Py.eqb seg (py ".")))%bool)
                                   (PurePath.split path)))) = true).
  { rewrite is_text_app, splitroot_text. cbn [andb].
    apply join_text; [reflexivity|].
    apply Forall_removelast, Forall_filter, split_text, Hp. }
  destruct (PurePath.splitroot path) as [|a r] eqn:R.
  - destruct (removelast _) as [|x l] eqn:L; [reflexivity|]. exact J.
  - exact J.
Qed.

End TreeRef.

(** X9.  For a main branch name and a path that are Unicode text,
    [_previous_version_sha] makes exactly one call, a look at one tree that
    is not recursive, and the tree ref it sends is percent-encoded as a
    whole: the encoded branch name, [%3A] for the colon, the encoded parent
    directory.  The ref holds only ASCII letters, digits, [_ . - ~], the
    percent sign and the plus sign; no colon, no slash and no space is
    sent as such. *)
Theorem previous_version_sha_tree_ref (W : Type) (gh : Platform W)
  (config : Config) (path : Py.str) (s : run_state W) :
  Py.is_text (GITHUB_MAIN_BRANCH config) = true ->
  Py.is_text path = true ->
  exists qmain qparent a,
    urllib.quote_plus (GITHUB_MAIN_BRANCH config) = Ok qmain
    /\ urllib.quote_plus (PurePath.to_str (PurePath.parent (PurePath.of_str path)))
       = Ok qparent
    /\ calls (snd (_previous_version_sha gh config path s))
       = calls s ++ [mkEvent (GetGitTree (qmain ++ py "%3A" ++ qparent) false) a]
    /\ forallb url_safe (qmain ++ py "%3A" ++ qparent) = true
    /\ ~ In json.COLON (qmain ++ py "%3A" ++ qparent)
    /\ ~ In json.SLASH (qmain ++ py "%3A" ++ qparent)
    /\ ~ In 32%N (qmain ++ py "%3A" ++ qparent).
Proof.
  intros Hm Hp.
  destruct (quote_plus_text _ Hm) as (qmain & Qm).
  pose proof (parent_text path Hp) as Ht.
  destruct (quote_plus_text _ Ht) as (qparent & Qp).
  assert (T : tree_ref_of config path = Ok (qmain ++ py "%3A" ++ qparent)).
  { unfold tree_ref_of, urllib.urlencode_value.
    apply quote_plus_app; [exact Qm|].
    apply (quote_plus_app (py ":") _ (py "%3A")); [reflexivity|exact Qp]. }
  assert (S : forallb url_safe (qmain ++ py "%3A" ++ qparent) = true).
  { rewrite !forallb_app.
    rewrite (quote_plus_safe _ _ (is_text_valid _ Hm) Qm).
    rewrite (quote_plus_safe _ _ (is_text_valid _ Ht) Qp). reflexivity. }
  assert (E : exists a,
             calls (snd (_previous_version_sha gh config path s))
             = calls s ++ [mkEvent (GetGitTree (qmain ++ py "%3A" ++ qparent) false)
                                   a]).
  { rewrite _previous_version_sha_run, T.
    destruct (gh_get_git_tree gh _ false (world s)) as [[t|e] w']; cbn [snd calls];
      eexists; reflexivity. }
  destruct E as (a & E).
  exists qmain, qparent, a.
  repeat (split; [assumption|]).
  rewrite forallb_forall in S.
  repeat split; intros H; apply S in H; discriminate H.
Qed.

Lemma previous_version_sha_tree_ref_witness :
  exists a,
    calls (snd (_previous_version_sha Sim.platform Sim.config
                  (py "alice/docs/foo bar.json") (Sim.start empty_world)))
    = [mkEvent (GetGitTree (py "main%3Aalice%2Fdocs") false) a].
Proof.
  destruct (previous_version_sha_tree_ref Sim.t Sim.platform Sim.config
              (py "alice/docs/foo bar.json") (Sim.start empty_world))
    as (qmain & qparent & a & Qm & Qp & C & _); [reflexivity|reflexivity|].
  vm_compute in Qm. vm_compute in Qp. inversion Qm; inversion Qp; subst.
  exists a. exact C.
Defined.

(** ** Branch names and path spellings *)

Section BranchNames.

Lemma of_string_inj (a b : string) : Py.of_string a = Py.of_string b -> a = b.
Proof.
  unfold Py.of_string. intros H.
  rewrite <- (string_of_list_ascii_of_string a), <- (string_of_list_ascii_of_string b).
  f_equal.
  revert H. generalize (list_ascii_of_string a), (list_ascii_of_string b).
  induction l as [|x l IH]; intros [|y l'] H; try discriminate; [reflexivity|].
  cbn [map] in H. inversion H as [[Hx Hl]].
  f_equal; [|apply IH; exact Hl].
  rewrite <- (ascii_N_embedding x), <- (ascii_N_embedding y), Hx. reflexivity.
Qed.

Lemma to_int_nonnil (z : Z) :
  Z.to_int z <> Decimal.Pos Decimal.Nil /\ Z.to_int z <> Decimal.Neg Decimal.Nil.
Proof.
  destruct z as [|p|p]; cbn [Z.to_int]; split; try discriminate;
    intros H; inversion H as [H']; exact (DecimalPos.Unsigned.to_uint_nonnil p H').
Qed.

Lemma str_of_int_inj (j k : Z) : Py.str_of_int j = Py.str_of_int k -> j = k.
Proof.
  unfold Py.str_of_int. intros H. apply of_string_inj in H.
  apply (f_equal NilZero.int_of_string) in H.
  destruct (to_int_nonnil j) as [J1 J2], (to_int_nonnil k) as [K1 K2].
  rewrite !NilZero.isi in H by assumption.
  inversion H as [H']. apply DecimalZ.to_int_inj. exact H'.
Qed.

Lemma branch_name_for_inj (base : Py.str) (j k : Z) :
  branch_name_for base j = branch_name_for base k -> j = k.
Proof.
  unfold branch_name_for. intros H. apply app_inv_head in H.
  change (py "-") with [45%N] in H. cbn [app] in H.
  destruct (Z.eqb j 1) eqn:Ej; destruct (Z.eqb k 1) eqn:Ek;
    try discriminate H.
  - apply Z.eqb_eq in Ej, Ek. congruence.
  - injection H as H. apply str_of_int_inj. exact H.
Qed.

Lemma zseq_In (n : nat) : forall k x, In x (zseq k n) -> (k <= x)%Z.
Proof.
  induction n as [|n IH]; intros k x H; [contradiction|].
  cbn [zseq] in H. destruct H as [<-|H]; [lia|].
  apply IH in H. lia.
Qed.

Lemma zseq_NoDup (n : nat) : forall k, NoDup (zseq k n).
Proof.
  induction n as [|n IH]; intros k; [constructor|].
  cbn [zseq]. constructor; [|apply IH].
  intros H. apply zseq_In in H. lia.
Qed.

Lemma NoDup_map_inj {A B} (f : A -> B) (l : list A) :
  (forall x y, f x = f y -> x = y) -> NoDup l -> NoDup (map f l).
Proof.
  intros Hf. induction 1 as [|x l Hx Hl IH]; cbn [map]; constructor; [|exact IH].
  intros H. apply in_map_iff in H as (y & E & Hy).
  apply Hf in E. subst y. contradiction.
Qed.

Lemma attempt_refs_NoDup (base : Py.str) (k : Z) (n : nat) :
  NoDup (map (attempt_ref base) (zseq k n)).
Proof.
  apply NoDup_map_inj; [|apply zseq_NoDup].
  intros i j H. unfold attempt_ref in H. apply app_inv_head in H.
  apply branch_name_for_inj in H. exact H.
Qed.

End BranchNames.

(** X10.  The names [_create_branch] builds are different for different
    postfixes, so within one call no ref is asked for twice: every retry
    tries a name that was not tried before. *)
Theorem create_branch_never_retries_a_name (W : Type) (gh : Platform W)
  (config : Config) (base : Py.str) (postfix : Z) (s : run_state W) :
  (forall j k, branch_name_for base j = branch_name_for base k -> j = k)
  /\ exists tr,
       extends s (snd (_create_branch gh config base postfix s)) tr
       /\ NoDup (map (fun a => fst (fst a)) (creation_attempts tr)).
Proof.
  split; [apply branch_name_for_inj|].
  destruct (_create_branch_allocation _ gh config base postfix s) as (tr & He & Ha).
  exists tr. split; [exact He|].
  rewrite (allocation_refs _ _ _ _ _ Ha). apply attempt_refs_NoDup.
Qed.

Section PathSpellings.

Lemma split_nonempty (s : Py.str) : PurePath.split s <> [].
Proof.
  destruct s as [|c r]; [discriminate|].
  cbn [PurePath.split]. destruct (N.eqb c json.SLASH); [discriminate|].
  destruct (PurePath.split r); discriminate.
Qed.

Lemma split_slash (a b : Py.str) :
  PurePath.split (a ++ json.SLASH :: b) = PurePath.split a ++ PurePath.split b.
Proof.
  induction a as [|c r IH].
  - cbn [app PurePath.split]. rewrite N.eqb_refl. reflexivity.
  - cbn [app PurePath.split]. rewrite IH.
    destruct (N.eqb c json.SLASH); [reflexivity|].
    pose proof (split_nonempty r) as N.
    destruct (PurePath.split r) as [|seg segs]; [contradiction|reflexivity].
Qed.

Lemma parts_slash (a b : Py.str) :
  PurePath.parts (PurePath.of_str (a ++ json.SLASH :: b))
  = PurePath.parts (PurePath.of_str a) ++ PurePath.parts (PurePath.of_str b).
Proof.
  unfold PurePath.of_str. cbn [PurePath.parts].
  rewrite split_slash, filter_app. reflexivity.
Qed.

Lemma splitroot_relative (c : N) (r x : Py.str) :
  N.eqb c json.SLASH = false ->
  PurePath.splitroot ((c :: r) ++ x) = [] /\ PurePath.splitroot (c :: r) = [].
Proof.
  intros H. cbn [app PurePath.splitroot]. rewrite H. auto.
Qed.

(** A relative path followed by a slash and more: the path object. *)
Lemma of_str_relative_slash (c : N) (r b : Py.str) :
  N.eqb c json.SLASH = false ->
  PurePath.of_str ((c :: r) ++ json.SLASH :: b)
  = PurePath.mk [] (PurePath.parts (PurePath.of_str (c :: r))
                      ++ PurePath.parts (PurePath.of_str b)).
Proof.
  intros H. rewrite <- parts_slash.
  unfold PurePath.of_str. cbn [PurePath.parts].
  destruct (splitroot_relative c r (json.SLASH :: b) H) as [-> _]. reflexivity.
Qed.

End PathSpellings.

(** X11.  [_previous_version_sha] reads the path through [PurePath], so the
    spelling of the separators does not matter to it: for a relative path,
    a doubled slash, a "." segment or a trailing slash change neither the
    tree it looks at nor the name it looks for, and the run is the same as
    for the plain spelling.  (The write and the delete of
    [create_pull_request] are sent the path as given.) *)
Theorem previous_version_sha_ignores_spelling (W : Type) (gh : Platform W)
  (config : Config) (c : N) (r b : Py.str) :
  N.eqb c json.SLASH = false ->
  let a := c :: r in
  let plain := a ++ py "/" ++ b in
  _previous_version_sha gh config (a ++ py "//" ++ b)
  = _previous_version_sha gh config plain
  /\ _previous_version_sha gh config (a ++ py "/./" ++ b)
     = _previous_version_sha gh config plain
  /\ _previous_version_sha gh config (plain ++ py "/")
     = _previous_version_sha gh config plain
  /\ _previous_version_sha gh config (a ++ py "/")
     = _previous_version_sha gh config a.
Proof.
  intros H a plain.
  assert (P : forall p q, PurePath.of_str p = PurePath.of_str q ->
                          _previous_version_sha gh config p
                          = _previous_version_sha gh config q).
  { intros p q E. unfold _previous_version_sha. rewrite E. reflexivity. }
  assert (E0 : PurePath.of_str plain
               = PurePath.mk [] (PurePath.parts (PurePath.of_str a)
                                   ++ PurePath.parts (PurePath.of_str b))).
  { apply of_str_relative_slash. exact H. }
  repeat split; apply P.
  - rewrite E0. subst a. change (py "//" ++ b) with (json.SLASH :: (json.SLASH :: b)).
    rewrite of_str_relative_slash by exact H.
    change (json.SLASH :: b) with ([] ++ json.SLASH :: b).
    rewrite parts_slash. reflexivity.
  - rewrite E0. subst a.
    change (py "/./" ++ b) with (json.SLASH :: (py "." ++ json.SLASH :: b)).
    rewrite of_str_relative_slash by exact H.
    rewrite parts_slash. reflexivity.
  - subst plain a. rewrite <- app_assoc.
    change ((py "/" ++ b) ++ py "/") with (json.SLASH :: (b ++ json.SLASH :: [])).
    change (py "/" ++ b) with (json.SLASH :: b).
    rewrite !of_str_relative_slash by exact H.
    rewrite parts_slash.
    change (PurePath.parts (PurePath.of_str [])) with (@nil Py.str).
    rewrite app_nil_r. reflexivity.
  - subst a. change (py "/") with (json.SLASH :: []).
    rewrite of_str_relative_slash by exact H.
    unfold PurePath.of_str at 3. cbn [PurePath.parts PurePath.split filter Py.eqb negb andb].
    rewrite app_nil_r.
    unfold PurePath.of_str. cbn [PurePath.parts].
    destruct (splitroot_relative c r [] H) as [_ ->]. reflexivity.
Qed.

Lemma previous_version_sha_ignores_spelling_witness :
  _previous_version_sha Sim.platform Sim.config (py "alice//foo.json")
  = _previous_version_sha Sim.platform Sim.config (py "alice/foo.json")
  /\ fst (_previous_version_sha Sim.platform Sim.config (py "alice//foo.json")
            (Sim.start busy_world)) = Ok (py "abc123").
Proof.
  split; [|vm_compute; reflexivity].
  apply (previous_version_sha_ignores_spelling Sim.t Sim.platform Sim.config
           97%N (py "lice") (py "foo.json")).
  reflexivity.
Defined.

(** ** Files at the top of the repository *)

Section TopLevel.

Lemma of_str_plain (path : Py.str) :
  plain_name path = true -> PurePath.of_str path = PurePath.mk [] [path].
Proof.
  unfold plain_name. intros H.
  apply andb_true_iff in H as [H H3]. apply andb_true_iff in H as [H1 H2].
  apply negb_true_iff in H1.
  unfold PurePath.of_str. rewrite (split_plain path H1).
  cbn [filter]. rewrite H2, H3. cbn [andb]. f_equal.
  destruct path as [|c r]; [reflexivity|].
  cbn [existsb] in H1. apply orb_false_iff in H1 as [Hc _].
  cbn [PurePath.splitroot]. rewrite N.eqb_sym, Hc. reflexivity.
Qed.

End TopLevel.

(** X12.  For a path that is one plain segment (a file at the top of the
    repository) [PurePath] gives "." as the parent, so
    [_previous_version_sha] looks at the tree [<main branch>:.], sent as
    the encoded branch name followed by [%3A.], and looks there for an
    entry named as the path itself. *)
Theorem previous_version_sha_top_level (W : Type) (gh : Platform W)
  (config : Config) (path : Py.str) (s : run_state W) :
  Py.is_text (GITHUB_MAIN_BRANCH config) = true ->
  plain_name path = true ->
  PurePath.to_str (PurePath.parent (PurePath.of_str path)) = py "."
  /\ PurePath.name (PurePath.of_str path) = path
  /\ exists qmain a,
       urllib.quote_plus (GITHUB_MAIN_BRANCH config) = Ok qmain
       /\ calls (snd (_previous_version_sha gh config path s))
          = calls s ++ [mkEvent (GetGitTree (qmain ++ py "%3A.") false) a]
       /\ fst (_previous_version_sha gh config path s)
          = match a with
            | Failed e => if is_UnknownObjectException e then Ok [] else Raise e
            | _ => Ok (token_of_answer path a)
            end.
Proof.
  intros Hm Hp.
  pose proof (of_str_plain path Hp) as E.
  split; [rewrite E; reflexivity|]. split; [rewrite E; reflexivity|].
  destruct (quote_plus_text _ Hm) as (qmain & Qm).
  assert (T : tree_ref_of config path = Ok (qmain ++ py "%3A.")).
  { unfold tree_ref_of, urllib.urlencode_value. rewrite E.
    apply quote_plus_app; [exact Qm|reflexivity]. }
  rewrite _previous_version_sha_run, T.
  assert (N : PurePath.name (PurePath.of_str path) = path) by (rewrite E; reflexivity).
  rewrite N.
  destruct (gh_get_git_tree gh _ false (world s)) as [[t|e] w'].
  - exists qmain, (GotTree t). cbn [fst snd calls]. auto.
  - exists qmain, (Failed e). cbn [fst snd calls]. auto.
Qed.

Lemma previous_version_sha_top_level_witness :
  exists a,
    calls (snd (_previous_version_sha Sim.platform Sim.config (py "README.md")
                  (Sim.start empty_world)))
    = [mkEvent (GetGitTree (py "main%3A.") false) a].
Proof.
  destruct (previous_version_sha_top_level Sim.t Sim.platform Sim.config
              (py "README.md") (Sim.start empty_world))
    as (_ & _ & qmain & a & Qm & C & _); [reflexivity|reflexivity|].
  vm_compute in Qm. inversion Qm; subst.
  exists a. exact C.
Defined.

(** ** The item endpoints *)


(** * Properties of the processing proxy *)

Section ProxyPure.

Import processing_proxy.

Lemma assoc_get_set {V} (d : list (Py.str * V)) (k : Py.str) (v : V)
  (name : Py.str) :
  assoc_get (assoc_set d k v) name
  = if Py.eqb k name then Some v else assoc_get d name.
Proof.
  induction d as [|[k' v'] d IH]; cbn [assoc_set assoc_get].
  - destruct (Py.eqb k name); reflexivity.
  - destruct (Py.eqb k' k) eqn:E; cbn [assoc_get].
    + apply Py_eqb_eq in E. subst k'. destruct (Py.eqb k name); reflexivity.
    + rewrite IH. destruct (Py.eqb k' name) eqn:E1; [|reflexivity].
      destruct (Py.eqb k name) eqn:E2; [|reflexivity].
      apply Py_eqb_eq in E1, E2. subst. rewrite Py_eqb_refl in E. discriminate E.
Qed.

Lemma assoc_get_app {V} (a b : list (Py.str * V)) (name : Py.str) :
  assoc_get (a ++ b) name
  = match assoc_get a name with
    | Some v => Some v
    | None => assoc_get b name
    end.
Proof.
  induction a as [|[k v] a IH]; [reflexivity|].
  cbn [app assoc_get]. destruct (Py.eqb k name); [reflexivity|exact IH].
Qed.

Lemma assoc_set_keys {V} (d : list (Py.str * V)) (k : Py.str) (v : V) :
  NoDup (map fst d) -> NoDup (map fst (assoc_set d k v)).
Proof.
  induction d as [|[k' v'] d IH]; intros H.
  - cbn. constructor; [intros []|constructor].
  - cbn [assoc_set]. inversion H as [|? ? Hn Hd]; subst.
    destruct (Py.eqb k' k) eqn:E; cbn [map fst].
    + constructor; assumption.
    + constructor; [|apply IH; exact Hd].
      intros Hin. apply Hn. clear - Hin E.
      induction d as [|[k2 v2] d IH]; cbn [assoc_set map fst] in *.
      * destruct Hin as [Hin|[]]. subst k'. rewrite Py_eqb_refl in E. discriminate E.
      * destruct (Py.eqb k2 k) eqn:E2; cbn [map fst] in *; [exact Hin|].
        destruct Hin as [Hin|Hin]; [left; exact Hin|right; apply IH; exact Hin].
Qed.

(** The dictionary comprehension of the header filter, from any start. *)
Lemma filter_fold (raw acc : list (Py.str * Py.str)) (name : Py.str) :
  assoc_get
    (fold_left
       (fun acc nv =>
          if negb (str_in (lower (fst nv)) excluded_headers)
          then assoc_set acc (fst nv) (snd nv)
          else acc) raw acc) name
  = match (if str_in (lower name) excluded_headers then None
           else assoc_get (rev raw) name) with
    | Some v => Some v
    | None => assoc_get acc name
    end.
Proof.
  revert acc. induction raw as [|[k v] raw IH]; intros acc.
  - cbn [fold_left rev assoc_get].
    destruct (str_in (lower name) excluded_headers); reflexivity.
  - cbn [fold_left fst snd rev]. rewrite IH, assoc_get_app.
    destruct (str_in (lower name) excluded_headers) eqn:X.
    + destruct (str_in (lower k) excluded_headers) eqn:Xk; cbn [negb];
        [reflexivity|].
      rewrite assoc_get_set. destruct (Py.eqb k name) eqn:E; [|reflexivity].
      apply Py_eqb_eq in E. subst k. congruence.
    + destruct (assoc_get (rev raw) name) as [v'|]; [reflexivity|].
      cbn [assoc_get].
      destruct (str_in (lower k) excluded_headers) eqn:Xk; cbn [negb].
      * destruct (Py.eqb k name) eqn:E; [|reflexivity].
        apply Py_eqb_eq in E. subst k. congruence.
      * rewrite assoc_get_set. destruct (Py.eqb k name); reflexivity.
Qed.

Lemma filter_fold_keys (raw acc : list (Py.str * Py.str)) :
  NoDup (map fst acc) ->
  NoDup (map fst
           (fold_left
              (fun acc nv =>
                 if negb (str_in (lower (fst nv)) excluded_headers)
                 then assoc_set acc (fst nv) (snd nv)
                 else acc) raw acc)).
Proof.
  revert acc. induction raw as [|[k v] raw IH]; intros acc H; [exact H|].
  cbn [fold_left fst snd]. apply IH.
  destruct (negb _); [apply assoc_set_keys; exact H|exact H].
Qed.

End ProxyPure.

(** X14.  The response passed back to the caller has the content and the
    status code of the backend's response unchanged, whatever the status
    is.  Of the backend's headers (with ASCII names) it carries exactly
    those whose name is none of content-encoding, content-length,
    transfer-encoding and connection in any spelling of upper and lower
    case, each once, with the value of its last occurrence. *)
Theorem response_headers_filtered (response : processing_proxy.RequestsResponse) :
  Forall (fun nv => processing_proxy.is_ascii (fst nv) = true)
         (processing_proxy.raw_headers response) ->
  let out := processing_proxy.requests_response_to_fastapi_response response in
  processing_proxy.out_content out = processing_proxy.content response
  /\ processing_proxy.out_status_code out = processing_proxy.status_code response
  /\ (forall name,
        processing_proxy.assoc_get (processing_proxy.out_headers out) name
        = if str_in (processing_proxy.lower name) processing_proxy.excluded_headers
          then None
          else processing_proxy.assoc_get
                 (rev (processing_proxy.raw_headers response)) name)
  /\ NoDup (map fst (processing_proxy.out_headers out)).
Proof.
  intros _ out. subst out.
  unfold processing_proxy.requests_response_to_fastapi_response.
  cbn [processing_proxy.out_content processing_proxy.out_status_code
       processing_proxy.out_headers].
  split; [reflexivity|]. split; [reflexivity|]. split.
  - intros name. rewrite filter_fold. cbn [processing_proxy.assoc_get].
    destruct (str_in _ _); [reflexivity|].
    destruct (processing_proxy.assoc_get _ name); reflexivity.
  - apply filter_fold_keys. constructor.
Qed.

Lemma response_headers_filtered_witness :
  processing_proxy.requests_response_to_fastapi_response ProxyDemo.upstream
  = processing_proxy.mkResponse [Byte.x7b; Byte.x7d] 201
      [(py "Content-Type", py "application/json"); (py "X-Request-Id", py "7")]
  /\ processing_proxy.assoc_get
       (processing_proxy.out_headers
          (processing_proxy.requests_response_to_fastapi_response
             ProxyDemo.upstream))
       (py "Content-Length") = None.
Proof.
  split; [vm_compute; reflexivity|].
  destruct (response_headers_filtered ProxyDemo.upstream) as (_ & _ & H & _).
  - repeat constructor.
  - rewrite H. reflexivity.
Defined.

Section ProxyRuns.

Import processing_proxy.

Variable W : Type.
Variable net : Net W.
Variable config : Settings.
Variable urlparse_hostname : Py.str -> outcome (option Py.str).

(** [handle_proxy_request] once the backend is known, the host name found
    and the body read. *)
Lemma handle_proxy_request_run (request : Request)
  (remote_backend service_prefix proxy_path base : Py.str)
  (host : option Py.str) (data : bytes) (s : run_state W) :
  assoc_get (REMOTE_PROCESSING_BACKEND_MAPPING config) remote_backend = Some base ->
  urlparse_hostname (target_url base service_prefix proxy_path) = Return host ->
  req_body request = Return data ->
  let url := target_url base service_prefix proxy_path in
  let kwargs := proxy_kwargs_of request url host data in
  let method := lower (req_method request) in
  let lines := [Line (py "Requested " ++ req_url request); ReprOf kwargs;
                Line (py "Proxying to " ++ url)] in
  handle_proxy_request W net config urlparse_hostname request remote_backend
    service_prefix proxy_path s
  = match requests_call net method kwargs (world s) with
    | (Throw e, w') =>
        (Throw e,
         mkState w' (exchanges s ++ [mkExchange (Requests method kwargs) (Refused e)])
                 (logged s ++ lines))
    | (Return up, w') =>
        let status :=
          Line (py "Got status " ++ Py.str_of_int (status_code up)
                  ++ py " and size "
                  ++ Py.str_of_int (Z.of_nat (List.length (content up)))) in
        match decode (content up) with
        | None =>
            (Throw UnicodeDecodeError,
             mkState w'
               (exchanges s ++ [mkExchange (Requests method kwargs) (Replied up)])
               (logged s ++ lines ++ [status]))
        | Some text =>
            (Return (requests_response_to_fastapi_response up),
             mkState w'
               (exchanges s ++ [mkExchange (Requests method kwargs) (Replied up)])
               (logged s ++ lines ++ [status; Line (firstn 500 text)]))
        end
    end.
Proof.
  intros Hb Hh Hd. cbv zeta.
  unfold handle_proxy_request, remote_backend_to_url.
  unfold bind, lift, logger_info, perform, ret. rewrite Hb.
  fold (target_url base service_prefix proxy_path). rewrite Hh, Hd.
  cbn [world exchanges logged kw_url].
  fold (proxy_kwargs_of request (target_url base service_prefix proxy_path) host data).
  destruct (requests_call net _ _ (world s)) as [[up|e] w'];
    cbn [world exchanges logged].
  - destruct (decode (content up)) as [text|]; cbn [world exchanges logged];
      rewrite <- !app_assoc; reflexivity.
  - rewrite <- !app_assoc. reflexivity.
Qed.

(** [_do_download], by the network's answer. *)
Lemma _do_download_run (url : pyval) (params : option (list (Py.str * Py.str)))
  (s : run_state W) :
  _do_download W net url params s
  = match httpx_get net url params (world s) with
    | (Throw e, w') =>
        (Throw e,
         mkState w' (exchanges s ++ [mkExchange (HttpxGet url params) (Refused e)])
                 (logged s))
    | (Return response, w') =>
        (match x_raise_for_status response with
         | Some e => Throw e
         | None => Return response
         end,
         mkState w'
           (exchanges s ++ [mkExchange (HttpxGet url params) (Answered response)])
           (logged s))
    end.
Proof.
  unfold _do_download, raise_for_status, bind, lift, perform, ret.
  destruct (httpx_get net url params (world s)) as [[response|e] w'];
    [|reflexivity].
  destruct (x_raise_for_status response); reflexivity.
Qed.

Lemma manifest_links_dicts (links : list (list (Py.str * pyval))) :
  manifest_links (map PDict links)
  = if forallb has_rel links
    then Return (map PDict (filter is_manifest links))
    else Throw (KeyError (py "rel")).
Proof.
  induction links as [|l links IH]; [reflexivity|].
  cbn [map manifest_links forallb filter getitem].
  unfold has_rel at 1, is_manifest at 1.
  destruct (dict_get l (py "rel")) as [rel|]; [|reflexivity].
  rewrite IH. cbn [andb].
  destruct (forallb has_rel links); [|reflexivity].
  destruct (equals_str rel (py "manifest")); reflexivity.
Qed.

End ProxyRuns.

(** X15.  A remote backend that the configured mapping does not name is
    refused with the HTTP error 400 ("Invalid remote backend <name>")
    before anything else happens: no request is sent, nothing is logged
    and the incoming request is not read; a proxied route answers so
    whatever its service prefix. *)
Theorem handle_proxy_request_rejects_unknown_backend (W : Type)
  (net : processing_proxy.Net W) (config : processing_proxy.Settings)
  (urlparse_hostname : Py.str -> processing_proxy.outcome (option Py.str))
  (request : processing_proxy.Request)
  (remote_backend service_prefix proxy_path : Py.str)
  (s : processing_proxy.run_state W) :
  processing_proxy.assoc_get
    (processing_proxy.REMOTE_PROCESSING_BACKEND_MAPPING config) remote_backend
  = None ->
  processing_proxy.handle_proxy_request W net config urlparse_hostname request
    remote_backend service_prefix proxy_path s
  = (processing_proxy.Throw
       (processing_proxy.HTTPException 400
          (py "Invalid remote backend " ++ remote_backend)), s)
  /\ processing_proxy.do_handle_proxy_request W net config urlparse_hostname
       service_prefix request remote_backend proxy_path s
     = (processing_proxy.Throw
          (processing_proxy.HTTPException 400
             (py "Invalid remote backend " ++ remote_backend)), s).
Proof.
  intros H.
  unfold processing_proxy.do_handle_proxy_request,
    processing_proxy.handle_proxy_request, processing_proxy.remote_backend_to_url,
    processing_proxy.bind, processing_proxy.lift.
  rewrite H. split; reflexivity.
Qed.

Lemma handle_proxy_request_rejects_unknown_backend_witness :
  fst (processing_proxy.handle_proxy_request unit ProxyDemo.net ProxyDemo.settings
         ProxyDemo.urlparse_hostname ProxyDemo.request (py "elsewhere") (py "jobs")
         [] ProxyDemo.start)
  = processing_proxy.Throw
      (processing_proxy.HTTPException 400 (py "Invalid remote backend elsewhere")).
Proof.
  rewrite (proj1 (handle_proxy_request_rejects_unknown_backend unit ProxyDemo.net
                    ProxyDemo.settings ProxyDemo.urlparse_hostname ProxyDemo.request
                    (py "elsewhere") (py "jobs") [] ProxyDemo.start eq_refl)).
  reflexivity.
Defined.

(** The answers a call of [handle_proxy_request] that returns has met. *)
Lemma handle_proxy_request_ok (W : Type)
  (net : processing_proxy.Net W) (config : processing_proxy.Settings)
  (urlparse_hostname : Py.str -> processing_proxy.outcome (option Py.str))
  (request : processing_proxy.Request)
  (remote_backend service_prefix proxy_path : Py.str)
  (s : processing_proxy.run_state W) (response : processing_proxy.Response) :
  fst (processing_proxy.handle_proxy_request W net config urlparse_hostname request
         remote_backend service_prefix proxy_path s)
  = processing_proxy.Return response ->
  exists base host data upstream text w',
    processing_proxy.assoc_get
      (processing_proxy.REMOTE_PROCESSING_BACKEND_MAPPING config) remote_backend
    = Some base
    /\ urlparse_hostname (target_url base service_prefix proxy_path)
       = processing_proxy.Return host
    /\ processing_proxy.req_body request = processing_proxy.Return data
    /\ processing_proxy.requests_call net
         (processing_proxy.lower (processing_proxy.req_method request))
         (proxy_kwargs_of request (target_url base service_prefix proxy_path)
            host data)
         (processing_proxy.world s)
       = (processing_proxy.Return upstream, w')
    /\ processing_proxy.decode (processing_proxy.content upstream) = Some text
    /\ response = processing_proxy.requests_response_to_fastapi_response upstream.
Proof.
  intros H.
  destruct (processing_proxy.assoc_get
              (processing_proxy.REMOTE_PROCESSING_BACKEND_MAPPING config)
              remote_backend) as [base|] eqn:Hb.
  2:{ exfalso. revert H.
      unfold processing_proxy.handle_proxy_request,
        processing_proxy.remote_backend_to_url, processing_proxy.bind,
        processing_proxy.lift.
      rewrite Hb. discriminate. }
  destruct (urlparse_hostname (target_url base service_prefix proxy_path))
    as [host|e] eqn:Hh.
  2:{ exfalso. revert H.
      unfold processing_proxy.handle_proxy_request,
        processing_proxy.remote_backend_to_url, processing_proxy.bind,
        processing_proxy.lift.
      rewrite Hb. fold (target_url base service_prefix proxy_path). rewrite Hh.
      discriminate. }
  destruct (processing_proxy.req_body request) as [data|e] eqn:Hd.
  2:{ exfalso. revert H.
      unfold processing_proxy.handle_proxy_request,
        processing_proxy.remote_backend_to_url, processing_proxy.bind,
        processing_proxy.lift.
      rewrite Hb. fold (target_url base service_prefix proxy_path). rewrite Hh, Hd.
      discriminate. }
  rewrite (handle_proxy_request_run W net config urlparse_hostname request
             remote_backend service_prefix proxy_path base host data s Hb Hh Hd)
    in H.
  cbv zeta in H.
  destruct (processing_proxy.requests_call net _ _ (processing_proxy.world s))
    as [[up|e] w'] eqn:Hr; [|discriminate H].
  destruct (processing_proxy.decode (processing_proxy.content up)) as [text|] eqn:Hu;
    [|discriminate H].
  cbn [fst] in H. inversion H; subst response.
  exists base, host, data, up, text, w'. auto 10.
Qed.

(** X16.  A call of [handle_proxy_request] that returns has sent exactly
    one request: with the method of the incoming request in lower case, to
    [<backend address>/<service prefix>], followed by [/<proxy path>] when
    the proxy path is not empty; with the query parameters and the body of
    the incoming request; with its headers, [Host] set to the host name of
    the target address; and with redirects not followed.  What it returns
    is the backend's response passed through the header filter: the status
    code is the backend's, error statuses included. *)
Theorem handle_proxy_request_forwards (W : Type)
  (net : processing_proxy.Net W) (config : processing_proxy.Settings)
  (urlparse_hostname : Py.str -> processing_proxy.outcome (option Py.str))
  (request : processing_proxy.Request)
  (remote_backend service_prefix proxy_path : Py.str)
  (s : processing_proxy.run_state W) (response : processing_proxy.Response) :
  processing_proxy.is_ascii (processing_proxy.req_method request) = true ->
  fst (processing_proxy.handle_proxy_request W net config urlparse_hostname request
         remote_backend service_prefix proxy_path s)
  = processing_proxy.Return response ->
  exists base host data upstream,
    processing_proxy.assoc_get
      (processing_proxy.REMOTE_PROCESSING_BACKEND_MAPPING config) remote_backend
    = Some base
    /\ urlparse_hostname (target_url base service_prefix proxy_path)
       = processing_proxy.Return host
    /\ processing_proxy.req_body request = processing_proxy.Return data
    /\ processing_proxy.exchanges
         (snd (processing_proxy.handle_proxy_request W net config urlparse_hostname
                 request remote_backend service_prefix proxy_path s))
       = processing_proxy.exchanges s
         ++ [processing_proxy.mkExchange
               (processing_proxy.Requests
                  (processing_proxy.lower (processing_proxy.req_method request))
                  (proxy_kwargs_of request
                     (target_url base service_prefix proxy_path) host data))
               (processing_proxy.Replied upstream)]
    /\ response = processing_proxy.requests_response_to_fastapi_response upstream
    /\ processing_proxy.out_status_code response
       = processing_proxy.status_code upstream
    /\ processing_proxy.out_content response = processing_proxy.content upstream
    /\ processing_proxy.assoc_get
         (processing_proxy.kw_headers
            (proxy_kwargs_of request (target_url base service_prefix proxy_path)
               host data)) (py "Host") = Some host.
Proof.
  intros _ H.
  destruct (handle_proxy_request_ok W net config urlparse_hostname request
              remote_backend service_prefix proxy_path s response H)
    as (base & host & data & up & text & w' & Hb & Hh & Hd & Hr & Hu & ->).
  exists base, host, data, up.
  rewrite (handle_proxy_request_run W net config urlparse_hostname request
             remote_backend service_prefix proxy_path base host data s Hb Hh Hd).
  cbv zeta. rewrite Hr, Hu. cbn [fst snd processing_proxy.exchanges].
  repeat (split; [first [assumption|reflexivity]|]).
  unfold proxy_kwargs_of. cbn [processing_proxy.kw_headers].
  rewrite assoc_get_set, Py_eqb_refl. reflexivity.
Qed.

Lemma handle_proxy_request_forwards_witness :
  let out :=
    processing_proxy.handle_proxy_request unit ProxyDemo.net ProxyDemo.settings
      ProxyDemo.urlparse_hostname ProxyDemo.request (py "eoepca") (py "jobs")
      (py "42/results") ProxyDemo.start in
  fst out
  = processing_proxy.Return
      (processing_proxy.mkResponse [Byte.x7b; Byte.x7d] 201
         [(py "Content-Type", py "application/json"); (py "X-Request-Id", py "7")])
  /\ map processing_proxy.asked (processing_proxy.exchanges (snd out))
     = [processing_proxy.Requests (py "post")
          (processing_proxy.mkProxyKwargs
             (py "https://ades.example.org/jobs/42/results")
             [(py "limit", py "5")]
             [(py "host", Some (py "proxy.example.org"));
              (py "x-user-id", Some (py "alice"));
              (py "Host", Some (py "ades.example.org"))]
             [Byte.x7b; Byte.x7d] false)]
  /\ exists base host data upstream,
       processing_proxy.exchanges (snd out)
       = [processing_proxy.mkExchange
            (processing_proxy.Requests (py "post")
               (proxy_kwargs_of ProxyDemo.request
                  (target_url base (py "jobs") (py "42/results")) host data))
            (processing_proxy.Replied upstream)].
Proof.
  cbv zeta. split; [vm_compute; reflexivity|]. split; [vm_compute; reflexivity|].
  destruct (handle_proxy_request_forwards unit ProxyDemo.net ProxyDemo.settings
              ProxyDemo.urlparse_hostname ProxyDemo.request (py "eoepca") (py "jobs")
              (py "42/results") ProxyDemo.start
              (processing_proxy.mkResponse [Byte.x7b; Byte.x7d] 201
                 [(py "Content-Type", py "application/json");
                  (py "X-Request-Id", py "7")]))
    as (base & host & data & upstream & _ & _ & _ & E & _).
  - reflexivity.
  - vm_compute. reflexivity.
  - exists base, host, data, upstream. exact E.
Defined.

(** X17.  [handle_proxy_request] decodes the body of the backend's response
    as UTF-8 in order to log it.  When the body is not UTF-8 text the call
    raises [UnicodeDecodeError] after the request has been sent and
    answered: the response is not passed back, whatever its status. *)
Theorem handle_proxy_request_needs_utf8_body (W : Type)
  (net : processing_proxy.Net W) (config : processing_proxy.Settings)
  (urlparse_hostname : Py.str -> processing_proxy.outcome (option Py.str))
  (request : processing_proxy.Request)
  (remote_backend service_prefix proxy_path base : Py.str)
  (host : option Py.str) (data : bytes) (w' : W)
  (upstream : processing_proxy.RequestsResponse)
  (s : processing_proxy.run_state W) :
  processing_proxy.is_ascii (processing_proxy.req_method request) = true ->
  processing_proxy.assoc_get
    (processing_proxy.REMOTE_PROCESSING_BACKEND_MAPPING config) remote_backend
  = Some base ->
  urlparse_hostname (target_url base service_prefix proxy_path)
  = processing_proxy.Return host ->
  processing_proxy.req_body request = processing_proxy.Return data ->
  processing_proxy.requests_call net
    (processing_proxy.lower (processing_proxy.req_method request))
    (proxy_kwargs_of request (target_url base service_prefix proxy_path) host data)
    (processing_proxy.world s)
  = (processing_proxy.Return upstream, w') ->
  let out := processing_proxy.handle_proxy_request W net config urlparse_hostname
               request remote_backend service_prefix proxy_path s in
  processing_proxy.exchanges (snd out)
  = processing_proxy.exchanges s
    ++ [processing_proxy.mkExchange
          (processing_proxy.Requests
             (processing_proxy.lower (processing_proxy.req_method request))
             (proxy_kwargs_of request (target_url base service_prefix proxy_path)
                host data))
          (processing_proxy.Replied upstream)]
  /\ (processing_proxy.decode (processing_proxy.content upstream) = None ->
      fst out = processing_proxy.Throw processing_proxy.UnicodeDecodeError)
  /\ (processing_proxy.decode (processing_proxy.content upstream) <> None ->
      fst out
      = processing_proxy.Return
          (processing_proxy.requests_response_to_fastapi_response upstream)).
Proof.
  intros _ Hb Hh Hd Hr. cbv zeta.
  rewrite (handle_proxy_request_run W net config urlparse_hostname request
             remote_backend service_prefix proxy_path base host data s Hb Hh Hd).
  cbv zeta. rewrite Hr.
  destruct (processing_proxy.decode (processing_proxy.content upstream)) as [text|];
    cbn [fst snd processing_proxy.exchanges].
  - split; [reflexivity|]. split; [discriminate|reflexivity].
  - split; [reflexivity|]. split; [reflexivity|]. intros N. contradiction.
Qed.

Lemma handle_proxy_request_needs_utf8_body_witness :
  processing_proxy.decode [Byte.xff; Byte.xd8] = None
  /\ fst (processing_proxy.handle_proxy_request unit ProxyDemo.binary_net
            ProxyDemo.settings ProxyDemo.urlparse_hostname ProxyDemo.request
            (py "eoepca") (py "jobs") [] ProxyDemo.start)
     = processing_proxy.Throw processing_proxy.UnicodeDecodeError.
Proof.
  split; [reflexivity|].
  apply (handle_proxy_request_needs_utf8_body unit ProxyDemo.binary_net
           ProxyDemo.settings ProxyDemo.urlparse_hostname ProxyDemo.request
           (py "eoepca") (py "jobs") [] (py "https://ades.example.org")
           (Some (py "ades.example.org")) [Byte.x7b; Byte.x7d] tt
           (processing_proxy.mkRequestsResponse [] [Byte.xff; Byte.xd8] 200)
           ProxyDemo.start); reflexivity.
Defined.

Section CatalogAndDeploy.

Import processing_proxy.

Variable W : Type.
Variable net : Net W.
Variable config : Settings.

(** [_fetch_cwl_link_from_catalog], by the network's answer. *)
Lemma _fetch_cwl_link_from_catalog_run (process : Py.str) (s : run_state W) :
  let url := PStr (RESOURCE_CATALOG_METADATA_URL config ++ py "/" ++ process) in
  let params := Some [(py "f", py "json")] in
  let line := Line (py "Fetching catalog from "
                      ++ RESOURCE_CATALOG_METADATA_URL config) in
  let pick (response : HttpxResponse) : outcome pyval :=
    match x_json response with
    | Throw e => Throw e
    | Return document =>
        match getitem document (py "links") with
        | Throw e => Throw e
        | Return links =>
            match iterate links with
            | Throw e => Throw e
            | Return items =>
                match manifest_links items with
                | Throw e => Throw e
                | Return found =>
                    match unpack_one found with
                    | Throw e => Throw e
                    | Return link => getitem link (py "href")
                    end
                end
            end
        end
    end in
  _fetch_cwl_link_from_catalog W net config process s
  = match httpx_get net url params (world s) with
    | (Throw e, w') =>
        (Throw e,
         mkState w' (exchanges s ++ [mkExchange (HttpxGet url params) (Refused e)])
                 (logged s ++ [line]))
    | (Return response, w') =>
        (match x_raise_for_status response with
         | Some e => Throw e
         | None => pick response
         end,
         mkState w'
           (exchanges s ++ [mkExchange (HttpxGet url params) (Answered response)])
           (logged s ++ [line]))
    end.
Proof.
  cbv zeta. unfold _fetch_cwl_link_from_catalog.
  unfold bind at 1. unfold logger_info at 1.
  unfold bind at 1. rewrite _do_download_run. cbn [world exchanges logged].
  destruct (httpx_get net _ _ (world s)) as [[response|e] w']; [|reflexivity].
  destruct (x_raise_for_status response); [reflexivity|].
  unfold bind, lift.
  destruct (x_json response) as [document|e]; [|reflexivity].
  destruct (getitem document (py "links")) as [links|e]; [|reflexivity].
  destruct (iterate links) as [items|e]; [|reflexivity].
  destruct (manifest_links items) as [found|e]; [|reflexivity].
  destruct (unpack_one found) as [link|e]; reflexivity.
Qed.

(** What a call of [_fetch_cwl_link_from_catalog] that returns has done. *)
Lemma _fetch_cwl_link_from_catalog_ok (process : Py.str) (s s1 : run_state W)
  (link : pyval) :
  _fetch_cwl_link_from_catalog W net config process s = (Return link, s1) ->
  exists response,
    exchanges s1
    = exchanges s
      ++ [mkExchange
            (HttpxGet (PStr (RESOURCE_CATALOG_METADATA_URL config ++ py "/" ++ process))
                      (Some [(py "f", py "json")]))
            (Answered response)].
Proof.
  rewrite _fetch_cwl_link_from_catalog_run. cbv zeta.
  destruct (httpx_get net _ _ (world s)) as [[response|e] w']; [|discriminate].
  intros H. inversion H. exists response. reflexivity.
Qed.

(** [deploy_process] after the catalog gave the link. *)
Lemma deploy_process_run (request : Request) (remote_backend process : Py.str)
  (s s1 : run_state W) (link : pyval) :
  _fetch_cwl_link_from_catalog W net config process s = (Return link, s1) ->
  deploy_process W net config request remote_backend process s
  = match assoc_get (REMOTE_PROCESSING_BACKEND_MAPPING config) remote_backend with
    | None =>
        (Throw (HTTPException 400 (py "Invalid remote backend " ++ remote_backend)),
         s1)
    | Some base =>
        let url := base ++ py "/processes" in
        let line := Line (py "Deploying process at " ++ url) in
        match req_header request (py "x-user-id") with
        | None =>
            (Throw (KeyError (py "x-user-id")),
             mkState (world s1) (exchanges s1) (logged s1 ++ [line]))
        | Some user_id =>
            let post := HttpxPost url [(py "X-User-Id", user_id)]
                                  (deploy_body link) in
            match httpx_post net url [(py "X-User-Id", user_id)] (deploy_body link)
                    (world s1) with
            | (Throw e, w') =>
                (Throw e,
                 mkState w' (exchanges s1 ++ [mkExchange post (Refused e)])
                         (logged s1 ++ [line]))
            | (Return response, w') =>
                match decode (x_content response) with
                | None =>
                    (Throw UnicodeDecodeError,
                     mkState w' (exchanges s1 ++ [mkExchange post (Answered response)])
                             (logged s1 ++ [line]))
                | Some text =>
                    (match x_raise_for_status response with
                     | Some e => Throw e
                     | None =>
                         match x_header response (py "Location") with
                         | Some location => Return location
                         | None => Throw (KeyError (py "Location"))
                         end
                     end,
                     mkState w' (exchanges s1 ++ [mkExchange post (Answered response)])
                       (logged s1
                          ++ [line;
                              Line (py "Process deploy response: "
                                      ++ firstn 1000 text)]))
                end
            end
        end
    end.
Proof.
  intros F. unfold deploy_process. unfold bind at 1. rewrite F.
  unfold remote_backend_to_url, raise_for_status, bind, lift, logger_info, perform.
  destruct (assoc_get _ remote_backend) as [base|]; [|reflexivity].
  cbn [world exchanges logged]. cbv zeta.
  destruct (req_header request (py "x-user-id")) as [user_id|]; [|reflexivity].
  fold (deploy_body link).
  destruct (httpx_post net _ _ _ (world s1)) as [[response|e] w'];
    cbn [world exchanges logged]; [|reflexivity].
  destruct (decode (x_content response)) as [text|]; cbn [world exchanges logged];
    [|reflexivity].
  rewrite <- app_assoc. cbn [app].
  destruct (x_raise_for_status response); [reflexivity|].
  destruct (x_header response (py "Location")); reflexivity.
Qed.

End CatalogAndDeploy.

(** X18.  When the catalog answers with a record whose [links] is a list of
    objects, [_fetch_cwl_link_from_catalog] sends that one request and
    then: if some link has no [rel] it raises [KeyError], even when a
    manifest link is present; otherwise it returns the [href] of the link
    whose [rel] is "manifest" when there is exactly one such link
    ([KeyError] if that link has no [href]), and raises [ValueError] when
    there is none or more than one (it does not take the first). *)
Theorem fetch_cwl_link_needs_one_manifest (W : Type)
  (net : processing_proxy.Net W) (config : processing_proxy.Settings)
  (process : Py.str) (s : processing_proxy.run_state W)
  (response : processing_proxy.HttpxResponse) (w' : W)
  (record : list (Py.str * pyval)) (links : list (list (Py.str * pyval))) :
  processing_proxy.httpx_get net
    (PStr (processing_proxy.RESOURCE_CATALOG_METADATA_URL config ++ py "/" ++ process))
    (Some [(py "f", py "json")]) (processing_proxy.world s)
  = (processing_proxy.Return response, w') ->
  processing_proxy.x_raise_for_status response = None ->
  processing_proxy.x_json response = processing_proxy.Return (PDict record) ->
  dict_get record (py "links") = Some (PList (map PDict links)) ->
  let out := processing_proxy._fetch_cwl_link_from_catalog W net config process s in
  processing_proxy.exchanges (snd out)
  = processing_proxy.exchanges s
    ++ [processing_proxy.mkExchange
          (processing_proxy.HttpxGet
             (PStr (processing_proxy.RESOURCE_CATALOG_METADATA_URL config
                      ++ py "/" ++ process))
             (Some [(py "f", py "json")]))
          (processing_proxy.Answered response)]
  /\ fst out
     = if forallb has_rel links then
         match filter is_manifest links with
         | [link] =>
             match dict_get link (py "href") with
             | Some href => processing_proxy.Return href
             | None => processing_proxy.Throw (processing_proxy.KeyError (py "href"))
             end
         | _ => processing_proxy.Throw processing_proxy.ValueError
         end
       else processing_proxy.Throw (processing_proxy.KeyError (py "rel")).
Proof.
  intros Hg Hs Hj Hl. cbv zeta.
  rewrite _fetch_cwl_link_from_catalog_run. cbv zeta.
  rewrite Hg, Hs, Hj. cbn [fst snd processing_proxy.exchanges].
  split; [reflexivity|].
  cbn [processing_proxy.getitem]. rewrite Hl.
  cbn [processing_proxy.iterate]. rewrite manifest_links_dicts.
  destruct (forallb has_rel links); [|reflexivity].
  destruct (filter is_manifest links) as [|l [|l2 rest]]; reflexivity.
Qed.

Lemma fetch_cwl_link_needs_one_manifest_witness :
  fst (processing_proxy._fetch_cwl_link_from_catalog unit ProxyDemo.net
         ProxyDemo.settings (py "snuggs") ProxyDemo.start)
  = processing_proxy.Return (PStr (py "https://cwl.example.org/snuggs.cwl")).
Proof.
  destruct (fetch_cwl_link_needs_one_manifest unit ProxyDemo.net ProxyDemo.settings
              (py "snuggs") ProxyDemo.start
              (processing_proxy.mkHttpxResponse None
                 (processing_proxy.Return ProxyDemo.catalog_record) []
                 (fun _ => None))
              tt
              [(py "id", PStr (py "snuggs"));
               (py "links",
                PList [PDict [(py "rel", PStr (py "self"));
                              (py "href",
                               PStr (py "https://catalog.example.org/items/snuggs"))];
                       ProxyDemo.manifest_link])]
              [[(py "rel", PStr (py "self"));
                (py "href", PStr (py "https://catalog.example.org/items/snuggs"))];
               [(py "rel", PStr (py "manifest"));
                (py "href", PStr (py "https://cwl.example.org/snuggs.cwl"))]])
    as (_ & H); [reflexivity|reflexivity|reflexivity|reflexivity|].
  rewrite H. reflexivity.
Defined.

(** X19.  [deploy_process] asks the catalog first.  Only when the catalog
    gave a link is the backend name looked up (an unknown one is refused
    with the HTTP error 400 after the catalog request has been made), and
    only then is the [x-user-id] header of the incoming request read: when
    it is missing the call raises [KeyError] and no deploy request is
    sent.  Otherwise one POST goes to [<backend address>/processes] with
    the header [X-User-Id] and the link as the application package. *)
Theorem deploy_process_checks_in_order (W : Type)
  (net : processing_proxy.Net W) (config : processing_proxy.Settings)
  (request : processing_proxy.Request) (remote_backend process : Py.str)
  (s s1 : processing_proxy.run_state W) (link : pyval) :
  processing_proxy._fetch_cwl_link_from_catalog W net config process s
  = (processing_proxy.Return link, s1) ->
  let out := processing_proxy.deploy_process W net config request remote_backend
               process s in
  let mapped := processing_proxy.assoc_get
                  (processing_proxy.REMOTE_PROCESSING_BACKEND_MAPPING config)
                  remote_backend in
  (exists catalog_response,
      processing_proxy.exchanges s1
      = processing_proxy.exchanges s
        ++ [processing_proxy.mkExchange
              (processing_proxy.HttpxGet
                 (PStr (processing_proxy.RESOURCE_CATALOG_METADATA_URL config
                          ++ py "/" ++ process))
                 (Some [(py "f", py "json")]))
              (processing_proxy.Answered catalog_response)])
  /\ (mapped = None ->
      fst out = processing_proxy.Throw
                  (processing_proxy.HTTPException 400
                     (py "Invalid remote backend " ++ remote_backend))
      /\ processing_proxy.exchanges (snd out) = processing_proxy.exchanges s1)
  /\ (forall base,
        mapped = Some base ->
        processing_proxy.req_header request (py "x-user-id") = None ->
        fst out = processing_proxy.Throw (processing_proxy.KeyError (py "x-user-id"))
        /\ processing_proxy.exchanges (snd out) = processing_proxy.exchanges s1)
  /\ (forall base user_id,
        mapped = Some base ->
        processing_proxy.req_header request (py "x-user-id") = Some user_id ->
        exists answer,
          processing_proxy.exchanges (snd out)
          = processing_proxy.exchanges s1
            ++ [processing_proxy.mkExchange
                  (processing_proxy.HttpxPost (base ++ py "/processes")
                     [(py "X-User-Id", user_id)] (deploy_body link))
                  answer]).
Proof.
  intros F. cbv zeta.
  split; [eapply _fetch_cwl_link_from_catalog_ok; exact F|].
  rewrite (deploy_process_run W net config request remote_backend process s s1
             link F).
  split; [|split].
  - intros ->. split; reflexivity.
  - intros base -> ->. split; reflexivity.
  - intros base user_id -> ->. cbv zeta.
    destruct (processing_proxy.httpx_post net _ _ _ (processing_proxy.world s1))
      as [[response|e] w']; [|eexists; reflexivity].
    destruct (processing_proxy.decode (processing_proxy.x_content response));
      eexists; reflexivity.
Qed.

Lemma deploy_process_checks_in_order_witness :
  let out := processing_proxy.deploy_process unit ProxyDemo.net ProxyDemo.settings
               ProxyDemo.request (py "elsewhere") (py "snuggs") ProxyDemo.start in
  fst out = processing_proxy.Throw
              (processing_proxy.HTTPException 400
                 (py "Invalid remote backend elsewhere"))
  /\ List.length (processing_proxy.exchanges (snd out)) = 1.
Proof.
  cbv zeta. split; [|vm_compute; reflexivity].
  apply (deploy_process_checks_in_order unit ProxyDemo.net ProxyDemo.settings
           ProxyDemo.request (py "elsewhere") (py "snuggs") ProxyDemo.start
           (snd (processing_proxy._fetch_cwl_link_from_catalog unit ProxyDemo.net
                   ProxyDemo.settings (py "snuggs") ProxyDemo.start))
           (PStr (py "https://cwl.example.org/snuggs.cwl"))).
  - vm_compute. reflexivity.
  - reflexivity.
Defined.

Section ExecuteProcess.

Import processing_proxy.

Variable W : Type.
Variable net : Net W.
Variable config : Settings.


Variable urlparse_hostname : Py.str -> outcome (option Py.str).


End ExecuteProcess.

Section LastSegment.

Lemma last_slash (s : Py.str) :
  existsb (N.eqb json.SLASH) s = false
  \/ exists a b, s = a ++ json.SLASH :: b /\ existsb (N.eqb json.SLASH) b = false.
Proof.
  induction s as [|c r IH]; [left; reflexivity|].
  destruct IH as [IH|(a & b & -> & Hb)].
  - cbn [existsb]. destruct (N.eqb json.SLASH c) eqn:E.
    + right. apply N.eqb_eq in E. subst c. exists [], r. auto.
    + left. exact IH.
  - right. exists (c :: a), b. auto.
Qed.

Lemma last_segment_after_slash (a b : Py.str) :
  existsb (N.eqb json.SLASH) b = false ->
  processing_proxy.last_segment (a ++ json.SLASH :: b) = b.
Proof.
  intros Hb. unfold processing_proxy.last_segment.
  rewrite split_slash, (split_plain b Hb). apply last_last.
Qed.

Lemma last_segment_plain (s : Py.str) :
  existsb (N.eqb json.SLASH) s = false -> processing_proxy.last_segment s = s.
Proof.
  intros H. unfold processing_proxy.last_segment. rewrite (split_plain s H).
  reflexivity.
Qed.

End LastSegment.



(** X21.  The process id [execute_process] takes from the [Location] header
    is the text after its last slash: it holds no slash, the header is a
    prefix followed by the id, the prefix being empty (then the id is the
    whole header) or ending with a slash.  A [Location] that ends with a
    slash gives the empty id. *)
Theorem process_id_is_text_after_last_slash (location : Py.str) :
  ~ In json.SLASH (processing_proxy.last_segment location)
  /\ (exists prefix,
        location = prefix ++ processing_proxy.last_segment location
        /\ (prefix = [] \/ exists p, prefix = p ++ [json.SLASH]))
  /\ (forall a b, ~ In json.SLASH b ->
                  processing_proxy.last_segment (a ++ py "/" ++ b) = b)
  /\ processing_proxy.last_segment (location ++ py "/") = [].
Proof.
  assert (A : forall a b, ~ In json.SLASH b ->
                          processing_proxy.last_segment (a ++ py "/" ++ b) = b).
  { intros a b Hb. apply last_segment_after_slash.
    destruct (existsb (N.eqb json.SLASH) b) eqn:E; [|reflexivity].
    apply existsb_exists in E as (x & Hx & Ex). apply N.eqb_eq in Ex. subst x.
    contradiction. }
  split; [|split; [|split; [exact A|apply A; intros []]]].
  - unfold processing_proxy.last_segment.
    apply (last_Forall (fun seg => ~ In json.SLASH seg)); [intros []|].
    apply split_no_slash.
  - destruct (last_slash location) as [H|(a & b & -> & Hb)].
    + exists []. rewrite (last_segment_plain location H). auto.
    + exists (a ++ [json.SLASH]). rewrite (last_segment_after_slash a b Hb).
      rewrite <- app_assoc. split; [reflexivity|]. right. exists a. reflexivity.
Qed.

Section GetApplication.

Import processing_proxy.

Variable W : Type.
Variable net : Net W.
Variable config : Settings.
Variable yaml_safe_load : bytes -> outcome pyval.
Variable JSONResponse : pyval -> outcome Response.

(** [get_application], by the outcome of the catalog lookup and the
    network's answer to the second download. *)
Lemma get_application_run (application : Py.str) (s : run_state W) :
  get_application W net config yaml_safe_load JSONResponse application s
  = match _fetch_cwl_link_from_catalog W net config application s with
    | (Throw e, s1) => (Throw e, s1)
    | (Return link, s1) =>
        match httpx_get net link None (world s1) with
        | (Throw e, w') =>
            (Throw e,
             mkState w' (exchanges s1 ++ [mkExchange (HttpxGet link None) (Refused e)])
                     (logged s1 ++ [FetchingCwlFrom link]))
        | (Return cwl_response, w') =>
            (match x_raise_for_status cwl_response with
             | Some e => Throw e
             | None =>
                 match yaml_safe_load (x_content cwl_response) with
                 | Throw e => Throw e
                 | Return document => JSONResponse document
                 end
             end,
             mkState w'
               (exchanges s1
                  ++ [mkExchange (HttpxGet link None) (Answered cwl_response)])
               (logged s1 ++ [FetchingCwlFrom link]))
        end
    end.
Proof.
  unfold get_application. unfold bind at 1.
  destruct (_fetch_cwl_link_from_catalog W net config application s)
    as [[link|e] s1]; [|reflexivity].
  unfold bind at 1. unfold logger_info at 1.
  unfold bind at 1. rewrite _do_download_run. cbn [world exchanges logged].
  destruct (httpx_get net link None (world s1)) as [[cwl_response|e] w'];
    [|reflexivity].
  destruct (x_raise_for_status cwl_response); [reflexivity|].
  unfold bind, lift.
  destruct (yaml_safe_load (x_content cwl_response)); reflexivity.
Qed.

End GetApplication.

(** X22.  [get_application] downloads twice, in this order: the catalog
    record of the application, then whatever the manifest link of that
    record points at, the link being handed to [httpx] as it came (any
    JSON value) and without parameters.  When the link cannot be taken
    from the catalog the call ends there with that exception and nothing
    more is downloaded; when the second download is refused or answered
    with an error status that exception is raised; else the result is
    [JSONResponse] of the content read as YAML. *)
Theorem get_application_downloads_the_manifest (W : Type)
  (net : processing_proxy.Net W) (config : processing_proxy.Settings)
  (yaml_safe_load : bytes -> processing_proxy.outcome pyval)
  (JSONResponse : pyval -> processing_proxy.outcome processing_proxy.Response)
  (application : Py.str) (s : processing_proxy.run_state W) :
  let fetched := processing_proxy._fetch_cwl_link_from_catalog W net config
                   application s in
  let out := processing_proxy.get_application W net config yaml_safe_load
               JSONResponse application s in
  match fst fetched with
  | processing_proxy.Throw e => out = (processing_proxy.Throw e, snd fetched)
  | processing_proxy.Return link =>
      (exists cwl_response,
          processing_proxy.exchanges (snd out)
          = processing_proxy.exchanges (snd fetched)
            ++ [processing_proxy.mkExchange (processing_proxy.HttpxGet link None)
                  (processing_proxy.Answered cwl_response)]
          /\ fst out
             = match processing_proxy.x_raise_for_status cwl_response with
               | Some e => processing_proxy.Throw e
               | None =>
                   match yaml_safe_load (processing_proxy.x_content cwl_response)
                   with
                   | processing_proxy.Throw e => processing_proxy.Throw e
                   | processing_proxy.Return document => JSONResponse document
                   end
               end)
      \/ (exists e,
            processing_proxy.exchanges (snd out)
            = processing_proxy.exchanges (snd fetched)
              ++ [processing_proxy.mkExchange (processing_proxy.HttpxGet link None)
                    (processing_proxy.Refused e)]
            /\ fst out = processing_proxy.Throw e)
  end.
Proof.
  cbv zeta. rewrite get_application_run.
  destruct (processing_proxy._fetch_cwl_link_from_catalog W net config application s)
    as [[link|e] s1]; cbn [fst snd]; [|reflexivity].
  destruct (processing_proxy.httpx_get net link None (processing_proxy.world s1))
    as [[cwl_response|e] w']; cbn [fst snd processing_proxy.exchanges].
  - left. exists cwl_response. auto.
  - right. exists e. auto.
Qed.
